(** * The analysis pipeline of llm_industry_report (src/analysis.py)

    A shallow embedding of [AnalysisEngine]: the Python values the engine
    handles, the built-ins it calls, each method as a Rocq function, and the
    properties of the pipeline; then the prompt that [ReportGenerator]
    (src/report_generator.py) builds from the result of the pipeline.

    Conventions of the embedding.
    - JSON-shaped Python objects are the inductive [value]; a [dict] is an
      association list in insertion order with distinct keys, as Python
      iterates it.
    - A call that can raise returns a [result]; methods that mutate the
      analysis object or print run in the monad [M] over the state [pstate].
    - Python [str] is [string]; case mapping and whitespace are those of the
      ASCII range (code points above 127 are left alone by the model).
    - Python [float] is an exact rational [Q]: rounding, NaN and the
      infinities are not modelled; the quality score is also computed in
      binary64 for the counts the specification names.
    - What the interpreter alone decides (the text of [str(x)] for a
      non-string, hash values, [float] of a string, the JSON parser, the
      clock) is a field of the class [Runtime]; the formatting of an ISO
      date is the field of the class [Calendar]. *)

From Stdlib Require Import List String Ascii Bool Arith ZArith QArith Qminmax Lia.
From Stdlib Require Uint63.
From Stdlib Require Import PrimFloat.
From Stdlib Require Import Permutation Sorted.
Import ListNotations.
Close Scope Q_scope.
Open Scope string_scope.
Open Scope nat_scope.
Open Scope list_scope.
#[local] Set Warnings "-register-all,-inexact-float".

(** ** Values and exceptions *)

Inductive value : Type :=
| VNone
| VBool (b : bool)
| VInt (n : Z)
| VFloat (x : Q)
| VStr (s : string)
| VList (items : list value)
| VDict (entries : list (string * value)).

Definition dict : Type := list (string * value).

Inductive exn : Type :=
| KeyError (key : string)
| AttributeError
| TypeError
| ValueError
| OverflowError
| APIError
| JSONDecodeError
| RetryError (last : exn).

Inductive result (A : Type) : Type :=
| Ok (a : A)
| Raise (e : exn).
Arguments Ok {A} a.
Arguments Raise {A} e.

Definition rbind {A B} (r : result A) (k : A -> result B) : result B :=
  match r with
  | Ok a => k a
  | Raise e => Raise e
  end.

Declare Scope result_scope.
Delimit Scope result_scope with result.
Notation "'do' x <- c ; k" := (rbind c (fun x => k))
  (at level 10, x name, c at level 100, k at level 200) : result_scope.

Fixpoint rmap {A B} (f : A -> result B) (l : list A) : result (list B) :=
  match l with
  | [] => Ok []
  | a :: t =>
      (do b <- f a; do bs <- rmap f t; Ok (b :: bs))%result
  end.

Definition is_ok {A} (r : result A) : bool :=
  match r with Ok _ => true | Raise _ => false end.

(** ** Strings: [str.strip], [str.capitalize], [str.split], [str.join] *)

(** [str.isspace] on the ASCII range: TAB, LF, VT, FF, CR, FS, GS, RS, US and
    the space. *)
Definition is_space (c : ascii) : bool :=
  let n := nat_of_ascii c in
  ((9 <=? n) && (n <=? 13)) || ((28 <=? n) && (n <=? 32)).

Definition is_upper (c : ascii) : bool :=
  let n := nat_of_ascii c in (65 <=? n) && (n <=? 90).

Definition is_lower (c : ascii) : bool :=
  let n := nat_of_ascii c in (97 <=? n) && (n <=? 122).

Definition to_upper (c : ascii) : ascii :=
  if is_lower c then ascii_of_nat (nat_of_ascii c - 32) else c.

Definition to_lower (c : ascii) : ascii :=
  if is_upper c then ascii_of_nat (nat_of_ascii c + 32) else c.

Fixpoint lstrip (s : string) : string :=
  match s with
  | EmptyString => EmptyString
  | String c t => if is_space c then lstrip t else s
  end.

Fixpoint rstrip (s : string) : string :=
  match s with
  | EmptyString => EmptyString
  | String c t =>
      match rstrip t with
      | EmptyString => if is_space c then EmptyString else String c EmptyString
      | r => String c r
      end
  end.

Definition strip (s : string) : string := rstrip (lstrip s).

Fixpoint lower (s : string) : string :=
  match s with
  | EmptyString => EmptyString
  | String c t => String (to_lower c) (lower t)
  end.

(** [str.capitalize]: the first character upper-cased, all the others
    lower-cased. *)
Definition capitalize (s : string) : string :=
  match s with
  | EmptyString => EmptyString
  | String c t => String (to_upper c) (lower t)
  end.

Definition newline : ascii := ascii_of_nat 10.
Definition nl : string := String newline EmptyString.

(** [s.split('\n')]: never empty, the empty string splits into [['']]. *)
Fixpoint split_lines (s : string) : list string :=
  match s with
  | EmptyString => [EmptyString]
  | String c t =>
      if Ascii.eqb c newline then EmptyString :: split_lines t
      else match split_lines t with
           | h :: r => String c h :: r
           | [] => [String c EmptyString]
           end
  end.

(** [sep.join(parts)]. *)
Definition join (sep : string) (parts : list string) : string :=
  String.concat sep parts.

(** The characters of a string, each as a one-character string (iterating a
    [str]). *)
Fixpoint chars (s : string) : list string :=
  match s with
  | EmptyString => []
  | String c t => String c EmptyString :: chars t
  end.

(** ** Dictionaries in insertion order *)

Fixpoint dict_get (d : dict) (k : string) : option value :=
  match d with
  | [] => None
  | (k', v) :: t => if String.eqb k k' then Some v else dict_get t k
  end.

Definition dict_mem (d : dict) (k : string) : bool :=
  match dict_get d k with Some _ => true | None => false end.

(** [d[k] = v]: an existing key keeps its position, a new key goes last. *)
Fixpoint dict_set (d : dict) (k : string) (v : value) : dict :=
  match d with
  | [] => [(k, v)]
  | (k', v') :: t =>
      if String.eqb k k' then (k', v) :: t else (k', v') :: dict_set t k v
  end.

(** [d.update(other)]. *)
Definition dict_update (d other : dict) : dict :=
  fold_left (fun acc kv => dict_set acc (fst kv) (snd kv)) other d.

Definition dict_keys (d : dict) : list string := map fst d.

(** ** Built-ins on values *)

(** [v.get(k, default)]: only a dict has the method. *)
Definition get_method (v : value) (k : string) (default : value) : result value :=
  match v with
  | VDict d => Ok (match dict_get d k with Some x => x | None => default end)
  | _ => Raise AttributeError
  end.

(** [v[k]] with a string key. *)
Definition subscript (v : value) (k : string) : result value :=
  match v with
  | VDict d => match dict_get d k with Some x => Ok x | None => Raise (KeyError k) end
  | _ => Raise TypeError
  end.

(** Truth value of an object in a condition. *)
Definition truthy (v : value) : bool :=
  match v with
  | VNone => false
  | VBool b => b
  | VInt n => negb (Z.eqb n 0)
  | VFloat x => negb (Qeq_bool x 0%Q)
  | VStr s => negb (String.eqb s EmptyString)
  | VList l => match l with [] => false | _ => true end
  | VDict d => match d with [] => false | _ => true end
  end.

(** [for x in v]: a list yields its items, a dict its keys, a string its
    characters; anything else is not iterable. *)
Definition py_iter (v : value) : result (list value) :=
  match v with
  | VList l => Ok l
  | VDict d => Ok (map VStr (dict_keys d))
  | VStr s => Ok (map VStr (chars s))
  | _ => Raise TypeError
  end.

(** [len(v)]. *)
Definition py_len (v : value) : result nat :=
  match v with
  | VList l => Ok (List.length l)
  | VDict d => Ok (List.length d)
  | VStr s => Ok (String.length s)
  | _ => Raise TypeError
  end.

(** [v[:n]]: lists and strings can be sliced; a dict looks the slice up as a
    key and does not find it; the other values are not subscriptable. *)
Definition slice_to (n : nat) (v : value) : result value :=
  match v with
  | VList l => Ok (VList (firstn n l))
  | VStr s => Ok (VStr (substring 0 (Nat.min n (String.length s)) s))
  | VDict _ => Raise (KeyError "slice")
  | _ => Raise TypeError
  end.

Definition is_dict (v : value) : bool :=
  match v with VDict _ => true | _ => false end.

Definition is_list (v : value) : bool :=
  match v with VList _ => true | _ => false end.

Definition is_str (v : value) : bool :=
  match v with VStr _ => true | _ => false end.

(** [isinstance(v, (int, float))]: [bool] is a subclass of [int]. *)
Definition is_number (v : value) : bool :=
  match v with VBool _ | VInt _ | VFloat _ => true | _ => false end.

(** Values that [hash] accepts: lists and dicts are unhashable. *)
Definition hashable (v : value) : bool :=
  match v with VList _ | VDict _ => false | _ => true end.

(** What only the interpreter and its libraries decide. *)
Class Runtime : Type := {
  (** [str(v)] for a value that is not a string *)
  repr_value : value -> string;
  (** [hash(s)] of a string *)
  hash_str : string -> Z;
  (** [hash(frozenset(items))] of key-sorted items with hashable values *)
  hash_frozenset : list (string * value) -> Z;
  (** [float(s)] of a string, [None] when it raises ValueError *)
  float_of_str : string -> option Q;
  (** [json.loads], [None] when it raises *)
  json_loads : string -> option value;
  (** [datetime.now(timezone.utc).isoformat()] *)
  utc_now_iso : string
}.

(** [str(v)], the text an f-string inserts. *)
Definition py_str `{Runtime} (v : value) : string :=
  match v with
  | VStr s => s
  | _ => repr_value v
  end.

(** ** Preprocessor (analysis.py, lines 41-54) *)

(** The list comprehension of [extract_text]: the filter [a.get('description')]
    is evaluated first, then [a['title']] and [a['description']]. *)
Fixpoint extract_items `{Runtime} (articles : list value) : result (list value) :=
  match articles with
  | [] => Ok []
  | a :: rest =>
      (do d <- get_method a "description" VNone;
       if truthy d then
         do t <- subscript a "title";
         do d' <- subscript a "description";
         do tl <- extract_items rest;
         Ok (VStr (py_str t ++ ": " ++ py_str d')%string :: tl)
       else extract_items rest)%result
  end.

Definition extract_text `{Runtime} (articles : value) : result value :=
  (do items <- py_iter articles;
   do texts <- extract_items items;
   Ok (VList texts))%result.

Definition search_line `{Runtime} (r : value) : result string :=
  (do t <- get_method r "title" (VStr "");
   do s <- get_method r "snippet" (VStr "");
   Ok (py_str t ++ ": " ++ py_str s)%string)%result.

Definition process_search_results `{Runtime} (results : value) : result value :=
  (do organic <- get_method results "organic_results" (VList []);
   do first20 <- slice_to 20 organic;
   do items <- py_iter first20;
   do lines <- rmap search_line items;
   Ok (VStr (join nl lines)))%result.

Definition preprocess_data `{Runtime} (raw_data : value) : result value :=
  (do market_news <- get_method raw_data "market_news" (VDict []);
   do articles <- get_method market_news "articles" (VList []);
   do news <- extract_text articles;
   do results <- get_method raw_data "search_results" (VDict []);
   do search <- process_search_results results;
   Ok (VDict [("news", news); ("search_results", search)]))%result.

(** ** Chunker (analysis.py, lines 82-96) *)

(** One turn of the news loop: append [{'news': article}] to the current
    chunk and flush it once it holds [max_items] entries. *)
Definition news_step (max_items : Z) (st : list value * list value) (article : value)
  : list value * list value :=
  let (chunks, current_chunk) := st in
  let current_chunk := current_chunk ++ [VDict [("news", article)]] in
  if (Z.of_nat (List.length current_chunk) >=? max_items)%Z
  then (chunks ++ [VDict [("news", VList current_chunk)]], [])
  else (chunks, current_chunk).

Definition news_loop (max_items : Z) (articles : list value) : list value * list value :=
  fold_left (news_step max_items) articles ([], []).

(** [range(i, len(items), step)] with [step > 0], each index giving the slice
    [items[i:i+step]]; [fuel] bounds the number of turns. *)
Fixpoint range_slices {A} (fuel step i : nat) (items : list A) : list (list A) :=
  match fuel with
  | 0 => []
  | S fuel' =>
      if i <? List.length items
      then firstn step (skipn i items) :: range_slices fuel' step (i + step) items
      else []
  end.

Definition search_chunk (lines : list string) : value :=
  VDict [("search_results", VList (map VStr lines))].

Definition search_loop (max_items : Z) (search_items : list string) : result (list value) :=
  if (max_items =? 0)%Z then Raise ValueError
  else if (max_items <? 0)%Z then Ok []
  else Ok (map search_chunk
             (range_slices (List.length search_items) (Z.to_nat max_items) 0 search_items)).

Definition split_method (v : value) : result (list string) :=
  match v with
  | VStr s => Ok (split_lines s)
  | _ => Raise AttributeError
  end.

Definition chunk_data (data : value) (max_items : Z) : result (list value) :=
  (do news <- get_method data "news" (VList []);
   do first20 <- slice_to 20 news;
   do articles <- py_iter first20;
   let chunks := fst (news_loop max_items articles) in
   do search <- get_method data "search_results" (VStr "");
   do lines <- split_method search;
   do search_chunks <- search_loop max_items (firstn 10 lines);
   Ok (chunks ++ search_chunks))%result.

(** The shape [preprocess_data] produces. *)
Definition preprocessed (news : list string) (search_results : string) : value :=
  VDict [("news", VList (map VStr news)); ("search_results", VStr search_results)].

(** A news chunk as the loop builds it: every article wrapped on its own. *)
Definition news_entry (article : string) : value := VDict [("news", VStr article)].

Definition news_chunk (batch : list string) : value :=
  VDict [("news", VList (map news_entry batch))].

(** The search batches for bound 5 and at most ten lines. *)
Definition search_batches (lines : list string) : list (list string) :=
  if List.length lines <=? 5 then [lines] else [firstn 5 lines; skipn 5 lines].

(** ** Response merger (analysis.py, lines 98-109) *)

(** The value a key holds after one more response value [v], [old] being
    what it held: [setdefault(key, []).extend(v)] for a list,
    [setdefault(key, {}).update(v)] for a dict, the stripped f-string
    otherwise. *)
Definition merge_value `{Runtime} (old : option value) (v : value) : result value :=
  match v with
  | VList l =>
      match old with
      | None => Ok (VList l)
      | Some (VList l0) => Ok (VList (l0 ++ l))
      | Some _ => Raise AttributeError
      end
  | VDict d =>
      match old with
      | None => Ok (VDict (dict_update [] d))
      | Some (VDict d0) => Ok (VDict (dict_update d0 d))
      | Some _ => Raise AttributeError
      end
  | _ =>
      let previous := match old with Some x => x | None => VStr "" end in
      Ok (VStr (strip (py_str previous ++ nl ++ py_str v)%string))
  end.

Definition merge_item `{Runtime} (merged : dict) (key : string) (v : value) : result dict :=
  (do x <- merge_value (dict_get merged key) v; Ok (dict_set merged key x))%result.

Fixpoint merge_items `{Runtime} (merged : dict) (items : list (string * value)) : result dict :=
  match items with
  | [] => Ok merged
  | (key, v) :: rest =>
      (do merged' <- merge_item merged key v; merge_items merged' rest)%result
  end.

Definition merge_response `{Runtime} (merged : dict) (response : value) : result dict :=
  match response with
  | VDict items => merge_items merged items
  | _ => Raise AttributeError
  end.

Fixpoint merge_from `{Runtime} (merged : dict) (responses : list value) : result dict :=
  match responses with
  | [] => Ok merged
  | r :: rest =>
      (do merged' <- merge_response merged r; merge_from merged' rest)%result
  end.

Definition merge_responses `{Runtime} (responses : list value) : result value :=
  (do merged <- merge_from [] responses; Ok (VDict merged))%result.

(** ** Structured analysis invoker (analysis.py, lines 56-80) *)

(** The system instructions are told apart by the schema they request; their
    texts (lines 113-140, 146-156 and 165-171) play no part in the control
    flow. *)
Inductive system_prompt : Type :=
| TrendsSchema
| CompetitorsSchema
| SwotSchema
| GenericSchema.

Definition get_system_prompt (analysis_type : string) : system_prompt :=
  if String.eqb analysis_type "trends" then TrendsSchema
  else if String.eqb analysis_type "competitors" then CompetitorsSchema
  else if String.eqb analysis_type "swot" then SwotSchema
  else GenericSchema.

Definition trends_prompt : string :=
  "Identify key market trends supported by quantitative and qualitative data".

Definition competitors_prompt : string :=
  "Analyze key competitors considering:
            - Market share
            - Competitive advantages
            - Recent strategic moves
            - key financials".

Definition swot_prompt : string :=
  "Conduct a detailed SWOT analysis considering:
            1. Target market strengths
            2. Current weaknesses
            3. Emerging opportunities
            4. Competitive threats".

(** The message pair of one completion request. *)
Record request : Type := {
  system_content : system_prompt;
  user_content : string
}.

(** The completion service: a call consumes the service's state and either
    raises or returns the text of the first choice. *)
Class LLM (S : Type) : Type := {
  chat_completion : request -> S -> result string * S
}.

Definition user_message `{Runtime} (user_prompt : string) (chunk : value) : string :=
  (user_prompt ++ nl ++ nl ++ "Relevant data:" ++ nl ++ py_str chunk)%string.

(** The loop over the chunks: one request per chunk, each answer parsed. *)
Fixpoint ask_chunks `{Runtime} {S} `{LLM S} (system : system_prompt) (user_prompt : string)
    (chunks : list value) (s : S) : result (list value) * S :=
  match chunks with
  | [] => (Ok [], s)
  | chunk :: rest =>
      let req := {| system_content := system;
                    user_content := user_message user_prompt chunk |} in
      match chat_completion req s with
      | (Raise e, s1) => (Raise e, s1)
      | (Ok content, s1) =>
          match json_loads content with
          | None => (Raise JSONDecodeError, s1)
          | Some response =>
              match ask_chunks system user_prompt rest s1 with
              | (Raise e, s2) => (Raise e, s2)
              | (Ok responses, s2) => (Ok (response :: responses), s2)
              end
          end
      end
  end.

(** The body of [structured_analysis]: one attempt. *)
Definition structured_analysis_body `{Runtime} {S} `{LLM S}
    (data : value) (system : system_prompt) (user_prompt : string) (s : S)
  : result value * S :=
  match chunk_data data 5 with
  | Raise e => (Raise e, s)
  | Ok chunks =>
      match ask_chunks system user_prompt chunks s with
      | (Raise e, s1) => (Raise e, s1)
      | (Ok responses, s1) => (merge_responses responses, s1)
      end
  end.

(** The state the decorated call runs in: the service, the number of times
    the body has been entered, and the waits slept through, in seconds. *)
Record world (S : Type) : Type := {
  llm_state : S;
  attempts : nat;
  sleeps : list Z
}.
Arguments llm_state {S} w.
Arguments attempts {S} w.
Arguments sleeps {S} w.

(** tenacity's [wait_exponential]: [multiplier * 2 ** (attempt_number - 1)]
    clamped to [[max(0, min), max]]. *)
Definition wait_exponential (multiplier min_wait max_wait attempt_number : Z) : Z :=
  Z.max (Z.max 0 min_wait) (Z.min (multiplier * 2 ^ (attempt_number - 1)) max_wait).

(** tenacity's [retry] loop: enter the body; on an exception stop when no
    attempt remains, raising [RetryError] around the last exception, else
    sleep for [wait attempt_number] and go again. *)
Fixpoint retry_loop {S A} (remaining : nat) (attempt_number : Z) (wait : Z -> Z)
    (body : S -> result A * S) (w : world S) : result A * world S :=
  let (r, s1) := body (llm_state w) in
  let w1 := {| llm_state := s1; attempts := Datatypes.S (attempts w); sleeps := sleeps w |} in
  match r with
  | Ok a => (Ok a, w1)
  | Raise e =>
      match remaining with
      | 0 => (Raise (RetryError e), w1)
      | Datatypes.S remaining' =>
          retry_loop remaining' (attempt_number + 1) wait body
            {| llm_state := s1; attempts := attempts w1;
               sleeps := sleeps w1 ++ [wait attempt_number] |}
      end
  end.

(** [@retry(stop=stop_after_attempt(n), wait=wait)]. *)
Definition retry {S A} (stop_after_attempt : nat) (wait : Z -> Z)
    (body : S -> result A * S) (w : world S) : result A * world S :=
  retry_loop (stop_after_attempt - 1) 1 wait body w.

Definition structured_analysis `{Runtime} {S} `{LLM S}
    (data : value) (system : system_prompt) (user_prompt : string)
  : world S -> result value * world S :=
  retry 3 (wait_exponential 1 4 10) (structured_analysis_body data system user_prompt).

Definition analyze_with_fallback `{Runtime} {S} `{LLM S}
    (data : value) (prompt : string) (analysis_type : string) :=
  structured_analysis data (get_system_prompt analysis_type) prompt.

Definition analyze_competitors `{Runtime} {S} `{LLM S} (data : value) :=
  structured_analysis data CompetitorsSchema competitors_prompt.

Definition swot_analysis `{Runtime} {S} `{LLM S} (data : value) :=
  structured_analysis data SwotSchema swot_prompt.

(** ** Postprocessor (analysis.py, lines 179-291) *)

(** What the validators print. *)
Inductive warning : Type :=
| MissingField (name : value) (missing : list string)
| InvalidMarketShare (name : value)
| FewCompetitors (count : nat)
| FewTrends (count : nat)
| ManyWeaknesses (count : nat).

(** The analysis object every stage receives, and the console. *)
Record pstate : Type := {
  analysis : dict;
  printed : list warning
}.

Definition M (A : Type) : Type := pstate -> result A * pstate.

Definition ret {A} (a : A) : M A := fun st => (Ok a, st).

Definition bind {A B} (m : M A) (k : A -> M B) : M B :=
  fun st =>
    match m st with
    | (Ok a, st1) => k a st1
    | (Raise e, st1) => (Raise e, st1)
    end.

Definition lift {A} (r : result A) : M A := fun st => (r, st).

Definition read_analysis : M dict := fun st => (Ok (analysis st), st).

(** [analysis[key] = v]. *)
Definition set_item (key : string) (v : value) : M unit :=
  fun st => (Ok tt, {| analysis := dict_set (analysis st) key v; printed := printed st |}).

Definition print (w : warning) : M unit :=
  fun st => (Ok tt, {| analysis := analysis st; printed := printed st ++ [w] |}).

Declare Scope m_scope.
Delimit Scope m_scope with M.
Notation "x <- c ;; k" := (bind c (fun x => k))
  (at level 61, c at next level, right associativity) : m_scope.
Notation "c ;; k" := (bind c (fun _ => k))
  (at level 61, right associativity) : m_scope.

(** A [for] loop whose body only acts on the state. *)
Fixpoint for_each {A} (l : list A) (body : A -> M unit) : M unit :=
  match l with
  | [] => ret tt
  | a :: rest => (body a ;; for_each rest body)%M
  end.

(** *** Stage 1: normalize *)

Fixpoint process_value (v : value) : value :=
  match v with
  | VStr s => VStr (capitalize (strip s))
  | VDict d => VDict (map (fun kv => (fst kv, process_value (snd kv))) d)
  | VList l => VList (map process_value l)
  | _ => v
  end.

Definition text_fields : list string := ["trends"; "competitive_landscape"; "summary"].

(** The body of the loop: [if field in analysis: analysis[field] = ...]. *)
Definition normalize_field (field : string) : M unit :=
  (a <- read_analysis ;;
   match dict_get a field with
   | Some v => set_item field (process_value v)
   | None => ret tt
   end)%M.

Definition normalize_texts : M unit := for_each text_fields normalize_field.

(** *** Stage 2: deduplicate *)

Fixpoint insert_item (kv : string * value) (sorted : list (string * value))
  : list (string * value) :=
  match sorted with
  | [] => [kv]
  | kv' :: rest =>
      if String.leb (fst kv) (fst kv') then kv :: sorted
      else kv' :: insert_item kv rest
  end.

(** [sorted(item.items())]: the keys of a dict differ, so the order is that
    of the keys. *)
Definition sorted_items (d : dict) : list (string * value) :=
  fold_right insert_item [] d.

Definition create_hash `{Runtime} (item : value) : result Z :=
  match item with
  | VDict d =>
      if forallb (fun kv => hashable (snd kv)) d
      then Ok (hash_frozenset (sorted_items d))
      else Raise TypeError
  | _ => Ok (hash_str (py_str item))
  end.

(** The inner loop, with its two accumulators [seen] and [unique_list]. *)
Fixpoint dedupe_loop `{Runtime} (items : list value) (seen : list Z) (unique_list : list value)
  : result (list value) :=
  match items with
  | [] => Ok unique_list
  | item :: rest =>
      (do item_hash <- create_hash item;
       if existsb (Z.eqb item_hash) seen
       then dedupe_loop rest seen unique_list
       else dedupe_loop rest (item_hash :: seen) (unique_list ++ [item]))%result
  end.

Definition dedupe_keys : list string := ["trends"; "strengths"; "weaknesses"].

Definition remove_duplicates `{Runtime} : M unit :=
  for_each dedupe_keys (fun key =>
    (a <- read_analysis ;;
     match dict_get a key with
     | Some v =>
         items <- lift (py_iter v) ;;
         unique_list <- lift (dedupe_loop items [] []) ;;
         set_item key (VList unique_list)
     | None => ret tt
     end)%M).

(** *** Stage 3: validate structure *)

Definition required_competitor_fields : list string := ["name"; "market_share"].

(** [competitor.keys()]. *)
Definition keys_method (v : value) : result (list string) :=
  match v with
  | VDict d => Ok (dict_keys d)
  | _ => Raise AttributeError
  end.

Definition check_competitor (competitor : value) : M unit :=
  (keys <- lift (keys_method competitor) ;;
   let missing :=
     filter (fun f => negb (existsb (String.eqb f) keys)) required_competitor_fields in
   (match missing with
    | [] => ret tt
    | _ => name <- lift (get_method competitor "name" VNone) ;;
           print (MissingField name missing)
    end) ;;
   share <- lift (get_method competitor "market_share" (VInt 0)) ;;
   if is_number share then ret tt
   else name <- lift (get_method competitor "name" VNone) ;;
        print (InvalidMarketShare name))%M.

Definition validate_data_structure : M unit :=
  (a <- read_analysis ;;
   match dict_get a "competitors" with
   | Some competitors =>
       top <- lift (get_method competitors "top_competitors" (VList [])) ;;
       items <- lift (py_iter top) ;;
       for_each items check_competitor
   | None => ret tt
   end)%M.

(** *** Stage 4: strategic sort *)

(** [float(n)] of an int raises OverflowError from [2**1024 - 2**970] on. *)
Definition float_overflows (n : Z) : bool :=
  (2 ^ 1024 - 2 ^ 970 <=? Z.abs n)%Z.

Definition py_float `{Runtime} (v : value) : result Q :=
  match v with
  | VBool b => Ok (if b then 1%Q else 0%Q)
  | VInt n => if float_overflows n then Raise OverflowError else Ok (inject_Z n)
  | VFloat x => Ok x
  | VStr s => match float_of_str s with Some x => Ok x | None => Raise ValueError end
  | VNone | VList _ | VDict _ => Raise TypeError
  end.

Definition safe_get `{Runtime} (v : value) (key : string) (default : Q) : result Q :=
  let val := match v with
             | VDict d => match dict_get d key with Some x => x | None => VFloat default end
             | _ => VFloat default
             end in
  match val with
  | VNone => Ok default
  | _ => match py_float val with
         | Ok x => Ok x
         | Raise TypeError | Raise ValueError => Ok default
         | Raise e => Raise e
         end
  end.

Definition has_impact_score (t : value) : bool :=
  match t with
  | VDict d => dict_mem d "impact_score"
  | _ => false
  end.

Fixpoint insert_desc (kx : Q * value) (sorted : list (Q * value)) : list (Q * value) :=
  match sorted with
  | [] => [kx]
  | ky :: rest =>
      if Qle_bool (fst ky) (fst kx) then kx :: sorted
      else ky :: insert_desc kx rest
  end.

(** [list.sort(key=..., reverse=True)] on the decorated list: descending,
    items of equal key in their original order. *)
Definition sort_desc (decorated : list (Q * value)) : list (Q * value) :=
  fold_right insert_desc [] decorated.

Definition sort_by_impact `{Runtime} (trends : list value) : result (list value) :=
  (do decorated <- rmap (fun t => do k <- safe_get t "impact_score" 0%Q; Ok (k, t)) trends;
   Ok (map snd (sort_desc decorated)))%result.

Definition strategic_sorting `{Runtime} : M unit :=
  (a <- read_analysis ;;
   match dict_get a "trends" with
   | Some trends =>
       items <- lift (py_iter trends) ;;
       valid_trends <- lift (sort_by_impact (filter has_impact_score items)) ;;
       let invalid_trends := filter (fun t => negb (has_impact_score t)) items in
       set_item "trends" (VList (valid_trends ++ invalid_trends))
   | None => ret tt
   end)%M.

(** *** Stage 5: validate quality *)

Definition min_competitors : nat := 2.
Definition min_trends : nat := 2.
Definition max_weaknesses : nat := 5.

Definition dict_get_default (d : dict) (key : string) (default : value) : value :=
  match dict_get d key with Some x => x | None => default end.

Definition validate_analysis_quality : M unit :=
  (a <- read_analysis ;;
   competitors <- lift (get_method (dict_get_default a "competitors" (VDict []))
                          "top_competitors" (VList [])) ;;
   n_competitors <- lift (py_len competitors) ;;
   (if n_competitors <? min_competitors then print (FewCompetitors n_competitors) else ret tt) ;;
   n_trends <- lift (py_len (dict_get_default a "trends" (VList []))) ;;
   (if n_trends <? min_trends then print (FewTrends n_trends) else ret tt) ;;
   swot_weaknesses <- lift (get_method (dict_get_default a "swot" (VDict []))
                              "weaknesses" (VDict [])) ;;
   weaknesses <- lift (get_method swot_weaknesses "evidence" (VList [])) ;;
   n_weaknesses <- lift (py_len weaknesses) ;;
   if max_weaknesses <? n_weaknesses then print (ManyWeaknesses n_weaknesses) else ret tt)%M.

(** *** Stage 6: metadata and the quality score *)

(** Float arithmetic on reduced fractions. *)
Definition fadd (x y : Q) : Q := Qred (x + y).
Definition fmul (x y : Q) : Q := Qred (x * y).

(** [min(x, y)]: the second argument only when it is strictly smaller. *)
Definition py_min (x y : Q) : Q :=
  if Qle_bool x y then x else y.

Definition quality_of_count (trend_count : nat) : Q :=
  let score := (3 # 10)%Q in
  let score := fadd score (py_min (fmul (inject_Z (Z.of_nat trend_count)) (1 # 10)) (3 # 10)) in
  py_min score 1%Q.

(** The same arithmetic in IEEE binary64, as the interpreter performs it. *)
Definition py_min_binary64 (x y : PrimFloat.float) : PrimFloat.float :=
  if PrimFloat.ltb y x then y else x.

Definition quality_of_count_binary64 (trend_count : Z) : PrimFloat.float :=
  let score := 0.3%float in
  let score :=
    PrimFloat.add score
      (py_min_binary64
         (PrimFloat.mul (PrimFloat.of_uint63 (Uint63.of_Z trend_count)) 0.1%float)
         0.3%float) in
  py_min_binary64 score 1.0%float.

Definition calculate_quality_score (a : dict) : result Q :=
  (do trend_count <- py_len (dict_get_default a "trends" (VList []));
   Ok (quality_of_count trend_count))%result.

Definition model_version : string := "gpt-4-1106-preview".

Definition add_metadata `{Runtime} : M unit :=
  (a <- read_analysis ;;
   quality_score <- lift (calculate_quality_score a) ;;
   set_item "metadata"
     (VDict [("processing_date", VStr utc_now_iso);
             ("data_sources", VList [VStr "web_search"]);
             ("model_version", VStr model_version);
             ("quality_score", VFloat quality_score)]))%M.

Definition postprocess_analysis `{Runtime} : M unit :=
  (normalize_texts ;;
   remove_duplicates ;;
   validate_data_structure ;;
   strategic_sorting ;;
   validate_analysis_quality ;;
   add_metadata)%M.

(** ** Orchestrator (analysis.py, lines 26-39) *)

(** The outcome of a run: what the caller gets, the world after it, and the
    console. *)
Definition analyze_trends `{Runtime} {S} `{LLM S} (data : value) (w : world S)
  : result value * world S * list warning :=
  match preprocess_data data with
  | Raise e => (Raise e, w, [])
  | Ok processed_data =>
      match analyze_with_fallback processed_data trends_prompt "trends" w with
      | (Raise e, w1) => (Raise e, w1, [])
      | (Ok trends, w1) =>
          match analyze_competitors processed_data w1 with
          | (Raise e, w2) => (Raise e, w2, [])
          | (Ok competitors, w2) =>
              match swot_analysis processed_data w2 with
              | (Raise e, w3) => (Raise e, w3, [])
              | (Ok swot, w3) =>
                  let st0 := {| analysis := [("trends", trends);
                                             ("competitors", competitors);
                                             ("swot", swot)];
                                printed := [] |} in
                  match postprocess_analysis st0 with
                  | (Ok _, st) => (Ok (VDict (analysis st)), w3, printed st)
                  | (Raise e, st) => (Raise e, w3, printed st)
                  end
              end
          end
      end
  end.

(** ** Reading a leaf of a nested value *)

Inductive step : Type :=
| Key (k : string)
| Index (i : nat).

Fixpoint value_at (path : list step) (v : value) : option value :=
  match path with
  | [] => Some v
  | Key k :: rest =>
      match v with
      | VDict d => match dict_get d k with Some x => value_at rest x | None => None end
      | _ => None
      end
  | Index i :: rest =>
      match v with
      | VList l => match nth_error l i with Some x => value_at rest x | None => None end
      | _ => None
      end
  end.


(** Every value found under [key] in the responses, in chunk order. *)
Definition values_at (key : string) (responses : list value) : list value :=
  flat_map (fun r => match r with
                     | VDict d => map snd (filter (fun kv => String.eqb key (fst kv)) d)
                     | _ => []
                     end) responses.

(** The merge seen from one key: the values met under it, folded in order. *)
Fixpoint merge_values `{Runtime} (old : option value) (vs : list value)
  : result (option value) :=
  match vs with
  | [] => Ok old
  | v :: rest => (do x <- merge_value old v; merge_values (Some x) rest)%result
  end.





(** A computation that leaves the analysis object as it found it and at
    most adds lines to the console. *)
Definition read_only {A} (m : M A) : Prop :=
  forall st, analysis (snd (m st)) = analysis st
             /\ exists ws, printed (snd (m st)) = printed st ++ ws.

(** ** A test double for the service and the interpreter *)

Module Stub.

Definition trends_response : value :=
  VDict [("trends",
          VList [VDict [("name", VStr "batteries");
                        ("description", VStr "cheaper cells");
                        ("evidence", VList [VStr "prices fell"]);
                        ("impact_score", VFloat (2 # 10))];
                 VDict [("name", VStr "charging");
                        ("description", VStr "denser networks");
                        ("evidence", VList [VStr "new stations"]);
                        ("impact_score", VFloat (9 # 10))]]);
         ("summary", VStr "two trends")].

Definition competitors_response : value :=
  VDict [("top_competitors",
          VList [VDict [("name", VStr "Acme");
                        ("market_share", VFloat (35 # 1));
                        ("strengths", VList [VStr "brand"]);
                        ("weaknesses", VList [VStr "price"]);
                        ("recent_activity", VList [VStr "new plant"])]]);
         ("competitive_landscape", VStr "concentrated")].

Definition swot_entry (description evidence : string) : value :=
  VDict [("description", VStr description); ("evidence", VList [VStr evidence])].

Definition swot_response : value :=
  VDict [("strengths", swot_entry "demand" "sales");
         ("weaknesses", swot_entry "range" "surveys");
         ("opportunities", swot_entry "subsidies" "budget");
         ("threats", swot_entry "imports" "tariffs")].

Definition loads (content : string) : option value :=
  if String.eqb content "trends" then Some trends_response
  else if String.eqb content "competitors" then Some competitors_response
  else if String.eqb content "swot" then Some swot_response
  else None.

(** An interpreter with the given hash functions. *)
Definition runtime (hs : string -> Z) (hf : list (string * value) -> Z) : Runtime :=
  {| repr_value := fun _ => "<object>";
     hash_str := hs;
     hash_frozenset := hf;
     float_of_str := fun _ => None;
     json_loads := loads;
     utc_now_iso := "2024-01-01T00:00:00+00:00" |}.

Definition plain : Runtime := runtime (fun s => Z.of_nat (String.length s)) (fun _ => 0%Z).

(** A service that answers every request with the fixed JSON text of the
    schema asked for. *)
Definition fixed : LLM unit :=
  {| chat_completion := fun req s =>
       match system_content req with
       | TrendsSchema => (Ok "trends", s)
       | CompetitorsSchema => (Ok "competitors", s)
       | SwotSchema => (Ok "swot", s)
       | GenericSchema => (Raise APIError, s)
       end |}.

(** A service whose state counts the failures still to come: it raises while
    the count is positive, then answers like [fixed]. *)
Definition flaky : LLM nat :=
  {| chat_completion := fun req s =>
       match s with
       | Datatypes.S k => (Raise APIError, k)
       | 0 => (fst (@chat_completion unit fixed req tt), 0)
       end |}.

(** A service that answers every request with text that is not JSON. *)
Definition garbled : LLM unit :=
  {| chat_completion := fun _ s => (Ok "not json", s) |}.

Definition article (n : string) : value :=
  VDict [("title", VStr ("title " ++ n)%string); ("description", VStr ("text " ++ n)%string)].

Definition hit (n : string) : value :=
  VDict [("title", VStr ("page " ++ n)%string); ("snippet", VStr ("snippet " ++ n)%string)].

(** Six news items, all with a description, and three search results. *)
Definition raw_data : value :=
  VDict [("market_news",
          VDict [("articles", VList (map article ["1"; "2"; "3"; "4"; "5"; "6"]))]);
         ("search_results",
          VDict [("organic_results", VList (map hit ["1"; "2"; "3"]))])].

Definition start {S} (s : S) : world S :=
  {| llm_state := s; attempts := 0; sleeps := [] |}.

End Stub.

(** ** Report generator (report_generator.py) *)

(** What only the date library decides. *)
Class Calendar : Type := {
  (** [datetime.fromisoformat(s).strftime('%d/%m/%Y')], [None] when
      [fromisoformat] raises ValueError *)
  format_iso_date : string -> option string
}.

(** An item of [sep.join(...)]: anything but a string raises. *)
Definition as_str (v : value) : result string :=
  match v with
  | VStr s => Ok s
  | _ => Raise TypeError
  end.

(** [sep.join(v)]. *)
Definition join_method (sep : string) (v : value) : result string :=
  (do items <- py_iter v;
   do parts <- rmap as_str items;
   Ok (join sep parts))%result.

(** [s.title()] on ASCII: a letter is upper case after a character that is
    no letter, lower case after a letter. *)
Definition is_cased (c : ascii) : bool := is_lower c || is_upper c.

Fixpoint title_from (previous_cased : bool) (s : string) : string :=
  match s with
  | EmptyString => EmptyString
  | String c t =>
      String (if previous_cased then to_lower c else to_upper c) (title_from (is_cased c) t)
  end.

Definition title (s : string) : string := title_from false s.

(** Lines 108-111. *)
Definition _format_market_share `{Runtime} (v : value) : string :=
  if is_number v then (py_str v ++ "%")%string else "N/A".

(** One row of the table (lines 71-76): the four subscripts in the order of
    the f-string. *)
Definition competitor_row `{Runtime} (comp : value) : result string :=
  (do name <- subscript comp "name";
   do market_share <- subscript comp "market_share";
   do strengths <- subscript comp "strengths";
   do strengths2 <- slice_to 2 strengths;
   do strengths_text <- join_method ", " strengths2;
   do weaknesses <- subscript comp "weaknesses";
   do weaknesses2 <- slice_to 2 weaknesses;
   do weaknesses_text <- join_method ", " weaknesses2;
   Ok ("| " ++ py_str name ++ " "
       ++ "| " ++ _format_market_share market_share ++ " "
       ++ "| " ++ strengths_text ++ " "
       ++ "| " ++ weaknesses_text ++ " |" ++ nl)%string)%result.

Definition table_header : string :=
  ("| Company | Participation | Key Strengths | Critical Weaknesses |" ++ nl
   ++ "|---------|---------------|------------------|----------------------|" ++ nl)%string.

(** Lines 66-77. *)
Definition _format_competitors_table `{Runtime} (competitors : value) : result string :=
  (do comps <- py_iter competitors;
   do rows <- rmap competitor_row comps;
   Ok (table_header ++ String.concat "" rows)%string)%result.

Definition swot_categories : list string :=
  ["strengths"; "weaknesses"; "opportunities"; "threats"].

(** One category of the SWOT text (lines 97-98). *)
Definition swot_line `{Runtime} (swot : value) (category : string) : result string :=
  (do entry <- subscript swot category;
   do description <- subscript entry "description";
   do evidence <- subscript entry "evidence";
   do evidence2 <- slice_to 2 evidence;
   do evidence_text <- join_method ", " evidence2;
   Ok ("**" ++ title category ++ ":** " ++ py_str description ++ nl
       ++ "Evidencia: " ++ evidence_text ++ nl)%string)%result.

(** Lines 95-100. *)
Definition _format_swot `{Runtime} (swot : value) : result string :=
  (do lines <- rmap (swot_line swot) swot_categories;
   Ok (join nl lines))%result.

(** [datetime.fromisoformat(v).strftime('%d/%m/%Y')]. *)
Definition format_date `{Calendar} (v : value) : result string :=
  match v with
  | VStr s => match format_iso_date s with
              | Some date => Ok date
              | None => Raise ValueError
              end
  | _ => Raise TypeError
  end.

(** Lines 79-88. *)
Definition _format_input_data `{Runtime} `{Calendar} (data : value) : result string :=
  (do metadata <- subscript data "metadata";
   do processing_date <- subscript metadata "processing_date";
   do date <- format_date processing_date;
   do data_sources <- subscript metadata "data_sources";
   do sources <- join_method ", " data_sources;
   do quality_score <- subscript metadata "quality_score";
   do swot <- subscript data "swot";
   do swot_text <- _format_swot swot;
   Ok ("
### Market Context
- Analysis Date: "
       ++ date ++ "
- Data Sources: "
       ++ sources ++ "
- Analysis Quality: "
       ++ py_str quality_score ++ "/1.0

### SWOT Analysis
"
       ++ swot_text ++ nl)%string)%result.

(** The fixed text of the prompt around its two insertions (lines 24-64). *)
Definition prompt_head : string :=
  "
As a senior strategic director, analyze this market data and generate an executive report in Markdown:

# Required Structure:
## 🎯 Executive Summary (1 paragraph)
- Key market dynamics
- Main strategic opportunities
- Critical risks to mitigate

## 📊 Trend Analysis
- Top 3 disruptive trends
- Sector growth projection
- Relevant emerging technologies

## 🥇 Competitive Landscape
### Comparison Table (Top 5)
".

Definition prompt_middle : string :=
  "

### Strategic Map
- Positioning by market segment
- Key competitive advantages

## 🚀 Strategic Recommendations
- Investment priorities (short/medium term)
- Recommended strategic alliances
- Technological innovations to be developed

## ✅ Action Plan
- Key initiatives for the next 90 days
- Success metrics (KPIs)
- Recommended resource allocation

# Input Data:
".

Definition prompt_tail : string :=
  "

# Formatting Instructions:
1. Use executive but concise language
2. Highlight key figures in bold
3. Include a condensed SWOT analysis
4. Prioritize actionable insights
".

(** Lines 23-64. *)
Definition _build_prompt `{Runtime} `{Calendar} (data : value) : result string :=
  (do competitors <- subscript data "competitors";
   do top_competitors <- subscript competitors "top_competitors";
   do top5 <- slice_to 5 top_competitors;
   do table <- _format_competitors_table top5;
   do input_data <- _format_input_data data;
   Ok (prompt_head ++ table ++ prompt_middle ++ input_data ++ prompt_tail)%string)%result.

(** The completion service of the report: one user message in, the text of
    the first choice out, or an exception. *)
Class ReportService (S : Type) : Type := {
  report_completion : string -> S -> result string * S
}.

(** Lines 11-21. *)
Definition create_report `{Runtime} `{Calendar} {S} `{ReportService S} (analysis : value) (s : S)
  : result string * S :=
  match _build_prompt analysis with
  | Raise e => (Raise e, s)
  | Ok structured_prompt => report_completion structured_prompt s
  end.

(** A date library for the examples: the day, month and year of a string
    that starts as an ISO date does. *)
Module ReportStub.

Definition calendar : Calendar :=
  {| format_iso_date s :=
       if String.length s <? 10 then None
       else Some (substring 8 2 s ++ "/" ++ substring 5 2 s ++ "/" ++ substring 0 4 s)%string |}.

(** A report service that answers with the prompt it was given. *)
Definition echo : ReportService unit :=
  {| report_completion prompt s := (Ok prompt, s) |}.

End ReportStub.

(** ** Notions used to state further properties *)


(** The hash the deduplication sees of an item, and 0 where it has none. *)
Definition hash_of `{Runtime} (item : value) : Z :=
  match create_hash item with
  | Ok h => h
  | Raise _ => 0%Z
  end.

(** [u] is [l] with some items left out, the order kept. *)
Inductive subseq {A : Type} : list A -> list A -> Prop :=
| subseq_nil : subseq [] []
| subseq_keep (x : A) (u l : list A) : subseq u l -> subseq (x :: u) (x :: l)
| subseq_drop (x : A) (u l : list A) : subseq u l -> subseq u (x :: l).

(** A computation that leaves every key outside [keys] as it found it,
    whatever its outcome. *)
Definition writes_only {A} (keys : list string) (m : M A) : Prop :=
  forall st k, ~ In k keys ->
               dict_get (analysis (snd (m st))) k = dict_get (analysis st) k.

(** A value the merger can combine with what the previous value met under
    the same key left there: a list needs a list, a mapping a mapping, and
    anything else combines with everything. *)
Definition combines (previous v : value) : bool :=
  implb (is_list v) (is_list previous) && implb (is_dict v) (is_dict previous).

(** The values met under one key, each combining with the one before it. *)
Fixpoint mergeable (vs : list value) : bool :=
  match vs with
  | previous :: rest =>
      match rest with
      | v :: _ => combines previous v && mergeable rest
      | [] => true
      end
  | [] => true
  end.



(** A string with no line break in it. *)
Fixpoint single_line (s : string) : bool :=
  match s with
  | EmptyString => true
  | String c t => negb (Ascii.eqb c newline) && single_line t
  end.

(** A competitor entry the structure validator has nothing to say about:
    a mapping with a [name] and a numeric [market_share]. *)
Definition complete_competitor (c : value) : bool :=
  match c with
  | VDict d =>
      dict_mem d "name" && dict_mem d "market_share"
      && is_number (dict_get_default d "market_share" (VInt 0))
  | _ => false
  end.

(** A completion service that also keeps the requests it was sent, oldest
    first. *)
#[local] Instance logged {S : Type} `{LLM S} : LLM (S * list request) := {
  chat_completion req st :=
    let (r, s1) := chat_completion req (fst st) in
    (r, (s1, snd st ++ [req]))
}.

(** The request [structured_analysis] builds for one chunk. *)
Definition request_for `{Runtime} (system : system_prompt) (user_prompt : string)
    (chunk : value) : request :=
  {| system_content := system; user_content := user_message user_prompt chunk |}.

(** What a call sent, read off the log before and after it: the requests for
    some chunks under the call's two prompts, at most [n] of them, and at
    least one when the call returned. *)
Definition sent `{Runtime} {S : Type} (n : nat) (system : system_prompt)
    (user_prompt : string) (returned : bool) (s s' : S * list request) : Prop :=
  exists chunks,
    snd s' = snd s ++ map (request_for system user_prompt) chunks
    /\ List.length chunks <= n
    /\ (returned = true -> chunks <> []).

(** * Properties *)

(** ** Dictionaries *)

Lemma dict_get_set_same (d : dict) (k : string) (v : value) :
  dict_get (dict_set d k v) k = Some v.
Proof.
  induction d as [|[k' v'] t IH]; simpl.
  - now rewrite String.eqb_refl.
  - destruct (String.eqb k k') eqn:E; simpl; now rewrite E.
Qed.

Lemma dict_get_set_other (d : dict) (k k' : string) (v : value) :
  k <> k' -> dict_get (dict_set d k v) k' = dict_get d k'.
Proof.
  intros Hne. induction d as [|[k0 v0] t IH]; simpl.
  - destruct (String.eqb k' k) eqn:E; [|reflexivity].
    apply String.eqb_eq in E. congruence.
  - destruct (String.eqb k k0) eqn:E; simpl.
    + apply String.eqb_eq in E. subst k0.
      destruct (String.eqb k' k) eqn:E'; [|reflexivity].
      apply String.eqb_eq in E'. congruence.
    + now rewrite IH.
Qed.

Lemma dict_get_map_values (f : value -> value) (d : dict) (k : string) :
  dict_get (map (fun kv => (fst kv, f (snd kv))) d) k = option_map f (dict_get d k).
Proof.
  induction d as [|[k' v'] t IH]; simpl; [reflexivity|].
  now destruct (String.eqb k k').
Qed.

(** ** Stage 1: normalize *)

Lemma value_at_process_value (path : list step) :
  forall v x, value_at path v = Some x ->
              value_at path (process_value v) = Some (process_value x).
Proof.
  induction path as [|[k|i] rest IH]; intros v x H; simpl in *.
  - now inversion H.
  - destruct v; try discriminate. simpl.
    rewrite dict_get_map_values.
    destruct (dict_get entries k) as [y|]; [|discriminate]. simpl. now apply IH.
  - destruct v; try discriminate. simpl.
    rewrite nth_error_map.
    destruct (nth_error items i) as [y|]; [|discriminate]. simpl. now apply IH.
Qed.

Lemma normalize_field_run (field : string) (st : pstate) :
  normalize_field field st
  = (Ok tt, {| analysis := match dict_get (analysis st) field with
                           | Some v => dict_set (analysis st) field (process_value v)
                           | None => analysis st
                           end;
               printed := printed st |}).
Proof.
  destruct st as [a p]. unfold normalize_field, bind, read_analysis. simpl.
  now destruct (dict_get a field).
Qed.

(** Fields the loop does not visit keep their value. *)
Lemma normalize_fields_frame (fields : list string) (field : string) :
  ~ In field fields ->
  forall st, exists a',
    for_each fields normalize_field st = (Ok tt, {| analysis := a'; printed := printed st |})
    /\ dict_get a' field = dict_get (analysis st) field.
Proof.
  induction fields as [|f fs IH]; intros Hnot st.
  - exists (analysis st). now destruct st.
  - simpl. unfold bind. rewrite normalize_field_run.
    destruct (IH (fun H => Hnot (or_intror H))
                {| analysis := match dict_get (analysis st) f with
                               | Some v => dict_set (analysis st) f (process_value v)
                               | None => analysis st
                               end;
                   printed := printed st |}) as (a' & Hrun & Hget).
    exists a'. split; [exact Hrun|]. rewrite Hget. simpl.
    destruct (dict_get (analysis st) f); [|reflexivity].
    apply dict_get_set_other. intros ->. apply Hnot. now left.
Qed.


Lemma text_fields_nodup : NoDup text_fields.
Proof.
  unfold text_fields. repeat constructor; simpl; intuition discriminate.
Qed.

Lemma capitalize_cons (c : ascii) (t : string) :
  capitalize (String c t) = String (to_upper c) (lower t).
Proof. reflexivity. Qed.




(** ** Chunker *)

Lemma split_lines_nonempty (s : string) : split_lines s <> [].
Proof.
  destruct s as [|c t]; simpl; [discriminate|].
  destruct (Ascii.eqb c newline); [discriminate|].
  destruct (split_lines t); discriminate.
Qed.

Lemma concat_length_uniform {A} (m : nat) (batches : list (list A)) :
  Forall (fun b => List.length b = m) batches ->
  List.length (List.concat batches) = m * List.length batches.
Proof.
  induction 1 as [|b bs Hb _ IH]; simpl; [lia|].
  rewrite length_app, IH, Hb. lia.
Qed.

(** The invariant of the news loop: the flushed chunks are full batches, and
    together with the pending chunk they hold every article seen so far. *)
Lemma news_loop_batches (m : nat) :
  0 < m ->
  forall (l : list string) (chunks : list value) (cur : list string),
    List.length cur < m ->
    exists nb rest,
      fold_left (news_step (Z.of_nat m)) (map VStr l) (chunks, map news_entry cur)
      = (chunks ++ map news_chunk nb, map news_entry rest)
      /\ Forall (fun b => List.length b = m) nb
      /\ List.concat nb ++ rest = cur ++ l
      /\ List.length rest < m.
Proof.
  intros Hm. induction l as [|a l IH]; intros chunks cur Hcur.
  - exists [], cur. simpl. rewrite !app_nil_r. repeat split; auto.
  - simpl fold_left.
    replace (map news_entry cur ++ [VDict [("news", VStr a)]])
      with (map news_entry (cur ++ [a])) by (now rewrite map_app).
    rewrite length_map, length_app. simpl List.length.
    destruct (Z.of_nat (List.length cur + 1) >=? Z.of_nat m)%Z eqn:E.
    + apply Z.geb_le in E.
      destruct (IH (chunks ++ [news_chunk (cur ++ [a])]) [] Hm)
        as (nb & rest & Hrun & Hfull & Hcat & Hrest).
      exists ((cur ++ [a]) :: nb), rest. repeat split.
      * change (VDict [("news", VList (map news_entry (cur ++ [a])))])
          with (news_chunk (cur ++ [a])).
        change (map news_entry []) with (@nil value) in Hrun.
        rewrite Hrun. simpl. now rewrite <- app_assoc.
      * constructor; [rewrite length_app; simpl; lia|exact Hfull].
      * simpl. rewrite <- !app_assoc, Hcat. reflexivity.
      * exact Hrest.
    + assert (Hlt : List.length (cur ++ [a]) < m).
      { rewrite length_app. simpl.
        destruct (Z.geb_spec (Z.of_nat (List.length cur + 1)) (Z.of_nat m)); [discriminate|lia]. }
      destruct (IH chunks (cur ++ [a]) Hlt) as (nb & rest & Hrun & Hfull & Hcat & Hrest).
      exists nb, rest. repeat split; auto.
      rewrite Hcat, <- app_assoc. reflexivity.
Qed.

Lemma news_loop_first20 (ns : list string) :
  exists nb,
    fst (news_loop 5 (map VStr (firstn 20 ns))) = map news_chunk nb
    /\ Forall (fun b => List.length b = 5) nb
    /\ List.length nb = Nat.min 20 (List.length ns) / 5
    /\ List.concat nb = firstn (5 * List.length nb) ns.
Proof.
  destruct (news_loop_batches 5 ltac:(lia) (firstn 20 ns) [] []) as
    (nb & rest & Hrun & Hfull & Hcat & Hrest); [simpl; lia|].
  exists nb. unfold news_loop.
  change (map news_entry []) with (@nil value) in Hrun.
  change ([] ++ map news_chunk nb) with (map news_chunk nb) in Hrun.
  change ([] ++ firstn 20 ns) with (firstn 20 ns) in Hcat.
  change 5%Z with (Z.of_nat 5). rewrite Hrun. cbn [fst].
  assert (Hlen : 5 * List.length nb + List.length rest = Nat.min 20 (List.length ns)).
  { rewrite <- (concat_length_uniform 5 nb Hfull), <- length_app, Hcat.
    apply length_firstn. }
  assert (Hcount : List.length nb = Nat.min 20 (List.length ns) / 5).
  { apply (Nat.div_unique _ 5 _ (List.length rest)); [exact Hrest|lia]. }
  repeat split; auto.
  assert (Hpre : List.concat nb = firstn (List.length (List.concat nb)) (List.concat nb ++ rest)).
  { rewrite firstn_app, Nat.sub_diag, firstn_all. simpl. now rewrite app_nil_r. }
  rewrite Hpre at 1. rewrite Hcat, firstn_firstn, (concat_length_uniform 5 nb Hfull).
  f_equal. lia.
Qed.

Lemma range_slices_step {A} (fuel step i : nat) (items : list A) :
  range_slices (S fuel) step i items
  = if i <? List.length items
    then firstn step (skipn i items) :: range_slices fuel step (i + step) items
    else [].
Proof. reflexivity. Qed.

Lemma range_slices_done {A} (fuel step i : nat) (items : list A) :
  List.length items <= i -> range_slices fuel step i items = [].
Proof.
  intros Hle. destruct fuel; [reflexivity|].
  rewrite range_slices_step.
  destruct (Nat.ltb_spec i (List.length items)); [lia|reflexivity].
Qed.

Lemma range_slices_bound5 (lines : list string) :
  lines <> [] -> List.length lines <= 10 ->
  range_slices (List.length lines) 5 0 lines = search_batches lines.
Proof.
  intros Hne Hlen. unfold search_batches.
  assert (Hpos : 0 < List.length lines)
    by (destruct lines; [contradiction|simpl; lia]).
  destruct (List.length lines) as [|f] eqn:El; [lia|].
  rewrite range_slices_step, El.
  change (0 <? S f) with true. change (skipn 0 lines) with lines.
  change (0 + 5) with 5. cbv iota.
  destruct (Nat.leb_spec (S f) 5) as [E|E].
  - rewrite firstn_all2 by lia. f_equal. apply range_slices_done. lia.
  - f_equal. destruct f as [|f']; [lia|].
    rewrite range_slices_step, El.
    destruct (Nat.ltb_spec 5 (S (S f'))); [|lia].
    rewrite firstn_all2 by (rewrite length_skipn; lia).
    f_equal. apply range_slices_done. lia.
Qed.

Lemma chunk_data_preprocessed (ns : list string) (s : string) :
  chunk_data (preprocessed ns s) 5
  = Ok (fst (news_loop 5 (firstn 20 (map VStr ns)))
        ++ map search_chunk
             (range_slices (List.length (firstn 10 (split_lines s))) 5 0
                (firstn 10 (split_lines s)))).
Proof. reflexivity. Qed.

(** The chunker on preprocessed data, bound 5: the news batches of the loop,
    then the search batches. *)
Lemma chunk_data_shape (ns : list string) (s : string) :
  exists nb,
    chunk_data (preprocessed ns s) 5
    = Ok (map news_chunk nb ++ map search_chunk (search_batches (firstn 10 (split_lines s))))
    /\ Forall (fun b => List.length b = 5) nb
    /\ List.length nb = Nat.min 20 (List.length ns) / 5
    /\ List.concat nb = firstn (5 * List.length nb) ns.
Proof.
  destruct (news_loop_first20 ns) as (nb & Hnews & Hfull & Hcount & Hcat).
  exists nb. repeat split; auto.
  rewrite chunk_data_preprocessed, firstn_map, Hnews.
  rewrite range_slices_bound5; [reflexivity| |].
  - pose proof (split_lines_nonempty s). destruct (split_lines s); [contradiction|discriminate].
  - apply firstn_le_length.
Qed.

Lemma search_batches_concat (lines : list string) :
  List.concat (search_batches lines) = lines.
Proof.
  unfold search_batches. destruct (List.length lines <=? 5); cbn [List.concat].
  - apply app_nil_r.
  - rewrite app_nil_r. apply firstn_skipn.
Qed.

Lemma search_batches_sizes (lines : list string) :
  map (@List.length string) (search_batches lines)
  = if List.length lines <=? 5 then [List.length lines]
    else [5; List.length lines - 5].
Proof.
  unfold search_batches.
  destruct (Nat.leb_spec (List.length lines) 5); cbn [map]; [reflexivity|].
  rewrite length_firstn, length_skipn. f_equal. lia.
Qed.

(** C5: with bound 5, the news chunks are the consecutive full batches of
    five among the first twenty news items, in order, a trailing partial batch
    being dropped; the search chunks are the first ten lines of the search
    string in order, in batches of five with the partial batch kept. *)
Theorem chunk_data_bound5 (ns : list string) (s : string) :
  let lines := firstn 10 (split_lines s) in
  exists nb,
    chunk_data (preprocessed ns s) 5
    = Ok (map news_chunk nb ++ map search_chunk (search_batches lines))
    /\ Forall (fun b => List.length b = 5) nb
    /\ List.length nb = Nat.min 20 (List.length ns) / 5
    /\ List.concat nb = firstn (5 * List.length nb) ns
    /\ List.concat (search_batches lines) = lines
    /\ map (@List.length string) (search_batches lines)
       = (if List.length lines <=? 5 then [List.length lines]
          else [5; List.length lines - 5]).
Proof.
  intros lines.
  destruct (chunk_data_shape ns s) as (nb & Hrun & Hfull & Hcount & Hcat).
  exists nb. repeat split; auto.
  - apply search_batches_concat.
  - apply search_batches_sizes.
Qed.

(** Twelve news items give two news chunks of five, the last two items being
    dropped; seven lines give search chunks of five and two. *)
Example chunk_data_twelve_and_seven :
  chunk_data
    (preprocessed ["n1"; "n2"; "n3"; "n4"; "n5"; "n6"; "n7"; "n8"; "n9"; "n10"; "n11"; "n12"]
       (join nl ["l1"; "l2"; "l3"; "l4"; "l5"; "l6"; "l7"])) 5
  = Ok [news_chunk ["n1"; "n2"; "n3"; "n4"; "n5"];
        news_chunk ["n6"; "n7"; "n8"; "n9"; "n10"];
        search_chunk ["l1"; "l2"; "l3"; "l4"; "l5"];
        search_chunk ["l6"; "l7"]].
Proof. reflexivity. Qed.

(** C10: the chunker always emits a search chunk, and it is not empty; the
    empty string splits into one empty line, so on data with no news and an
    empty search string the output is the single chunk
    [{search_results: ['']}]. *)
Theorem chunk_data_search_chunk_always (ns : list string) (s : string) :
  (exists nb first rest,
     chunk_data (preprocessed ns s) 5
     = Ok (map news_chunk nb ++ search_chunk first :: map search_chunk rest)
     /\ first <> [])
  /\ split_lines "" = [""]
  /\ chunk_data (preprocessed [] "") 5 = Ok [search_chunk [""]].
Proof.
  split; [|split; reflexivity].
  destruct (chunk_data_shape ns s) as (nb & Hrun & _).
  assert (Hne : firstn 10 (split_lines s) <> []).
  { pose proof (split_lines_nonempty s). destruct (split_lines s); [contradiction|discriminate]. }
  unfold search_batches in Hrun.
  destruct (List.length (firstn 10 (split_lines s)) <=? 5) eqn:E.
  - exists nb, (firstn 10 (split_lines s)), []. split; [exact Hrun|exact Hne].
  - exists nb, (firstn 5 (firstn 10 (split_lines s))), [skipn 5 (firstn 10 (split_lines s))].
    split; [exact Hrun|].
    destruct (firstn 10 (split_lines s)); [contradiction|discriminate].
Qed.

(** ** Quality score *)

Lemma py_min_Qmin (x y : Q) : (py_min x y == Qmin x y)%Q.
Proof.
  unfold py_min. destruct (Qle_bool x y) eqn:E.
  - apply Qle_bool_iff in E. symmetry. now apply Q.min_l.
  - assert (Hlt : (y <= x)%Q).
    { apply Qnot_lt_le. intros Hxy. apply Qlt_le_weak in Hxy.
      apply Qle_bool_iff in Hxy. congruence. }
    symmetry. now apply Q.min_r.
Qed.

Lemma quality_of_count_formula (n : nat) :
  (quality_of_count n
   == Qmin ((3 # 10) + Qmin (inject_Z (Z.of_nat n) * (1 # 10)) (3 # 10)) 1)%Q.
Proof.
  unfold quality_of_count, fadd, fmul.
  rewrite py_min_Qmin, Qred_correct, py_min_Qmin, Qred_correct. reflexivity.
Qed.

Lemma quality_of_count_range (n : nat) :
  (0 <= quality_of_count n)%Q /\ (quality_of_count n <= 1)%Q.
Proof.
  rewrite quality_of_count_formula. split.
  - apply Q.min_glb; [|discriminate].
    assert (H0 : (0 <= Qmin (inject_Z (Z.of_nat n) * (1 # 10)) (3 # 10))%Q).
    { apply Q.min_glb; [|discriminate].
      apply Qmult_le_0_compat; [|discriminate].
      unfold Qle. simpl. lia. }
    apply (Qle_trans _ ((3 # 10) + 0)); [discriminate|].
    apply Qplus_le_compat; [apply Qle_refl|exact H0].
  - apply Q.le_min_r.
Qed.

(** From three trends on the trend term sits at its cap. *)
Lemma quality_of_count_capped (n : nat) : 3 <= n -> quality_of_count n = (3 # 5)%Q.
Proof.
  intros Hn. unfold quality_of_count.
  assert (Hterm : py_min (fmul (inject_Z (Z.of_nat n)) (1 # 10)) (3 # 10) = (3 # 10)%Q).
  { unfold py_min, fmul.
    destruct (Qle_bool (Qred (inject_Z (Z.of_nat n) * (1 # 10))) (3 # 10)) eqn:E;
      [|reflexivity].
    apply Qle_bool_iff in E. rewrite Qred_correct in E.
    change (3 # 10)%Q with (Qred (3 # 10)). apply Qred_complete.
    apply Qle_antisym; [exact E|].
    unfold Qle, Qmult, inject_Z. simpl. lia. }
  rewrite Hterm. reflexivity.
Qed.

(** In binary64 the counts the specification names give the doubles written
    0.3 and 0.6: three times 0.1 exceeds 0.3 there, and the inner [min] puts
    the cap back. *)
Example quality_of_count_binary64_values :
  map quality_of_count_binary64 [0; 1; 2; 3; 10]%Z
  = [0.3; 0.4; 0.5; 0.6; 0.6]%float
  /\ PrimFloat.ltb 0.3%float (PrimFloat.mul 3%float 0.1%float) = true.
Proof. split; vm_compute; reflexivity. Qed.

(** C8: with [n] trends in a list the score is
    [min(0.3 + min(n * 0.1, 0.3), 1.0)]: 0.3 for none, 0.6 for three and for
    ten, the trend term being capped from three on, and always within [0, 1]. *)
Theorem calculate_quality_score_value (a : dict) (trends : list value) :
  dict_get a "trends" = Some (VList trends) ->
  exists q,
    calculate_quality_score a = Ok q
    /\ (q == Qmin ((3 # 10)
                   + Qmin (inject_Z (Z.of_nat (List.length trends)) * (1 # 10)) (3 # 10)) 1)%Q
    /\ (0 <= q)%Q /\ (q <= 1)%Q
    /\ (List.length trends = 0 -> q = (3 # 10)%Q)
    /\ (List.length trends = 3 -> q = (3 # 5)%Q)
    /\ (List.length trends = 10 -> q = (3 # 5)%Q)
    /\ (3 <= List.length trends -> q = (3 # 5)%Q).
Proof.
  intros Hget. exists (quality_of_count (List.length trends)).
  unfold calculate_quality_score, dict_get_default. rewrite Hget. simpl.
  split; [reflexivity|]. split; [apply quality_of_count_formula|].
  split; [apply quality_of_count_range|]. split; [apply quality_of_count_range|].
  split; [intros ->; reflexivity|].
  split; [intros H; apply quality_of_count_capped; lia|].
  split; [intros H; apply quality_of_count_capped; lia|].
  apply quality_of_count_capped.
Qed.

Lemma calculate_quality_score_value_witness :
  exists q,
    calculate_quality_score [("trends", VList [VStr "a"; VStr "b"; VStr "c"])] = Ok q
    /\ q = (3 # 5)%Q.
Proof.
  destruct (calculate_quality_score_value
              [("trends", VList [VStr "a"; VStr "b"; VStr "c"])]
              [VStr "a"; VStr "b"; VStr "c"] eq_refl)
    as (q & Hrun & _ & _ & _ & _ & H3 & _).
  exists q. split; [exact Hrun|]. apply H3. reflexivity.
Defined.

(** ** The validators only observe *)

Lemma read_only_ret {A} (a : A) : read_only (ret a).
Proof. intros st. split; [reflexivity|]. exists []. simpl. now rewrite app_nil_r. Qed.

Lemma read_only_lift {A} (r : result A) : read_only (lift r).
Proof. intros st. split; [reflexivity|]. exists []. simpl. now rewrite app_nil_r. Qed.

Lemma read_only_read_analysis : read_only read_analysis.
Proof. intros st. split; [reflexivity|]. exists []. simpl. now rewrite app_nil_r. Qed.

Lemma read_only_print (w : warning) : read_only (print w).
Proof. intros st. split; [reflexivity|]. now exists [w]. Qed.

Lemma read_only_bind {A B} (m : M A) (k : A -> M B) :
  read_only m -> (forall a, read_only (k a)) -> read_only (bind m k).
Proof.
  intros Hm Hk st. unfold bind.
  destruct (Hm st) as (Ha & ws & Hp).
  destruct (m st) as [[a|e] st1]; simpl in *.
  - destruct (Hk a st1) as (Ha' & ws' & Hp'). split; [congruence|].
    exists (ws ++ ws'). rewrite Hp', Hp. now rewrite app_assoc.
  - split; [exact Ha|]. now exists ws.
Qed.

Lemma read_only_for_each {A} (l : list A) (body : A -> M unit) :
  (forall a, read_only (body a)) -> read_only (for_each l body).
Proof.
  intros Hbody. induction l as [|a rest IH]; simpl.
  - apply read_only_ret.
  - apply read_only_bind; auto.
Qed.

Create HintDb frame.
#[local] Hint Resolve read_only_ret read_only_lift read_only_read_analysis
  read_only_print read_only_for_each : frame.

(** Follows the shape of a computation down to its primitive steps. *)
Ltac read_only_steps :=
  repeat first
    [ apply read_only_bind; [|intro]
    | match goal with
      | |- read_only (match ?x with _ => _ end) => destruct x
      | |- read_only (if ?b then _ else _) => destruct b
      end
    | solve [auto with frame] ].

Lemma check_competitor_read_only (competitor : value) :
  read_only (check_competitor competitor).
Proof. unfold check_competitor. read_only_steps. Qed.

Lemma validate_data_structure_read_only : read_only validate_data_structure.
Proof.
  unfold validate_data_structure. read_only_steps.
  apply read_only_for_each, check_competitor_read_only.
Qed.

Lemma validate_analysis_quality_read_only : read_only validate_analysis_quality.
Proof. unfold validate_analysis_quality. read_only_steps. Qed.

(** C9: whatever the analysis and however the validators end, the analysis
    object after [validate_data_structure] and after
    [validate_analysis_quality] is the one before; they return no value and
    only add warnings to the console. *)
Theorem validators_leave_analysis_unchanged (st : pstate) :
  (analysis (snd (validate_data_structure st)) = analysis st
   /\ exists ws, printed (snd (validate_data_structure st)) = printed st ++ ws)
  /\ (analysis (snd (validate_analysis_quality st)) = analysis st
      /\ exists ws, printed (snd (validate_analysis_quality st)) = printed st ++ ws).
Proof.
  split.
  - apply validate_data_structure_read_only.
  - apply validate_analysis_quality_read_only.
Qed.

(** A competitor that is not a mapping stops the structure check with an
    exception; the analysis is as it was. *)
Example validate_data_structure_on_a_string :
  let st := {| analysis := [("competitors", VDict [("top_competitors", VList [VStr "Acme"])])];
               printed := [] |} in
  validate_data_structure st = (Raise AttributeError, st).
Proof. reflexivity. Qed.

(** A competitor without its fields is reported, not removed. *)
Example validate_data_structure_warns :
  let st := {| analysis := [("competitors",
                             VDict [("top_competitors", VList [VDict [("name", VStr "Acme")]])])];
               printed := [] |} in
  validate_data_structure st
  = (Ok tt, {| analysis := analysis st;
               printed := [MissingField (VStr "Acme") ["market_share"]] |}).
Proof. reflexivity. Qed.

(** The other stages do write: here the sort replaces [trends]. *)
Example strategic_sorting_writes :
  analysis (snd (@strategic_sorting Stub.plain
                   {| analysis := [("trends", VList [VDict [("impact_score", VFloat (2 # 10))];
                                                     VDict [("impact_score", VFloat (9 # 10))];
                                                     VDict [("note", VStr "x")]])];
                      printed := [] |}))
  = [("trends", VList [VDict [("impact_score", VFloat (9 # 10))];
                       VDict [("impact_score", VFloat (2 # 10))];
                       VDict [("note", VStr "x")]])].
Proof. reflexivity. Qed.

(** ** Retry *)

Lemma wait_exponential_bounds (attempt_number : Z) :
  (4 <= wait_exponential 1 4 10 attempt_number <= 10)%Z.
Proof. unfold wait_exponential. lia. Qed.

(** The loop enters the body at least once and at most [remaining + 1]
    times, sleeps once between two attempts, for the waits of the failed
    attempts in order, and raises only when no attempt remains. *)
Lemma retry_loop_attempts {S A} (wait : Z -> Z) (body : S -> result A * S) :
  forall (remaining : nat) (attempt_number : Z) (w : world S),
    exists k,
      k <= remaining
      /\ attempts (snd (retry_loop remaining attempt_number wait body w))
         = attempts w + Datatypes.S k
      /\ sleeps (snd (retry_loop remaining attempt_number wait body w))
         = sleeps w ++ map (fun i => wait (attempt_number + Z.of_nat i)%Z) (seq 0 k)
      /\ (forall e, fst (retry_loop remaining attempt_number wait body w) = Raise e ->
                    k = remaining /\ exists last, e = RetryError last).
Proof.
  induction remaining as [|r IH]; intros n w; simpl.
  - destruct (body (llm_state w)) as [[a|e] s1]; simpl; exists 0; simpl;
      rewrite app_nil_r.
    + split; [lia|]. split; [lia|]. split; [reflexivity|]. discriminate.
    + split; [lia|]. split; [lia|]. split; [reflexivity|].
      intros e' [= <-]. split; [reflexivity|]. now exists e.
  - destruct (body (llm_state w)) as [[a|e] s1]; simpl.
    + exists 0. simpl. rewrite app_nil_r.
      split; [lia|]. split; [lia|]. split; [reflexivity|]. discriminate.
    + match goal with |- context [retry_loop r (n + 1)%Z wait body ?w1] =>
        destruct (IH (n + 1)%Z w1) as (k & Hk & Hatt & Hsl & Hraise)
      end.
      exists (Datatypes.S k). simpl in Hatt, Hsl.
      split; [lia|]. split; [rewrite Hatt; lia|]. split.
      * rewrite Hsl, <- app_assoc. f_equal. cbn [seq map app].
        rewrite Z.add_0_r. f_equal. rewrite <- seq_shift, map_map.
        apply map_ext. intros i. f_equal. lia.
      * intros e' He'. destruct (Hraise e' He') as [-> Hlast]. now split.
Qed.

Lemma retry_third_time_lucky {S A} (wait : Z -> Z) (body : S -> result A * S)
    (w : world S) (s1 s2 s3 : S) (e1 e2 : exn) (a : A) :
  body (llm_state w) = (Raise e1, s1) ->
  body s1 = (Raise e2, s2) ->
  body s2 = (Ok a, s3) ->
  retry 3 wait body w
  = (Ok a, {| llm_state := s3; attempts := attempts w + 3;
              sleeps := sleeps w ++ [wait 1%Z; wait 2%Z] |}).
Proof.
  intros H1 H2 H3. unfold retry. simpl. rewrite H1. simpl. rewrite H2. simpl.
  rewrite H3. rewrite <- app_assoc. simpl. do 2 f_equal. lia.
Qed.

Lemma retry_gives_up {S A} (wait : Z -> Z) (body : S -> result A * S)
    (w : world S) (s1 s2 s3 : S) (e1 e2 e3 : exn) :
  body (llm_state w) = (Raise e1, s1) ->
  body s1 = (Raise e2, s2) ->
  body s2 = (Raise e3, s3) ->
  retry 3 wait body w
  = (Raise (RetryError e3),
     {| llm_state := s3; attempts := attempts w + 3;
        sleeps := sleeps w ++ [wait 1%Z; wait 2%Z] |}).
Proof.
  intros H1 H2 H3. unfold retry. simpl. rewrite H1. simpl. rewrite H2. simpl.
  rewrite H3. rewrite <- app_assoc. simpl. do 2 f_equal. lia.
Qed.

(** C7: one call of [structured_analysis] enters its body (all the chunks of
    the type) one to three times; between two attempts it sleeps, each wait
    between 4 and 10 seconds; two failures followed by a success return that
    success after waits of 4 and 4 seconds; and when the third attempt fails
    too the call raises, [RetryError] around the last exception. *)
Theorem structured_analysis_retries `{Runtime} {S} `{LLM S}
    (data : value) (system : system_prompt) (user_prompt : string) (w : world S) :
  let body := structured_analysis_body data system user_prompt in
  let out := structured_analysis data system user_prompt w in
  (exists k new,
      k <= 2
      /\ attempts (snd out) = attempts w + Datatypes.S k
      /\ sleeps (snd out) = sleeps w ++ new
      /\ List.length new = k
      /\ Forall (fun d => (4 <= d <= 10)%Z) new
      /\ (forall e, fst out = Raise e -> k = 2 /\ exists last, e = RetryError last))
  /\ (forall s1 s2 s3 e1 e2 merged,
         body (llm_state w) = (Raise e1, s1) ->
         body s1 = (Raise e2, s2) ->
         body s2 = (Ok merged, s3) ->
         out = (Ok merged, {| llm_state := s3; attempts := attempts w + 3;
                              sleeps := sleeps w ++ [4; 4]%Z |}))
  /\ (forall s1 s2 s3 e1 e2 e3,
         body (llm_state w) = (Raise e1, s1) ->
         body s1 = (Raise e2, s2) ->
         body s2 = (Raise e3, s3) ->
         out = (Raise (RetryError e3),
                {| llm_state := s3; attempts := attempts w + 3;
                   sleeps := sleeps w ++ [4; 4]%Z |})).
Proof.
  intros body out. split; [|split].
  - destruct (retry_loop_attempts (wait_exponential 1 4 10) body 2 1%Z w)
      as (k & Hk & Hatt & Hsl & Hraise).
    exists k, (map (fun i => wait_exponential 1 4 10 (1 + Z.of_nat i)%Z) (seq 0 k)).
    split; [exact Hk|]. split; [exact Hatt|]. split; [exact Hsl|].
    split; [now rewrite length_map, length_seq|]. split.
    + apply Forall_forall. intros d Hd. apply in_map_iff in Hd.
      destruct Hd as (i & <- & _). apply wait_exponential_bounds.
    + exact Hraise.
  - intros s1 s2 s3 e1 e2 merged H1 H2 H3.
    apply (retry_third_time_lucky (wait_exponential 1 4 10) body w s1 s2 s3 e1 e2 merged H1 H2 H3).
  - intros s1 s2 s3 e1 e2 e3 H1 H2 H3.
    apply (retry_gives_up (wait_exponential 1 4 10) body w s1 s2 s3 e1 e2 e3 H1 H2 H3).
Qed.

(** The service fails twice, then answers: the merged trends come back on
    the third attempt, after two waits of four seconds. *)
Lemma structured_analysis_retries_witness :
  @structured_analysis Stub.plain nat Stub.flaky
    (preprocessed ["n"] "l") TrendsSchema trends_prompt (Stub.start 2)
  = (Ok Stub.trends_response,
     {| llm_state := 0; attempts := 3; sleeps := [4; 4]%Z |}).
Proof.
  destruct (@structured_analysis_retries Stub.plain nat Stub.flaky
              (preprocessed ["n"] "l") TrendsSchema trends_prompt (Stub.start 2))
    as (_ & Hlucky & _).
  apply (Hlucky 1 0 0 APIError APIError Stub.trends_response); reflexivity.
Defined.

(** ** Response merger *)

Section Merger.
Context `{Runtime}.

Lemma merge_values_app (old : option value) (l1 l2 : list value) :
  merge_values old (l1 ++ l2)
  = rbind (merge_values old l1) (fun o => merge_values o l2).
Proof.
  revert old. induction l1 as [|v l1 IH]; intros old; simpl; [reflexivity|].
  destruct (merge_value old v); simpl; [apply IH|reflexivity].
Qed.

(** One key of the merged dict follows the values met under that key. *)
Lemma merge_items_field (key : string) (items : list (string * value)) :
  forall merged merged',
    merge_items merged items = Ok merged' ->
    merge_values (dict_get merged key)
      (map snd (filter (fun kv => String.eqb key (fst kv)) items))
    = Ok (dict_get merged' key).
Proof.
  induction items as [|[k v] rest IH]; intros merged merged' Hrun; simpl in *.
  - now inversion Hrun.
  - unfold merge_item in Hrun.
    destruct (merge_value (dict_get merged k) v) as [x|e] eqn:Hv; simpl in Hrun;
      [|discriminate].
    destruct (String.eqb key k) eqn:E; simpl.
    + apply String.eqb_eq in E. subst k. rewrite Hv. simpl.
      rewrite <- (dict_get_set_same merged key x). now apply IH.
    + rewrite <- (dict_get_set_other merged k key x).
      * now apply IH.
      * intros ->. now rewrite String.eqb_refl in E.
Qed.

Lemma merge_from_field (key : string) (responses : list value) :
  forall merged merged',
    merge_from merged responses = Ok merged' ->
    merge_values (dict_get merged key) (values_at key responses)
    = Ok (dict_get merged' key).
Proof.
  induction responses as [|r rest IH]; intros merged merged' Hrun; simpl in *.
  - now inversion Hrun.
  - destruct r; simpl in Hrun; try discriminate.
    destruct (merge_items merged entries) as [merged1|e] eqn:H1; simpl in Hrun;
      [|discriminate].
    rewrite merge_values_app, (merge_items_field key entries merged merged1 H1).
    simpl. now apply IH.
Qed.

(** The merge goes through when no key meets values it cannot combine. *)
Lemma merge_items_total (items : list (string * value)) :
  forall merged,
    (forall key, is_ok (merge_values (dict_get merged key)
                          (map snd (filter (fun kv => String.eqb key (fst kv)) items)))
                 = true) ->
    exists merged', merge_items merged items = Ok merged'.
Proof.
  induction items as [|[k v] rest IH]; intros merged Hok; simpl.
  - now exists merged.
  - unfold merge_item.
    pose proof (Hok k) as Hk. simpl in Hk. rewrite String.eqb_refl in Hk. simpl in Hk.
    destruct (merge_value (dict_get merged k) v) as [x|e] eqn:Hv; simpl in *;
      [|discriminate].
    apply IH. intros key. destruct (String.eqb key k) eqn:E.
    + apply String.eqb_eq in E. subst k. now rewrite dict_get_set_same.
    + rewrite dict_get_set_other.
      * specialize (Hok key). simpl in Hok. now rewrite E in Hok.
      * intros ->. now rewrite String.eqb_refl in E.
Qed.

Lemma merge_from_total (responses : list value) :
  Forall (fun r => is_dict r = true) responses ->
  forall merged,
    (forall key, is_ok (merge_values (dict_get merged key) (values_at key responses)) = true) ->
    exists merged', merge_from merged responses = Ok merged'.
Proof.
  induction 1 as [|r rest Hr _ IH]; intros merged Hok; simpl.
  - now exists merged.
  - destruct r; try discriminate. simpl.
    assert (Hfirst : forall key,
               is_ok (merge_values (dict_get merged key)
                        (map snd (filter (fun kv => String.eqb key (fst kv)) entries)))
               = true).
    { intros key. specialize (Hok key). simpl in Hok. rewrite merge_values_app in Hok.
      destruct (merge_values (dict_get merged key)
                  (map snd (filter (fun kv => String.eqb key (fst kv)) entries)));
        [reflexivity|discriminate]. }
    destruct (merge_items_total entries merged Hfirst) as (merged1 & H1).
    rewrite H1. simpl. apply IH. intros key.
    specialize (Hok key). simpl in Hok.
    now rewrite merge_values_app, (merge_items_field key entries merged merged1 H1) in Hok.
Qed.

(** Lists under one key are concatenated in order. *)
Lemma merge_values_lists (ls : list (list value)) :
  forall l0, merge_values (Some (VList l0)) (map VList ls)
             = Ok (Some (VList (l0 ++ List.concat ls))).
Proof.
  induction ls as [|l ls IH]; intros l0; simpl.
  - now rewrite app_nil_r.
  - rewrite IH. now rewrite <- app_assoc.
Qed.

(** Dicts under one key are merged by [update], in order. *)
Lemma merge_values_dicts (ds : list dict) :
  forall d0, merge_values (Some (VDict d0)) (map VDict ds)
             = Ok (Some (VDict (fold_left dict_update ds d0))).
Proof.
  induction ds as [|d ds IH]; intros d0; simpl; [reflexivity|apply IH].
Qed.

(** Strings under one key are joined by a newline, each join stripped. *)
Lemma merge_values_strings (ss : list string) :
  forall s0, merge_values (Some (VStr s0)) (map VStr ss)
             = Ok (Some (VStr (fold_left (fun acc s => strip (acc ++ nl ++ s)%string) ss s0))).
Proof.
  induction ss as [|s ss IH]; intros s0; simpl; [reflexivity|apply IH].
Qed.

End Merger.

Lemma dict_get_app (d1 d2 : dict) (k : string) :
  dict_get (d1 ++ d2) k
  = match dict_get d1 k with Some v => Some v | None => dict_get d2 k end.
Proof.
  induction d1 as [|[k' v'] t IH]; simpl; [reflexivity|].
  now destruct (String.eqb k k').
Qed.

(** [update] lets the last binding of a key in [other] win, and keeps the
    keys [other] does not mention. *)
Lemma dict_update_get (other : dict) :
  forall (d : dict) (k : string),
    dict_get (dict_update d other) k
    = match dict_get (rev other) k with
      | Some v => Some v
      | None => dict_get d k
      end.
Proof.
  unfold dict_update.
  induction other as [|[k0 v0] rest IH]; intros d k; simpl; [reflexivity|].
  rewrite IH, dict_get_app.
  destruct (dict_get (rev rest) k); [reflexivity|]. simpl.
  destruct (String.eqb k k0) eqn:E.
  - apply String.eqb_eq in E. subst. apply dict_get_set_same.
  - apply dict_get_set_other. intros ->. now rewrite String.eqb_refl in E.
Qed.

(** *** Strings that are already stripped *)

Lemma append_assoc (a b c : string) : ((a ++ b) ++ c = a ++ (b ++ c))%string.
Proof. induction a as [|x a IH]; simpl; [reflexivity|now rewrite IH]. Qed.

Lemma lstrip_length (s : string) : String.length (lstrip s) <= String.length s.
Proof.
  induction s as [|c t IH]; simpl; [lia|].
  destruct (is_space c); simpl; lia.
Qed.

Lemma rstrip_length (s : string) : String.length (rstrip s) <= String.length s.
Proof.
  induction s as [|c t IH]; simpl; [lia|].
  destruct (rstrip t); [destruct (is_space c)|]; simpl in *; lia.
Qed.

Lemma strip_fixed (s : string) : strip s = s -> lstrip s = s /\ rstrip s = s.
Proof.
  intros Hs.
  assert (Hl : lstrip s = s).
  { destruct s as [|c t]; [reflexivity|]. simpl.
    destruct (is_space c) eqn:E; [|reflexivity].
    exfalso. unfold strip in Hs. simpl in Hs. rewrite E in Hs.
    pose proof (rstrip_length (lstrip t)). pose proof (lstrip_length t).
    rewrite Hs in *. simpl in *. lia. }
  split; [exact Hl|]. unfold strip in Hs. now rewrite Hl in Hs.
Qed.

Lemma lstrip_app (a x : string) :
  a <> "" -> lstrip a = a -> lstrip (a ++ x) = (a ++ x)%string.
Proof.
  destruct a as [|c t]; [contradiction|]. intros _ Ha. simpl in *.
  destruct (is_space c); [|reflexivity].
  exfalso. pose proof (lstrip_length t). rewrite Ha in *. simpl in *. lia.
Qed.

Lemma rstrip_app (a b : string) :
  b <> "" -> rstrip b = b -> rstrip (a ++ b) = (a ++ b)%string.
Proof.
  intros Hne Hb. induction a as [|c a IH]; simpl; [exact Hb|].
  rewrite IH. destruct (a ++ b)%string eqn:E; [|reflexivity].
  destruct a; simpl in E; [contradiction|discriminate].
Qed.

Lemma strip_joined (a b : string) :
  a <> "" -> strip a = a -> b <> "" -> strip b = b ->
  strip (a ++ nl ++ b) = (a ++ nl ++ b)%string.
Proof.
  intros Ha Hsa Hb Hsb.
  destruct (strip_fixed a Hsa) as [Hla _]. destruct (strip_fixed b Hsb) as [_ Hrb].
  unfold strip. rewrite (lstrip_app a _ Ha Hla), <- append_assoc.
  now apply rstrip_app.
Qed.

(** On stripped, non-empty strings the successive joins are [str.join]. *)
Lemma fold_join_stripped (ss : list string) :
  Forall (fun s => s <> "" /\ strip s = s) ss ->
  forall s0, s0 <> "" -> strip s0 = s0 ->
    fold_left (fun acc s => strip (acc ++ nl ++ s)%string) ss s0 = join nl (s0 :: ss).
Proof.
  induction 1 as [|s ss [Hne Hs] _ IH]; intros s0 H0 Hs0; [reflexivity|].
  cbn [fold_left]. rewrite (strip_joined s0 s H0 Hs0 Hne Hs).
  rewrite IH.
  - unfold join. cbn [String.concat].
    destruct ss; [reflexivity|]. now rewrite !append_assoc.
  - destruct s0; [contradiction|discriminate].
  - now apply strip_joined.
Qed.

(** C6: when every response is a mapping and no key meets values it cannot
    combine, the merge returns a mapping in which a key met only with lists
    holds their concatenation in chunk order, a key met only with mappings
    holds their successive [update] (the last binding of a key winning), a key
    met only with strings holds them joined by a newline, the result stripped
    at each join (which is [str.join] when the strings are non-empty and
    already stripped), and a key never met is absent; no response gives the empty mapping; and the two
    merges of the specification give [{a: [1,2,3]}] and [{s: 'x\ny'}]. *)
Theorem merge_responses_fields `{Runtime} :
  (forall responses,
      Forall (fun r => is_dict r = true) responses ->
      (forall key, is_ok (merge_values None (values_at key responses)) = true) ->
      exists merged,
        merge_responses responses = Ok (VDict merged)
        /\ (forall key ls, values_at key responses = map VList ls -> ls <> [] ->
                           dict_get merged key = Some (VList (List.concat ls)))
        /\ (forall key ds, values_at key responses = map VDict ds -> ds <> [] ->
                           dict_get merged key = Some (VDict (fold_left dict_update ds [])))
        /\ (forall key ss, values_at key responses = map VStr ss -> ss <> [] ->
                           dict_get merged key
                           = Some (VStr (fold_left (fun acc s => strip (acc ++ nl ++ s)%string)
                                           ss "")))
        /\ (forall key ss, values_at key responses = map VStr ss -> ss <> [] ->
                           Forall (fun s => s <> "" /\ strip s = s) ss ->
                           dict_get merged key = Some (VStr (join nl ss)))
        /\ (forall key, values_at key responses = [] -> dict_get merged key = None))
  /\ (forall d other k,
         dict_get (dict_update d other) k
         = match dict_get (rev other) k with Some v => Some v | None => dict_get d k end)
  /\ merge_responses [] = Ok (VDict [])
  /\ merge_responses [VDict [("a", VList [VInt 1])]; VDict [("a", VList [VInt 2; VInt 3])]]
     = Ok (VDict [("a", VList [VInt 1; VInt 2; VInt 3])])
  /\ merge_responses [VDict [("s", VStr "x")]; VDict [("s", VStr "y")]]
     = Ok (VDict [("s", VStr ("x" ++ nl ++ "y"))]).
Proof.
  split; [|split; [|repeat split]].
  - intros responses Hdicts Hok.
    destruct (merge_from_total responses Hdicts [] Hok) as (merged & Hrun).
    exists merged. unfold merge_responses. rewrite Hrun. simpl.
    split; [reflexivity|].
    assert (Hfield : forall key,
               merge_values None (values_at key responses) = Ok (dict_get merged key))
      by (intros key; apply (merge_from_field key responses [] merged Hrun)).
    split; [|split; [|split; [|split]]].
    + intros key ls Hvals Hne. specialize (Hfield key). rewrite Hvals in Hfield.
      destruct ls as [|l ls]; [contradiction|]. simpl in Hfield.
      rewrite merge_values_lists in Hfield. now inversion Hfield.
    + intros key ds Hvals Hne. specialize (Hfield key). rewrite Hvals in Hfield.
      destruct ds as [|d ds]; [contradiction|]. simpl in Hfield.
      rewrite merge_values_dicts in Hfield. now inversion Hfield.
    + intros key ss Hvals Hne. specialize (Hfield key). rewrite Hvals in Hfield.
      destruct ss as [|s ss]; [contradiction|]. simpl in Hfield.
      rewrite merge_values_strings in Hfield. now inversion Hfield.
    + intros key ss Hvals Hne Htidy. specialize (Hfield key). rewrite Hvals in Hfield.
      destruct ss as [|s ss]; [contradiction|]. simpl in Hfield.
      rewrite merge_values_strings in Hfield. injection Hfield as Hget.
      inversion Htidy as [|? ? [Hs Hss] Hrest]; subst.
      rewrite <- Hget. do 2 f_equal.
      change (strip (String newline s)) with (strip s). rewrite Hss.
      exact (fold_join_stripped ss Hrest s Hs Hss).
    + intros key Hvals. specialize (Hfield key). rewrite Hvals in Hfield.
      now inversion Hfield.
  - intros d other k. apply dict_update_get.
Qed.

Lemma merge_responses_fields_witness :
  exists merged,
    @merge_responses Stub.plain
      [VDict [("a", VList [VInt 1])]; VDict [("a", VList [VInt 2; VInt 3])]]
    = Ok (VDict merged)
    /\ dict_get merged "a" = Some (VList [VInt 1; VInt 2; VInt 3]).
Proof.
  destruct (@merge_responses_fields Stub.plain) as (Hgeneral & _).
  destruct (Hgeneral [VDict [("a", VList [VInt 1])]; VDict [("a", VList [VInt 2; VInt 3])]])
    as (merged & Hrun & Hlists & _).
  - repeat constructor.
  - intros key. simpl. destruct (String.eqb key "a"); reflexivity.
  - exists merged. split; [exact Hrun|].
    apply (Hlists "a" [[VInt 1]; [VInt 2; VInt 3]]); [reflexivity|discriminate].
Defined.

(** A list cannot be merged into a key that already holds a string. *)
Example merge_responses_mixed_kinds :
  @merge_responses Stub.plain [VDict [("a", VStr "x")]; VDict [("a", VList [VInt 1])]]
  = Raise AttributeError.
Proof. reflexivity. Qed.

(** ** Preprocessor *)

Section Preprocessor.
Context `{Runtime}.






End Preprocessor.




(** ** Stage 2: deduplicate *)

(** A mapping with a list or a mapping among its values cannot be hashed. *)
Lemma create_hash_unhashable `{Runtime} (d : dict) :
  forallb (fun kv => hashable (snd kv)) d = false ->
  create_hash (VDict d) = Raise TypeError.
Proof. intros Hd. unfold create_hash. now rewrite Hd. Qed.

(** C4 fails on the code: a trend that carries its [evidence] list, as the
    trend schema has it, makes [remove_duplicates] raise TypeError, whatever
    the hash functions of the interpreter. *)
Theorem remove_duplicates_raises_on_evidence `{Runtime} :
  let st := {| analysis := [("trends",
                             VList [VDict [("name", VStr "A");
                                           ("evidence", VList [VStr "e"])]])];
               printed := [] |} in
  remove_duplicates st = (Raise TypeError, st).
Proof. reflexivity. Qed.

Lemma dedupe_two_strings `{Runtime} (a b : string) :
  dedupe_loop [VStr a; VStr b] [] []
  = Ok (if Z.eqb (hash_str b) (hash_str a) then [VStr a] else [VStr a; VStr b]).
Proof. simpl. now destruct (Z.eqb (hash_str b) (hash_str a)). Qed.

(** ** The whole pipeline on the end-to-end scenario *)

(** Replaces a closed call by its value. *)
Ltac run t :=
  let v := eval vm_compute in t in
  replace t with v by (vm_compute; reflexivity);
  cbv beta iota.

(** C1 fails on the code: with six described news items, three search
    results and a service answering each schema with fixed JSON, the run
    succeeds, but the orchestrator stores the whole merged trend response
    under [trends]; the deduplication then iterates that mapping and keeps its
    key names, so the final [trends] is a list of strings, not the trend
    mappings sorted by [impact_score]. *)
Theorem analyze_trends_loses_trends (hs : string -> Z) (hf : list (string * value) -> Z) :
  exists final l,
    fst (fst (@analyze_trends (Stub.runtime hs hf) unit Stub.fixed
                Stub.raw_data (Stub.start tt)))
    = Ok (VDict final)
    /\ dict_get final "trends" = Some (VList l)
    /\ (l = [VStr "trends"; VStr "summary"] \/ l = [VStr "trends"])
    /\ Forall (fun t => is_dict t = false) l.
Proof.
  unfold analyze_trends.
  match goal with |- context [@preprocess_data ?R ?d] => run (@preprocess_data R d) end.
  match goal with |- context [@analyze_with_fallback ?R ?S ?L ?d ?p ?t ?w] =>
    run (@analyze_with_fallback R S L d p t w) end.
  match goal with |- context [@analyze_competitors ?R ?S ?L ?d ?w] =>
    run (@analyze_competitors R S L d w) end.
  match goal with |- context [@swot_analysis ?R ?S ?L ?d ?w] =>
    run (@swot_analysis R S L d w) end.
  cbv zeta. unfold postprocess_analysis. unfold bind at 1.
  match goal with |- context [normalize_texts ?st] => run (normalize_texts st) end.
  unfold bind at 1.
  match goal with |- context [@remove_duplicates ?R ?st] =>
    let v := eval lazy -[dedupe_loop] in (@remove_duplicates R st) in
    change (@remove_duplicates R st) with v end.
  rewrite dedupe_two_strings. cbn [hash_str Stub.runtime].
  destruct (Z.eqb (hs "summary") (hs "trends")); cbv beta iota;
    match goal with |- context [bind ?m ?k ?st] => run (bind m k st) end;
    cbn [fst]; eexists; eexists; (split; [reflexivity|]); (split; [reflexivity|]);
    split; auto.
Qed.

(** With the usual case of two distinct hashes the run ends as follows: the
    other keys the renderer reads are there, [trends] is not. *)
Example analyze_trends_end_to_end :
  exists final,
    fst (fst (@analyze_trends Stub.plain unit Stub.fixed Stub.raw_data (Stub.start tt)))
    = Ok (VDict final)
    /\ dict_get final "trends" = Some (VList [VStr "trends"; VStr "summary"])
    /\ (exists top, value_at [Key "competitors"; Key "top_competitors"] (VDict final)
                    = Some (VList top) /\ 1 <= List.length top)
    /\ Forall (fun category => dict_mem (match dict_get final "swot" with
                                         | Some (VDict swot) => swot
                                         | _ => []
                                         end) category = true)
         ["strengths"; "weaknesses"; "opportunities"; "threats"]
    /\ value_at [Key "metadata"; Key "quality_score"] (VDict final) = Some (VFloat (1 # 2)).
Proof.
  eexists. split; [vm_compute; reflexivity|].
  split; [reflexivity|]. split; [eexists; split; [reflexivity|simpl; lia]|].
  split; [repeat constructor|reflexivity].
Qed.

(** An answer that does not parse is a failed attempt like any other. *)
Example structured_analysis_unparsable :
  @structured_analysis Stub.plain unit Stub.garbled
    (preprocessed ["n"] "l") TrendsSchema trends_prompt (Stub.start tt)
  = (Raise (RetryError JSONDecodeError),
     {| llm_state := tt; attempts := 3; sleeps := [4; 4]%Z |}).
Proof. vm_compute. reflexivity. Qed.

(** When the service keeps failing the run raises instead of returning. *)
Example analyze_trends_service_down :
  @analyze_trends Stub.plain nat Stub.flaky Stub.raw_data (Stub.start 3)
  = (Raise (RetryError APIError),
     {| llm_state := 0; attempts := 3; sleeps := [4; 4]%Z |}, []).
Proof. vm_compute. reflexivity. Qed.

(** ** Stage 4: strategic sort *)

Section Sorting.
Context `{Runtime}.













End Sorting.

Lemma strategic_sorting_run `{Runtime} (st : pstate) (items : list value) :
  dict_get (analysis st) "trends" = Some (VList items) ->
  strategic_sorting st
  = match sort_by_impact (filter has_impact_score items) with
    | Ok sorted =>
        (Ok tt, {| analysis := dict_set (analysis st) "trends"
                                 (VList (sorted ++ filter (fun t => negb (has_impact_score t)) items));
                   printed := printed st |})
    | Raise e => (Raise e, st)
    end.
Proof.
  intros Hget. unfold strategic_sorting, bind, read_analysis. rewrite Hget.
  cbn [lift py_iter]. now destruct (sort_by_impact (filter has_impact_score items)).
Qed.








Lemma rmap_raise {A B} (f : A -> result B) (l : list A) (e : exn) :
  rmap f l = Raise e -> exists x, In x l /\ f x = Raise e.
Proof.
  induction l as [|a l IH]; [discriminate|]. cbn [rmap]. intros Hrun.
  destruct (f a) eqn:Ea; cbn [rbind] in Hrun.
  - destruct (rmap f l) eqn:El; [discriminate|]. injection Hrun as ->.
    destruct (IH eq_refl) as (x & Hx & Hfx). exists x. split; [now right|exact Hfx].
  - injection Hrun as ->. exists a. split; [now left|exact Ea].
Qed.

Lemma rmap_not_ok {A B} (f : A -> result B) (l : list A) (x : A) :
  In x l -> is_ok (f x) = false -> is_ok (rmap f l) = false.
Proof.
  induction l as [|a l IH]; [contradiction|]. intros [->|Hin] Hx; cbn [rmap].
  - destruct (f x); [discriminate|reflexivity].
  - destruct (f a); [|reflexivity]. cbn [rbind].
    specialize (IH Hin Hx). destruct (rmap f l); [discriminate|reflexivity].
Qed.

(** [safe_get] lets one exception through: the OverflowError of an integer
    too large for a double. *)
Lemma safe_get_raise `{Runtime} (v : value) (key : string) (default : Q) (e : exn) :
  safe_get v key default = Raise e <->
  e = OverflowError
  /\ exists d n, v = VDict d /\ dict_get d key = Some (VInt n) /\ float_overflows n = true.
Proof.
  unfold safe_get. split.
  - intros Hrun. destruct v; try discriminate.
    destruct (dict_get entries key) as [x|] eqn:Ex; [|discriminate].
    destruct x as [|b|n|q|s|l|d']; cbn [py_float] in Hrun; try discriminate.
    + destruct (float_overflows n) eqn:En; [|discriminate].
      injection Hrun as <-. split; [reflexivity|]. now exists entries, n.
    + destruct (float_of_str s); discriminate.
  - intros (-> & d & n & -> & Hget & Hn). rewrite Hget. cbn [py_float]. now rewrite Hn.
Qed.

(** X3: the sort fails exactly when some entry carries an integer
    [impact_score] of magnitude [2**1024 - 2**970] or more; the exception is
    then OverflowError, which [safe_get] does not catch, and the analysis is
    left as it was. *)
Theorem strategic_sorting_overflow `{Runtime} (st : pstate) (items : list value) :
  dict_get (analysis st) "trends" = Some (VList items) ->
  (is_ok (fst (strategic_sorting st)) = false <->
   exists d n, In (VDict d) items /\ dict_get d "impact_score" = Some (VInt n)
               /\ float_overflows n = true)
  /\ (is_ok (fst (strategic_sorting st)) = false ->
      strategic_sorting st = (Raise OverflowError, st)).
Proof.
  intros Hget. rewrite (strategic_sorting_run st items Hget).
  assert (Hraise : forall e, sort_by_impact (filter has_impact_score items) = Raise e ->
             e = OverflowError
             /\ exists d n, In (VDict d) items /\ dict_get d "impact_score" = Some (VInt n)
                            /\ float_overflows n = true).
  { intros e Hrun. unfold sort_by_impact in Hrun.
    destruct (rmap _ (filter has_impact_score items)) eqn:Er; [discriminate|].
    injection Hrun as ->. apply rmap_raise in Er. destruct Er as (t & Ht & Hft).
    destruct (safe_get t "impact_score" 0%Q) eqn:Et; [discriminate|].
    injection Hft as ->. apply safe_get_raise in Et.
    destruct Et as (-> & d & n & -> & Hd & Hn). split; [reflexivity|].
    exists d, n. apply filter_In in Ht. now repeat split. }
  split; [split|].
  - destruct (sort_by_impact (filter has_impact_score items)) as [sorted|e] eqn:Hs;
      [discriminate|]. intros _. now destruct (Hraise e eq_refl).
  - intros (d & n & Hin & Hd & Hn).
    assert (Hbad : is_ok (sort_by_impact (filter has_impact_score items)) = false).
    { unfold sort_by_impact.
      assert (Hr : is_ok (rmap (fun t => rbind (safe_get t "impact_score" 0%Q)
                                               (fun k => Ok (k, t)))
                            (filter has_impact_score items)) = false).
      { apply (rmap_not_ok _ _ (VDict d)).
        - apply filter_In. split; [exact Hin|]. cbn [has_impact_score]. unfold dict_mem.
          now rewrite Hd.
        - assert (Hs : safe_get (VDict d) "impact_score" 0%Q = Raise OverflowError)
            by (apply safe_get_raise; split; [reflexivity|now exists d, n]).
          now rewrite Hs. }
      destruct (rmap _ (filter has_impact_score items)); [discriminate|reflexivity]. }
    destruct (sort_by_impact (filter has_impact_score items)); [discriminate|reflexivity].
  - destruct (sort_by_impact (filter has_impact_score items)) as [sorted|e] eqn:Hs;
      [discriminate|]. intros _. now destruct (Hraise e eq_refl) as [-> _].
Qed.

Lemma strategic_sorting_overflow_witness :
  let st := {| analysis := [("trends", VList [VDict [("impact_score", VInt (2 ^ 1024))]])];
               printed := [] |} in
  @strategic_sorting Stub.plain st = (Raise OverflowError, st).
Proof.
  intros st.
  destruct (@strategic_sorting_overflow Stub.plain st
              [VDict [("impact_score", VInt (2 ^ 1024))]] eq_refl) as (Hiff & Hsame).
  apply Hsame, Hiff. exists [("impact_score", VInt (2 ^ 1024))], (2 ^ 1024)%Z.
  split; [now left|]. split; [reflexivity|]. vm_compute. reflexivity.
Defined.

(** ** What a stage may write *)

Lemma writes_only_ret {A} (keys : list string) (a : A) : writes_only keys (ret a).
Proof. intros st k _. reflexivity. Qed.

Lemma writes_only_lift {A} (keys : list string) (r : result A) : writes_only keys (lift r).
Proof. intros st k _. reflexivity. Qed.

Lemma writes_only_read_analysis (keys : list string) : writes_only keys read_analysis.
Proof. intros st k _. reflexivity. Qed.

Lemma writes_only_print (keys : list string) (w : warning) : writes_only keys (print w).
Proof. intros st k _. reflexivity. Qed.

Lemma writes_only_set_item (keys : list string) (key : string) (v : value) :
  In key keys -> writes_only keys (set_item key v).
Proof.
  intros Hin st k Hk. simpl. apply dict_get_set_other. intros ->. now apply Hk.
Qed.

Lemma writes_only_bind {A B} (keys : list string) (m : M A) (k : A -> M B) :
  writes_only keys m -> (forall a, writes_only keys (k a)) -> writes_only keys (bind m k).
Proof.
  intros Hm Hk st key Hkey. unfold bind. specialize (Hm st key Hkey).
  destruct (m st) as [[a|e] st1]; simpl in *; [|exact Hm].
  now rewrite (Hk a st1 key Hkey).
Qed.

Lemma writes_only_for_each {A} (keys : list string) (l : list A) (body : A -> M unit) :
  (forall a, In a l -> writes_only keys (body a)) -> writes_only keys (for_each l body).
Proof.
  induction l as [|a rest IH]; intros Hbody; simpl.
  - apply writes_only_ret.
  - apply writes_only_bind; [apply Hbody; now left|].
    intros _. apply IH. intros b Hb. apply Hbody. now right.
Qed.

Lemma writes_only_weaken {A} (keys keys' : list string) (m : M A) :
  incl keys keys' -> writes_only keys m -> writes_only keys' m.
Proof. intros Hincl Hm st k Hk. apply Hm. intros Hin. apply Hk, Hincl, Hin. Qed.

Lemma read_only_writes_nothing {A} (m : M A) : read_only m -> writes_only [] m.
Proof. intros Hm st k _. now rewrite (proj1 (Hm st)). Qed.

(** Follows the shape of a computation down to its primitive steps. *)
Ltac writes_only_steps :=
  repeat first
    [ apply writes_only_bind; [|intro]
    | apply writes_only_ret
    | apply writes_only_lift
    | apply writes_only_read_analysis
    | apply writes_only_print
    | match goal with
      | |- writes_only _ (match ?x with _ => _ end) => destruct x
      | |- writes_only _ (if ?b then _ else _) => destruct b
      end ].

Lemma normalize_texts_writes : writes_only text_fields normalize_texts.
Proof.
  apply writes_only_for_each. intros field Hfield.
  unfold normalize_field. writes_only_steps. now apply writes_only_set_item.
Qed.

Lemma remove_duplicates_writes `{Runtime} : writes_only dedupe_keys remove_duplicates.
Proof.
  apply writes_only_for_each. intros key Hkey.
  writes_only_steps. now apply writes_only_set_item.
Qed.

Lemma strategic_sorting_writes_trends `{Runtime} : writes_only ["trends"] strategic_sorting.
Proof.
  unfold strategic_sorting. writes_only_steps.
  apply writes_only_set_item. now left.
Qed.

Lemma add_metadata_writes `{Runtime} : writes_only ["metadata"] add_metadata.
Proof.
  unfold add_metadata. writes_only_steps.
  apply writes_only_set_item. now left.
Qed.

Lemma postprocess_analysis_writes `{Runtime} :
  writes_only ["trends"; "competitive_landscape"; "summary"; "strengths"; "weaknesses";
               "metadata"] postprocess_analysis.
Proof.
  unfold postprocess_analysis.
  apply writes_only_bind; [|intros _; apply writes_only_bind; [|intros _;
    apply writes_only_bind; [|intros _; apply writes_only_bind; [|intros _;
      apply writes_only_bind; [|intros _]]]]].
  - apply (writes_only_weaken text_fields); [|apply normalize_texts_writes].
    intros k Hk. simpl in *. tauto.
  - apply (writes_only_weaken dedupe_keys); [|apply remove_duplicates_writes].
    intros k Hk. simpl in *. tauto.
  - apply (writes_only_weaken []); [intros k []|].
    apply read_only_writes_nothing, validate_data_structure_read_only.
  - apply (writes_only_weaken ["trends"]); [|apply strategic_sorting_writes_trends].
    intros k Hk. simpl in *. tauto.
  - apply (writes_only_weaken []); [intros k []|].
    apply read_only_writes_nothing, validate_analysis_quality_read_only.
  - apply (writes_only_weaken ["metadata"]); [|apply add_metadata_writes].
    intros k Hk. simpl in *. tauto.
Qed.

(** X4: whatever the analysis and however the postprocessor ends, the keys
    it may write are [trends], [competitive_landscape], [summary],
    [strengths], [weaknesses] and [metadata]; every other top-level key, among
    them [competitors] and [swot], holds after it what it held before. *)
Theorem postprocess_analysis_frame `{Runtime} (st : pstate) :
  (forall k,
      ~ In k ["trends"; "competitive_landscape"; "summary"; "strengths"; "weaknesses";
              "metadata"] ->
      dict_get (analysis (snd (postprocess_analysis st))) k = dict_get (analysis st) k)
  /\ dict_get (analysis (snd (postprocess_analysis st))) "competitors"
     = dict_get (analysis st) "competitors"
  /\ dict_get (analysis (snd (postprocess_analysis st))) "swot"
     = dict_get (analysis st) "swot".
Proof.
  pose proof postprocess_analysis_writes as Hw.
  split; [exact (Hw st)|].
  split; apply Hw; simpl; intuition discriminate.
Qed.

(** ** Stage 2: deduplicate *)

Section Dedupe.
Context `{Runtime}.

Lemma seen_spec (h : Z) (seen : list Z) : existsb (Z.eqb h) seen = true <-> In h seen.
Proof.
  rewrite existsb_exists. split.
  - intros (x & Hx & E). apply Z.eqb_eq in E. now subst.
  - intros Hin. exists h. split; [exact Hin|apply Z.eqb_refl].
Qed.

Lemma hash_of_ok (x : value) (h : Z) : create_hash x = Ok h -> hash_of x = h.
Proof. intros Hx. unfold hash_of. now rewrite Hx. Qed.

(** The loop hashes every item: it returns exactly when each has a hash. *)
Lemma dedupe_loop_hashes (items : list value) :
  forall seen acc r,
    dedupe_loop items seen acc = Ok r ->
    Forall (fun x => is_ok (create_hash x) = true) items.
Proof.
  induction items as [|x rest IH]; intros seen acc r Hrun; [constructor|].
  cbn [dedupe_loop] in Hrun.
  destruct (create_hash x) as [h|e] eqn:Ex; [|discriminate]. cbn [rbind] in Hrun.
  constructor; [now rewrite Ex|].
  destruct (existsb (Z.eqb h) seen); now apply IH in Hrun.
Qed.

(** The invariant of the loop. *)
Lemma dedupe_loop_keeps_first (items : list value) :
  Forall (fun x => is_ok (create_hash x) = true) items ->
  forall seen acc,
    exists u,
      dedupe_loop items seen acc = Ok (acc ++ u)
      /\ subseq u items
      /\ NoDup (map hash_of u)
      /\ (forall y, In y u -> ~ In (hash_of y) seen)
      /\ (forall x, In x items -> In (hash_of x) seen \/ In (hash_of x) (map hash_of u))
      /\ (forall pre x post, items = pre ++ x :: post ->
                             ~ In (hash_of x) seen -> ~ In (hash_of x) (map hash_of pre) ->
                             In x u).
Proof.
  induction 1 as [|x rest Hx _ IH]; intros seen acc.
  - exists []. rewrite app_nil_r. repeat split; try constructor; try contradiction.
    intros pre x post Hpre. now destruct pre.
  - cbn [dedupe_loop]. destruct (create_hash x) as [h|e] eqn:Ex; [|discriminate].
    cbn [rbind]. pose proof (hash_of_ok x h Ex) as Hh.
    destruct (existsb (Z.eqb h) seen) eqn:Eseen.
    + apply seen_spec in Eseen.
      destruct (IH seen acc) as (u & Hrun & Hsub & Hnd & Hfresh & Hcover & Hfirst).
      exists u. split; [exact Hrun|]. split; [now constructor|]. split; [exact Hnd|].
      split; [exact Hfresh|]. split.
      * intros y [<-|Hy]; [left; now rewrite Hh|now apply Hcover].
      * intros pre y post Hitems Hy Hpre. destruct pre as [|p pre].
        -- injection Hitems as <- _. rewrite Hh in Hy. contradiction.
        -- injection Hitems as <- Hrest. apply (Hfirst pre y post Hrest Hy).
           intros Hin. apply Hpre. now right.
    + assert (Hnew : ~ In h seen).
      { intros Hin. apply seen_spec in Hin. congruence. }
      destruct (IH (h :: seen) (acc ++ [x])) as (u & Hrun & Hsub & Hnd & Hfresh & Hcover & Hfirst).
      exists (x :: u). split; [now rewrite Hrun, <- app_assoc|].
      split; [now constructor|]. split.
      * cbn [map]. constructor; [|exact Hnd]. rewrite Hh. intros Hin.
        apply in_map_iff in Hin. destruct Hin as (y & Hy & Hyu).
        apply (Hfresh y Hyu). left. now symmetry.
      * split; [|split].
        -- intros y [<-|Hy]; [now rewrite Hh|]. intros Hin. apply (Hfresh y Hy). now right.
        -- intros y [<-|Hy]; [right; now left|].
           destruct (Hcover y Hy) as [[Heq|Hs]|Hu].
           ++ right. left. now rewrite Hh.
           ++ now left.
           ++ right. now right.
        -- intros pre y post Hitems Hy Hpre. destruct pre as [|p pre].
           ++ injection Hitems as <- _. now left.
           ++ injection Hitems as <- Hrest. right.
              apply (Hfirst pre y post Hrest).
              ** intros [Heq|Hin]; [|contradiction]. apply Hpre. left. now rewrite Hh.
              ** intros Hin. apply Hpre. now right.
Qed.

(** A list without two items of one hash goes through the loop unchanged. *)
Lemma dedupe_loop_fixed (u : list value) :
  Forall (fun x => is_ok (create_hash x) = true) u ->
  NoDup (map hash_of u) ->
  forall seen acc,
    (forall y, In y u -> ~ In (hash_of y) seen) ->
    dedupe_loop u seen acc = Ok (acc ++ u).
Proof.
  induction 1 as [|x rest Hx _ IH]; intros Hnd seen acc Hfresh.
  - now rewrite app_nil_r.
  - cbn [dedupe_loop]. destruct (create_hash x) as [h|e] eqn:Ex; [|discriminate].
    cbn [rbind]. pose proof (hash_of_ok x h Ex) as Hh.
    cbn [map] in Hnd. apply NoDup_cons_iff in Hnd. destruct Hnd as [Hnotin Hnd'].
    destruct (existsb (Z.eqb h) seen) eqn:Eseen.
    + apply seen_spec in Eseen. exfalso. apply (Hfresh x); [now left|now rewrite Hh].
    + rewrite IH; [now rewrite <- app_assoc|exact Hnd'|].
      intros y Hy [Heq|Hin]; [|apply (Hfresh y); [now right|exact Hin]].
      apply Hnotin. rewrite Hh, Heq. now apply in_map.
Qed.

Lemma subseq_Forall {A} (P : A -> Prop) (u l : list A) :
  subseq u l -> Forall P l -> Forall P u.
Proof.
  induction 1 as [|x u l _ IH|x u l _ IH]; intros Hl; [constructor| |];
    inversion Hl; subst; [constructor|]; auto.
Qed.

End Dedupe.

Lemma bind_ok {A B} (m : M A) (k : A -> M B) (st st' : pstate) (b : B) :
  bind m k st = (Ok b, st') ->
  exists a st1, m st = (Ok a, st1) /\ k a st1 = (Ok b, st').
Proof.
  unfold bind. destruct (m st) as [[a|e] st1]; [|discriminate].
  intros Hk. now exists a, st1.
Qed.

Lemma dict_set_same_value (d : dict) (k : string) (v : value) :
  dict_get d k = Some v -> dict_set d k v = d.
Proof.
  induction d as [|[k' v'] t IH]; simpl; [discriminate|].
  destruct (String.eqb k k'); [now intros [= ->]|].
  intros Hget. now rewrite IH.
Qed.

Section DedupeStage.
Context `{Runtime}.

(** The body of the loop over the three keys. *)
Local Notation dedupe_body :=
  (fun key : string =>
     (a <- read_analysis ;;
      match dict_get a key with
      | Some v =>
          items <- lift (py_iter v) ;;
          unique_list <- lift (dedupe_loop items [] []) ;;
          set_item key (VList unique_list)
      | None => ret tt
      end)%M).

Lemma dedupe_body_run (key : string) (st : pstate) :
  dedupe_body key st
  = match dict_get (analysis st) key with
    | None => (Ok tt, st)
    | Some v =>
        match py_iter v with
        | Raise e => (Raise e, st)
        | Ok items =>
            match dedupe_loop items [] [] with
            | Raise e => (Raise e, st)
            | Ok u => (Ok tt, {| analysis := dict_set (analysis st) key (VList u);
                                 printed := printed st |})
            end
        end
    end.
Proof.
  unfold bind, read_analysis, lift, ret. cbn [analysis].
  destruct (dict_get (analysis st) key) as [v|]; [|reflexivity].
  destruct (py_iter v) as [items|]; [|reflexivity].
  now destruct (dedupe_loop items [] []).
Qed.

Lemma dedupe_body_writes (keys : list string) (key : string) :
  In key keys -> writes_only keys (dedupe_body key).
Proof. intros Hin. writes_only_steps. now apply writes_only_set_item. Qed.

Lemma dedupe_rest_frame (rest : list string) (k : string) (st : pstate) :
  ~ In k rest ->
  dict_get (analysis (snd (for_each rest dedupe_body st))) k = dict_get (analysis st) k.
Proof.
  intros Hk. apply (writes_only_for_each rest rest dedupe_body); [|exact Hk].
  intros a Ha. now apply dedupe_body_writes.
Qed.

(** What a key that held something iterable holds after a successful run. *)
Lemma dedupe_keys_visit (keys : list string) :
  NoDup keys ->
  forall st st' key v items,
    In key keys ->
    for_each keys dedupe_body st = (Ok tt, st') ->
    dict_get (analysis st) key = Some v ->
    py_iter v = Ok items ->
    exists u, dict_get (analysis st') key = Some (VList u)
              /\ dedupe_loop items [] [] = Ok u.
Proof.
  induction 1 as [|k0 rest Hnotin _ IH]; intros st st' key v items Hin Hrun Hget Hiter;
    [destruct Hin|].
  cbn [for_each] in Hrun. apply bind_ok in Hrun.
  destruct Hrun as ([] & st1 & Hbody & Hrest).
  pose proof (dedupe_body_writes [k0] k0 (or_introl eq_refl) st) as Hframe.
  cbv beta in Hframe. rewrite Hbody in Hframe. cbn [snd] in Hframe.
  destruct (string_dec k0 key) as [->|Hne].
  - rewrite dedupe_body_run, Hget, Hiter in Hbody.
    destruct (dedupe_loop items [] []) as [u|] eqn:Hu; [|discriminate].
    injection Hbody as <-. exists u. split; [|reflexivity].
    pose proof (dedupe_rest_frame rest key
                  {| analysis := dict_set (analysis st) key (VList u);
                     printed := printed st |} Hnotin) as Hkeep.
    rewrite Hrest in Hkeep. cbn [snd analysis] in Hkeep.
    rewrite Hkeep. apply dict_get_set_same.
  - destruct Hin as [Heq|Hin]; [contradiction|].
    apply (IH st1 st' key v items Hin Hrest); [|exact Hiter].
    rewrite Hframe; [exact Hget|]. intros [Heq|[]]. contradiction.
Qed.

(** After a successful run every key of the loop is absent or holds a list
    of hashable items of pairwise different hashes. *)
Lemma dedupe_keys_clean (keys : list string) :
  forall st st',
    for_each keys dedupe_body st = (Ok tt, st') ->
    forall key, In key keys ->
      dict_get (analysis st') key = None
      \/ exists u, dict_get (analysis st') key = Some (VList u)
                   /\ Forall (fun x => is_ok (create_hash x) = true) u
                   /\ NoDup (map hash_of u).
Proof.
  induction keys as [|k0 rest IH]; intros st st' Hrun key Hin; [destruct Hin|].
  cbn [for_each] in Hrun. apply bind_ok in Hrun.
  destruct Hrun as ([] & st1 & Hbody & Hrest).
  destruct (in_dec string_dec key rest) as [Hr|Hr]; [now apply (IH st1 st' Hrest)|].
  destruct Hin as [->|Hin]; [|contradiction].
  pose proof (dedupe_rest_frame rest key st1 Hr) as Hkeep.
  rewrite Hrest in Hkeep. cbn [snd] in Hkeep. rewrite Hkeep.
  rewrite dedupe_body_run in Hbody.
  destruct (dict_get (analysis st) key) as [v|] eqn:Hget.
  - destruct (py_iter v) as [items|]; [|discriminate].
    destruct (dedupe_loop items [] []) as [u|] eqn:Hu; [|discriminate].
    injection Hbody as <-. right. exists u. cbn [analysis].
    split; [apply dict_get_set_same|].
    pose proof (dedupe_loop_hashes items [] [] u Hu) as Hok.
    destruct (dedupe_loop_keeps_first items Hok [] []) as (u' & Hu' & Hsub & Hnd & _).
    rewrite Hu in Hu'. injection Hu' as ->. cbn [app].
    split; [exact (subseq_Forall _ _ _ Hsub Hok)|exact Hnd].
  - injection Hbody as <-. now left.
Qed.

Lemma dedupe_keys_fixed (keys : list string) (a : dict) (p : list warning) :
  (forall key, In key keys ->
     dict_get a key = None
     \/ exists u, dict_get a key = Some (VList u)
                  /\ Forall (fun x => is_ok (create_hash x) = true) u
                  /\ NoDup (map hash_of u)) ->
  for_each keys dedupe_body {| analysis := a; printed := p |}
  = (Ok tt, {| analysis := a; printed := p |}).
Proof.
  induction keys as [|k0 rest IH]; intros Hclean; [reflexivity|].
  cbn [for_each]. unfold bind at 1. rewrite dedupe_body_run. cbn [analysis printed].
  destruct (Hclean k0 (or_introl eq_refl)) as [Hnone|(u & Hget & Hok & Hnd)].
  - rewrite Hnone. apply IH. intros key Hkey. apply Hclean. now right.
  - rewrite Hget. cbn [py_iter].
    rewrite (dedupe_loop_fixed u Hok Hnd [] []) by (intros y _ []).
    cbn [app]. rewrite (dict_set_same_value a k0 (VList u) Hget).
    apply IH. intros key Hkey. apply Hclean. now right.
Qed.

End DedupeStage.

Lemma dedupe_keys_nodup : NoDup dedupe_keys.
Proof. unfold dedupe_keys. repeat constructor; simpl; intuition discriminate. Qed.

(** X5: when the deduplication returns, a key that held a list holds the
    same items with the later items of an already seen hash left out: the
    order is kept, no two kept items have one hash, every item's hash is the
    hash of a kept item, and an item whose hash no earlier item has is kept. *)
Theorem remove_duplicates_keeps_first `{Runtime} (st st' : pstate) (key : string)
    (items : list value) :
  In key dedupe_keys ->
  dict_get (analysis st) key = Some (VList items) ->
  remove_duplicates st = (Ok tt, st') ->
  exists u,
    dict_get (analysis st') key = Some (VList u)
    /\ subseq u items
    /\ NoDup (map hash_of u)
    /\ (forall x, In x items -> In (hash_of x) (map hash_of u))
    /\ (forall pre x post, items = pre ++ x :: post ->
                           ~ In (hash_of x) (map hash_of pre) -> In x u).
Proof.
  intros Hkey Hget Hrun.
  destruct (dedupe_keys_visit dedupe_keys dedupe_keys_nodup st st' key (VList items) items
              Hkey Hrun Hget eq_refl)
    as (u & Hu & Hloop).
  pose proof (dedupe_loop_hashes items [] [] u Hloop) as Hok.
  destruct (dedupe_loop_keeps_first items Hok [] [])
    as (u' & Hu' & Hsub & Hnd & _ & Hcover & Hfirst).
  rewrite Hloop in Hu'. injection Hu' as ->. cbn [app] in *.
  exists u'. split; [exact Hu|]. split; [exact Hsub|]. split; [exact Hnd|]. split.
  - intros x Hx. destruct (Hcover x Hx) as [[]|Hin]. exact Hin.
  - intros pre x post Hitems Hpre. apply (Hfirst pre x post Hitems); [intros []|exact Hpre].
Qed.

Lemma remove_duplicates_keeps_first_witness :
  exists u,
    dict_get (analysis (snd (@remove_duplicates Stub.plain
        {| analysis := [("trends", VList [VStr "a"; VStr "bb"; VStr "c"])];
           printed := [] |}))) "trends" = Some (VList u)
    /\ subseq u [VStr "a"; VStr "bb"; VStr "c"]
    /\ In (VStr "bb") u.
Proof.
  destruct (@remove_duplicates_keeps_first Stub.plain
              {| analysis := [("trends", VList [VStr "a"; VStr "bb"; VStr "c"])];
                 printed := [] |} _ "trends" [VStr "a"; VStr "bb"; VStr "c"]
              (or_introl eq_refl) eq_refl eq_refl)
    as (u & Hget & Hsub & _ & _ & Hfirst).
  exists u. split; [exact Hget|]. split; [exact Hsub|].
  apply (Hfirst [VStr "a"] (VStr "bb") [VStr "c"] eq_refl).
  simpl. intros [Heq|[]]. discriminate.
Defined.

(** X6: the deduplication is idempotent: run on the state a successful run
    left, it returns and leaves that state as it is. *)
Theorem remove_duplicates_idempotent `{Runtime} (st st' : pstate) :
  remove_duplicates st = (Ok tt, st') ->
  remove_duplicates st' = (Ok tt, st').
Proof.
  intros Hrun. destruct st' as [a p].
  apply dedupe_keys_fixed. intros key Hkey.
  exact (dedupe_keys_clean dedupe_keys st {| analysis := a; printed := p |} Hrun key Hkey).
Qed.

Lemma remove_duplicates_idempotent_witness :
  @remove_duplicates Stub.plain
    {| analysis := [("trends", VList [VStr "a"; VStr "bb"])]; printed := [] |}
  = (Ok tt, {| analysis := [("trends", VList [VStr "a"; VStr "bb"])]; printed := [] |}).
Proof.
  apply (@remove_duplicates_idempotent Stub.plain
           {| analysis := [("trends", VList [VStr "a"; VStr "bb"; VStr "c"])];
              printed := [] |}).
  reflexivity.
Defined.

Section DedupeErrors.
Context `{Runtime}.

Lemma create_hash_ok (x : value) :
  is_ok (create_hash x) = true
  <-> forall d, x = VDict d -> forallb (fun kv => hashable (snd kv)) d = true.
Proof.
  destruct x; cbn [create_hash is_ok]; try (split; [intros _ d; discriminate|reflexivity]).
  destruct (forallb (fun kv => hashable (snd kv)) entries) eqn:E; split.
  - intros _ d [= <-]. exact E.
  - reflexivity.
  - discriminate.
  - intros Hd. specialize (Hd entries eq_refl). congruence.
Qed.

Lemma create_hash_raise (x : value) (e : exn) : create_hash x = Raise e -> e = TypeError.
Proof.
  destruct x; cbn [create_hash]; try discriminate.
  destruct (forallb _ entries); [discriminate|]. now intros [= <-].
Qed.

Lemma dedupe_loop_raise (items : list value) :
  forall seen acc e, dedupe_loop items seen acc = Raise e -> e = TypeError.
Proof.
  induction items as [|x rest IH]; intros seen acc e Hrun; [discriminate|].
  cbn [dedupe_loop] in Hrun. destruct (create_hash x) as [h|e'] eqn:Ex; cbn [rbind] in Hrun.
  - destruct (existsb (Z.eqb h) seen); now apply IH in Hrun.
  - injection Hrun as <-. now apply (create_hash_raise x).
Qed.

Lemma dedupe_loop_ok (items : list value) (seen : list Z) (acc : list value) :
  is_ok (dedupe_loop items seen acc) = true
  <-> Forall (fun x => is_ok (create_hash x) = true) items.
Proof.
  split.
  - destruct (dedupe_loop items seen acc) as [r|] eqn:Hrun; [|discriminate].
    intros _. exact (dedupe_loop_hashes items seen acc r Hrun).
  - intros Hok. destruct (dedupe_loop_keeps_first items Hok seen acc) as (u & Hrun & _).
    now rewrite Hrun.
Qed.

Local Notation dedupe_body :=
  (fun key : string =>
     (a <- read_analysis ;;
      match dict_get a key with
      | Some v =>
          items <- lift (py_iter v) ;;
          unique_list <- lift (dedupe_loop items [] []) ;;
          set_item key (VList unique_list)
      | None => ret tt
      end)%M).

Lemma py_iter_raise (v : value) (e : exn) : py_iter v = Raise e -> e = TypeError.
Proof. destruct v; cbn [py_iter]; try discriminate; now intros [= <-]. Qed.

Lemma dedupe_keys_raise (keys : list string) :
  forall st e, fst (for_each keys dedupe_body st) = Raise e -> e = TypeError.
Proof.
  induction keys as [|k0 rest IH]; intros st e Hrun; [discriminate|].
  cbn [for_each] in Hrun. unfold bind at 1 in Hrun. rewrite dedupe_body_run in Hrun.
  destruct (dict_get (analysis st) k0) as [v|]; [|now apply IH in Hrun].
  destruct (py_iter v) as [items|e1] eqn:Ev.
  - destruct (dedupe_loop items [] []) as [u|e2] eqn:Eu; [now apply IH in Hrun|].
    cbn [fst] in Hrun. injection Hrun as <-. now apply (dedupe_loop_raise items [] []).
  - cbn [fst] in Hrun. injection Hrun as <-. now apply (py_iter_raise v).
Qed.

Lemma dedupe_keys_ok (keys : list string) :
  NoDup keys ->
  forall st,
    is_ok (fst (for_each keys dedupe_body st)) = true
    <-> forall key, In key keys ->
          forall v, dict_get (analysis st) key = Some v ->
            exists items, py_iter v = Ok items
                          /\ Forall (fun x => is_ok (create_hash x) = true) items.
Proof.
  induction 1 as [|k0 rest Hnotin _ IH]; intros st.
  - split; [intros _ key []|reflexivity].
  - cbn [for_each]. unfold bind at 1. rewrite dedupe_body_run.
    destruct (dict_get (analysis st) k0) as [v|] eqn:Hget.
    + destruct (py_iter v) as [items|e1] eqn:Ev.
      * destruct (dedupe_loop items [] []) as [u|e2] eqn:Eu.
        -- rewrite IH. cbn [analysis]. split.
           ++ intros Hrest key [<-|Hin] w Hw.
              ** rewrite Hget in Hw. injection Hw as <-. exists items. split; [exact Ev|].
                 exact (dedupe_loop_hashes items [] [] u Eu).
              ** apply (Hrest key Hin). rewrite dict_get_set_other; [exact Hw|].
                 intros ->. contradiction.
           ++ intros Hall key Hin w Hw. apply (Hall key (or_intror Hin)).
              rewrite dict_get_set_other in Hw; [exact Hw|]. intros ->. contradiction.
        -- split; [discriminate|]. intros Hall.
           destruct (Hall k0 (or_introl eq_refl) v Hget) as (items' & Ev' & Hok).
           rewrite Ev in Ev'. injection Ev' as <-.
           apply (dedupe_loop_ok items [] []) in Hok. now rewrite Eu in Hok.
      * split; [discriminate|]. intros Hall.
        destruct (Hall k0 (or_introl eq_refl) v Hget) as (items' & Ev' & _). congruence.
    + rewrite IH. split.
      * intros Hrest key [<-|Hin] w Hw; [congruence|now apply (Hrest key Hin)].
      * intros Hall key Hin. apply Hall. now right.
Qed.

End DedupeErrors.

(** X7: the deduplication returns exactly when each of [trends],
    [strengths] and [weaknesses] that is present can be iterated and yields
    items that are no mappings or mappings without a list or a mapping among
    their values; when it fails the exception is TypeError. *)
Theorem remove_duplicates_returns_iff `{Runtime} (st : pstate) :
  (is_ok (fst (remove_duplicates st)) = true
   <-> forall key, In key dedupe_keys ->
         forall v, dict_get (analysis st) key = Some v ->
           exists items,
             py_iter v = Ok items
             /\ Forall (fun x => forall d, x = VDict d ->
                                   forallb (fun kv => hashable (snd kv)) d = true) items)
  /\ (forall e, fst (remove_duplicates st) = Raise e -> e = TypeError).
Proof.
  split; [|intros e; apply dedupe_keys_raise].
  unfold remove_duplicates. rewrite (dedupe_keys_ok dedupe_keys dedupe_keys_nodup st).
  split; intros Hall key Hkey v Hv; destruct (Hall key Hkey v Hv) as (items & Hi & Hok);
    exists items; (split; [exact Hi|]); eapply Forall_impl; try exact Hok;
    intros x Hx; now apply create_hash_ok.
Qed.

(** ** Stage 1: normalize, again *)















Lemma dict_keys_set_present (d : dict) (k : string) (v : value) :
  dict_mem d k = true -> dict_keys (dict_set d k v) = dict_keys d.
Proof.
  unfold dict_mem. induction d as [|[k' v'] t IH]; simpl; [discriminate|].
  destruct (String.eqb k k'); [reflexivity|]. intros Hm. simpl. now rewrite IH.
Qed.

(** The loop over the text fields, seen from the dict: every visited field
    holds its processed value, and the keys are the same. *)
Lemma normalize_fields_image (fields : list string) :
  NoDup fields ->
  forall st,
    exists a',
      for_each fields normalize_field st
      = (Ok tt, {| analysis := a'; printed := printed st |})
      /\ (forall f, In f fields ->
                    dict_get a' f = option_map process_value (dict_get (analysis st) f))
      /\ dict_keys a' = dict_keys (analysis st).
Proof.
  induction 1 as [|k0 rest Hnotin _ IH]; intros st.
  - exists (analysis st). destruct st. repeat split. intros f [].
  - cbn [for_each]. unfold bind at 1. rewrite normalize_field_run.
    set (a1 := match dict_get (analysis st) k0 with
               | Some v => dict_set (analysis st) k0 (process_value v)
               | None => analysis st
               end).
    destruct (IH {| analysis := a1; printed := printed st |}) as (a' & Hrun & Himg & Hkeys).
    destruct (normalize_fields_frame rest k0 Hnotin {| analysis := a1; printed := printed st |})
      as (a'' & Hrun' & Hk0).
    rewrite Hrun in Hrun'. injection Hrun' as <-.
    cbn [analysis printed] in *.
    exists a'. split; [exact Hrun|]. split.
    + intros f [<-|Hf].
      * rewrite Hk0. unfold a1.
        destruct (dict_get (analysis st) k0) as [v|] eqn:E; [|now rewrite E].
        now rewrite dict_get_set_same.
      * rewrite (Himg f Hf). unfold a1.
        destruct (dict_get (analysis st) k0) as [v|]; [|reflexivity].
        rewrite dict_get_set_other; [reflexivity|]. intros ->. contradiction.
    + rewrite Hkeys. unfold a1.
      destruct (dict_get (analysis st) k0) as [v|] eqn:E; [|reflexivity].
      apply dict_keys_set_present. unfold dict_mem. now rewrite E.
Qed.



(** X9: the normalization touches strings only: under the three text fields
    a number, a boolean or a None is after the stage where and what it was,
    and the analysis has the keys it had, in their order. *)
Theorem normalize_texts_keeps_scalars (st : pstate) (field : string) (v : value)
    (path : list step) (x : value) :
  In field text_fields ->
  dict_get (analysis st) field = Some v ->
  value_at path v = Some x ->
  is_str x = false -> is_list x = false -> is_dict x = false ->
  value_at (Key field :: path) (VDict (analysis (snd (normalize_texts st)))) = Some x
  /\ dict_keys (analysis (snd (normalize_texts st))) = dict_keys (analysis st).
Proof.
  intros Hf Hget Hleaf Hs Hl Hd.
  destruct (normalize_fields_image text_fields text_fields_nodup st) as (a' & Hrun & Himg & Hkeys).
  unfold normalize_texts. rewrite Hrun. cbn [snd analysis]. split; [|exact Hkeys].
  cbn [value_at]. rewrite (Himg field Hf), Hget. cbn [option_map].
  rewrite (value_at_process_value path v x Hleaf).
  destruct x; try discriminate; reflexivity.
Qed.

Lemma normalize_texts_keeps_scalars_witness :
  value_at [Key "trends"; Index 0; Key "impact_score"]
    (VDict (analysis (snd (normalize_texts
       {| analysis := [("trends", VList [VDict [("name", VStr " ai ");
                                                ("impact_score", VFloat (9 # 10))]])];
          printed := [] |}))))
  = Some (VFloat (9 # 10)).
Proof.
  apply (normalize_texts_keeps_scalars
           {| analysis := [("trends", VList [VDict [("name", VStr " ai ");
                                                    ("impact_score", VFloat (9 # 10))]])];
              printed := [] |}
           "trends" (VList [VDict [("name", VStr " ai "); ("impact_score", VFloat (9 # 10))]])
           [Index 0; Key "impact_score"] (VFloat (9 # 10)));
    (reflexivity || (simpl; tauto)).
Defined.

(** ** Quality score and metadata, again *)

Lemma quality_of_count_cases (n : nat) :
  quality_of_count n
  = match n with
    | 0 => (3 # 10)%Q
    | 1 => (2 # 5)%Q
    | 2 => (1 # 2)%Q
    | _ => (3 # 5)%Q
    end.
Proof.
  destruct n as [|[|[|n]]]; try reflexivity.
  apply quality_of_count_capped. lia.
Qed.



(** X11: more trends never lower the score. *)
Theorem calculate_quality_score_monotone (a1 a2 : dict) (l1 l2 : list value) (q1 q2 : Q) :
  dict_get a1 "trends" = Some (VList l1) ->
  dict_get a2 "trends" = Some (VList l2) ->
  List.length l1 <= List.length l2 ->
  calculate_quality_score a1 = Ok q1 ->
  calculate_quality_score a2 = Ok q2 ->
  (q1 <= q2)%Q.
Proof.
  unfold calculate_quality_score, dict_get_default.
  intros -> -> Hlen [= <-] [= <-]. rewrite !quality_of_count_cases.
  destruct (List.length l1) as [|[|[|n1]]], (List.length l2) as [|[|[|n2]]];
    try lia; discriminate.
Qed.

Lemma calculate_quality_score_monotone_witness : ((2 # 5) <= (3 # 5))%Q.
Proof.
  apply (calculate_quality_score_monotone
           [("trends", VList [VNone])] [("trends", VList [VNone; VNone; VNone; VNone])]
           [VNone] [VNone; VNone; VNone; VNone] (2 # 5)%Q (3 # 5)%Q);
    (reflexivity || (simpl; lia)).
Defined.

Lemma dict_keys_set_absent (d : dict) (k : string) (v : value) :
  dict_mem d k = false -> dict_keys (dict_set d k v) = dict_keys d ++ [k].
Proof.
  unfold dict_mem. induction d as [|[k' v'] t IH]; simpl; [reflexivity|].
  destruct (String.eqb k k'); [discriminate|]. intros Hm. simpl. now rewrite IH.
Qed.


(** X12: [add_metadata] fails only with TypeError, and exactly when [trends]
    holds a None, a boolean or a number; otherwise it replaces [metadata] by
    the four fields, the score within [0, 1], leaves every other key, and
    prints nothing. *)
Theorem add_metadata_sets `{Runtime} (st : pstate) :
  (is_ok (fst (add_metadata st)) = false
   <-> exists x, dict_get (analysis st) "trends" = Some x
                 /\ is_str x = false /\ is_list x = false /\ is_dict x = false)
  /\ (forall e, fst (add_metadata st) = Raise e ->
                e = TypeError /\ snd (add_metadata st) = st)
  /\ (fst (add_metadata st) = Ok tt ->
      exists q,
        dict_get (analysis (snd (add_metadata st))) "metadata"
        = Some (VDict [("processing_date", VStr utc_now_iso);
                       ("data_sources", VList [VStr "web_search"]);
                       ("model_version", VStr model_version);
                       ("quality_score", VFloat q)])
        /\ (0 <= q)%Q /\ (q <= 1)%Q
        /\ (forall k, k <> "metadata" ->
                      dict_get (analysis (snd (add_metadata st))) k = dict_get (analysis st) k)
        /\ printed (snd (add_metadata st)) = printed st).
Proof.
  unfold add_metadata, bind, read_analysis, lift, set_item, calculate_quality_score,
    dict_get_default. cbn [fst snd analysis].
  destruct (dict_get (analysis st) "trends") as [x|] eqn:Hget.
  - destruct x; cbn [py_len rbind fst snd is_ok analysis printed];
      (split; [split; [try discriminate; intros _; eexists; now repeat split
                      |try reflexivity; intros (y & [= <-] & Hs & Hl & Hd); discriminate]|]);
      (split; [try discriminate; intros e [= <-]; now split|]);
      try discriminate; intros _; eexists; (split; [apply dict_get_set_same|]);
      (split; [apply quality_of_count_range|]); (split; [apply quality_of_count_range|]);
      (split; [|reflexivity]); intros k Hk; apply dict_get_set_other; congruence.
  - cbn [py_len rbind fst snd is_ok analysis printed].
    split; [split; [discriminate|intros (y & Hy & _); discriminate]|].
    split; [discriminate|]. intros _. eexists. split; [apply dict_get_set_same|].
    split; [apply quality_of_count_range|]. split; [apply quality_of_count_range|].
    split; [|reflexivity]. intros k Hk. apply dict_get_set_other. congruence.
Qed.

(** ** Orchestrator *)

Section Orchestrator.
Context `{Runtime} {S : Type} `{LLM S}.

(** A success of the decorated call is the success of one attempt. *)
Lemma retry_loop_ok {A} (wait : Z -> Z) (body : S -> result A * S) :
  forall remaining attempt_number (w w' : world S) (a : A),
    retry_loop remaining attempt_number wait body w = (Ok a, w') ->
    exists s s1, body s = (Ok a, s1).
Proof.
  induction remaining as [|r IH]; intros n w w' a Hrun; cbn [retry_loop] in Hrun;
    destruct (body (llm_state w)) as [[x|e] s1] eqn:Hb.
  - injection Hrun as <- _. now exists (llm_state w), s1.
  - discriminate.
  - injection Hrun as <- _. now exists (llm_state w), s1.
  - now apply IH in Hrun.
Qed.

Lemma structured_analysis_ok (data : value) (system : system_prompt) (user_prompt : string)
    (w w' : world S) (v : value) :
  structured_analysis data system user_prompt w = (Ok v, w') ->
  exists merged, v = VDict merged.
Proof.
  intros Hrun. apply retry_loop_ok in Hrun. destruct Hrun as (s & s1 & Hbody).
  unfold structured_analysis_body in Hbody.
  destruct (chunk_data data 5) as [chunks|]; [|discriminate].
  destruct (ask_chunks system user_prompt chunks s) as [[responses|] s2]; [|discriminate].
  unfold merge_responses in Hbody.
  destruct (merge_from [] responses) as [merged|]; [|discriminate].
  injection Hbody as <- _. now exists merged.
Qed.

(** The cost of one decorated call: one to three attempts, a sleep of four
    seconds between two attempts. *)
Lemma structured_analysis_cost (data : value) (system : system_prompt) (user_prompt : string)
    (w : world S) :
  exists k,
    k <= 2
    /\ attempts (snd (structured_analysis data system user_prompt w))
       = attempts w + Datatypes.S k
    /\ sleeps (snd (structured_analysis data system user_prompt w))
       = sleeps w ++ repeat 4%Z k.
Proof.
  destruct (retry_loop_attempts (wait_exponential 1 4 10)
              (structured_analysis_body data system user_prompt) 2 1%Z w)
    as (k & Hk & Hatt & Hsl & _).
  exists k. split; [exact Hk|]. split; [exact Hatt|].
  unfold structured_analysis, retry. cbn [Nat.sub]. rewrite Hsl. f_equal.
  destruct k as [|[|[|k]]]; try reflexivity. lia.
Qed.

(** The whole run: at most nine attempts, at most six sleeps, each of four
    seconds. *)
Lemma analyze_trends_cost_total (data : value) (w : world S) :
  exists k n,
    k <= 9 /\ n <= 6
    /\ attempts (snd (fst (analyze_trends data w))) = attempts w + k
    /\ sleeps (snd (fst (analyze_trends data w))) = sleeps w ++ repeat 4%Z n
    /\ (is_ok (fst (fst (analyze_trends data w))) = true -> 3 <= k).
Proof.
  unfold analyze_trends.
  destruct (preprocess_data data) as [processed|e0].
  2:{ exists 0, 0. cbn. rewrite app_nil_r. repeat split; try lia; try discriminate. }
  unfold analyze_with_fallback, analyze_competitors, swot_analysis.
  destruct (structured_analysis_cost processed (get_system_prompt "trends") trends_prompt w)
    as (k1 & Hk1 & Ha1 & Hs1).
  destruct (structured_analysis processed (get_system_prompt "trends") trends_prompt w)
    as [[t|e1] w1]; cbn [snd] in Ha1, Hs1.
  2:{ exists (Datatypes.S k1), k1. cbn. repeat split; try lia; try assumption; try discriminate. }
  destruct (structured_analysis_cost processed CompetitorsSchema competitors_prompt w1)
    as (k2 & Hk2 & Ha2 & Hs2).
  destruct (structured_analysis processed CompetitorsSchema competitors_prompt w1)
    as [[c|e2] w2]; cbn [snd] in Ha2, Hs2.
  2:{ exists (Datatypes.S k1 + Datatypes.S k2), (k1 + k2). cbn [fst snd is_ok].
      rewrite Ha2, Ha1, Hs2, Hs1, <- app_assoc, <- repeat_app.
      repeat split; try lia; try discriminate. }
  destruct (structured_analysis_cost processed SwotSchema swot_prompt w2)
    as (k3 & Hk3 & Ha3 & Hs3).
  destruct (structured_analysis processed SwotSchema swot_prompt w2)
    as [[s|e3] w3]; cbn [snd] in Ha3, Hs3.
  2:{ exists (Datatypes.S k1 + Datatypes.S k2 + Datatypes.S k3), (k1 + (k2 + k3)).
      cbn [fst snd is_ok].
      rewrite Ha3, Ha2, Ha1, Hs3, Hs2, Hs1, <- !app_assoc, <- !repeat_app.
      repeat split; try lia; try discriminate. }
  exists (Datatypes.S k1 + Datatypes.S k2 + Datatypes.S k3), (k1 + (k2 + k3)).
  cbv zeta.
  destruct (postprocess_analysis _) as [[u|e4] st]; cbn [fst snd is_ok];
    rewrite Ha3, Ha2, Ha1, Hs3, Hs2, Hs1, <- !app_assoc, <- !repeat_app;
    repeat split; try lia.
Qed.

End Orchestrator.

(** X13: a run of [analyze_trends] enters the three decorated calls at most
    nine times in all and sleeps at most six times, four seconds each, so at
    most 24 seconds; a run that returns has made at least three attempts. *)
Theorem analyze_trends_cost `{Runtime} {S : Type} `{LLM S} (data : value) (w : world S) :
  exists k n,
    k <= 9 /\ n <= 6
    /\ attempts (snd (fst (analyze_trends data w))) = attempts w + k
    /\ sleeps (snd (fst (analyze_trends data w))) = sleeps w ++ repeat 4%Z n
    /\ (is_ok (fst (fst (analyze_trends data w))) = true -> 3 <= k).
Proof. apply analyze_trends_cost_total. Qed.

Section Shape.
Context `{Runtime}.

Local Notation dedupe_body :=
  (fun key : string =>
     (a <- read_analysis ;;
      match dict_get a key with
      | Some v =>
          items <- lift (py_iter v) ;;
          unique_list <- lift (dedupe_loop items [] []) ;;
          set_item key (VList unique_list)
      | None => ret tt
      end)%M).

Lemma dedupe_keys_keep_keys (keys : list string) :
  forall st,
    dict_keys (analysis (snd (for_each keys dedupe_body st))) = dict_keys (analysis st).
Proof.
  induction keys as [|k0 rest IH]; intros st; [reflexivity|].
  cbn [for_each]. unfold bind at 1. rewrite dedupe_body_run.
  destruct (dict_get (analysis st) k0) as [v|] eqn:Hget; [|apply IH].
  destruct (py_iter v) as [items|]; [|reflexivity].
  destruct (dedupe_loop items [] []) as [u|]; [|reflexivity].
  rewrite IH. cbn [analysis]. apply dict_keys_set_present. unfold dict_mem. now rewrite Hget.
Qed.

Lemma strategic_sorting_keeps_keys (st : pstate) :
  dict_keys (analysis (snd (strategic_sorting st))) = dict_keys (analysis st).
Proof.
  unfold strategic_sorting, bind, read_analysis, lift, set_item. cbn [analysis].
  destruct (dict_get (analysis st) "trends") as [v|] eqn:Hget; [|reflexivity].
  destruct (py_iter v) as [items|]; [|reflexivity].
  destruct (sort_by_impact (filter has_impact_score items)); [|reflexivity].
  cbn [snd analysis]. apply dict_keys_set_present. unfold dict_mem. now rewrite Hget.
Qed.

Lemma read_only_ok {A} (m : M A) (st st' : pstate) (a : A) :
  read_only m -> m st = (Ok a, st') -> analysis st' = analysis st.
Proof. intros Hm Hrun. pose proof (proj1 (Hm st)) as Ha. now rewrite Hrun in Ha. Qed.

Lemma subseq_strings (u : list value) (names : list string) :
  subseq u (map VStr names) -> Forall (fun x => is_str x = true) u.
Proof.
  intros Hsub. apply (subseq_Forall _ _ _ Hsub).
  apply Forall_map, Forall_forall. reflexivity.
Qed.

Lemma filter_all_false {A} (f : A -> bool) (l : list A) :
  Forall (fun x => f x = false) l ->
  filter f l = [] /\ filter (fun x => negb (f x)) l = l.
Proof.
  induction 1 as [|x l Hx _ [IH1 IH2]]; [now split|]. cbn [filter].
  rewrite Hx. cbn [negb]. now rewrite IH1, IH2.
Qed.

Lemma dict_get_in_keys (d : dict) (k : string) (v : value) :
  dict_get d k = Some v -> In k (dict_keys d).
Proof.
  induction d as [|[k0 v0] d IH]; cbn [dict_get dict_keys map fst]; [discriminate|].
  destruct (String.eqb k k0) eqn:Ek; [left; symmetry; now apply String.eqb_eq|].
  intros Hget. right. now apply IH.
Qed.

(** The postprocessor on what the orchestrator hands it: three keys, each a
    merged response. *)
Lemma postprocess_merged (t c s : dict) (st' : pstate) :
  postprocess_analysis
    {| analysis := [("trends", VDict t); ("competitors", VDict c); ("swot", VDict s)];
       printed := [] |} = (Ok tt, st') ->
  exists l,
    dict_keys (analysis st') = ["trends"; "competitors"; "swot"; "metadata"]
    /\ dict_get (analysis st') "trends" = Some (VList l)
    /\ subseq l (map VStr (dict_keys t))
    /\ dict_get (analysis st') "competitors" = Some (VDict c)
    /\ dict_get (analysis st') "swot" = Some (VDict s)
    /\ dict_get (analysis st') "metadata"
       = Some (VDict [("processing_date", VStr utc_now_iso);
                      ("data_sources", VList [VStr "web_search"]);
                      ("model_version", VStr model_version);
                      ("quality_score", VFloat (quality_of_count (List.length l)))]).
Proof.
  set (st0 := {| analysis := [("trends", VDict t); ("competitors", VDict c); ("swot", VDict s)];
                 printed := [] |}).
  intros Hrun.
  pose proof (postprocess_analysis_writes st0) as Hframe. rewrite Hrun in Hframe.
  cbn [snd] in Hframe.
  unfold postprocess_analysis in Hrun.
  apply bind_ok in Hrun. destruct Hrun as ([] & st1 & H1 & Hrun).
  apply bind_ok in Hrun. destruct Hrun as ([] & st2 & H2 & Hrun).
  apply bind_ok in Hrun. destruct Hrun as ([] & st3 & H3 & Hrun).
  apply bind_ok in Hrun. destruct Hrun as ([] & st4 & H4 & Hrun).
  apply bind_ok in Hrun. destruct Hrun as ([] & st5 & H5 & H6).
  (* normalize *)
  destruct (normalize_fields_image text_fields text_fields_nodup st0)
    as (a1 & Hn & Himg & Hk1).
  unfold normalize_texts in H1. rewrite Hn in H1. injection H1 as <-.
  pose proof (Himg "trends" (or_introl eq_refl)) as Ht1. cbn in Ht1.
  (* deduplicate *)
  destruct (dedupe_keys_visit dedupe_keys dedupe_keys_nodup _ st2 "trends" _ _
              (or_introl eq_refl) H2 Ht1 eq_refl) as (u & Ht2 & Hloop).
  cbn [printed st0] in H2.
  pose proof (dedupe_keys_keep_keys dedupe_keys {| analysis := a1; printed := [] |})
    as Hk2.
  unfold remove_duplicates in H2. cbn [printed st0] in H2.
  rewrite H2 in Hk2. cbn [snd analysis] in Hk2.
  pose proof (dedupe_loop_hashes _ [] [] u Hloop) as Hok.
  destruct (dedupe_loop_keeps_first _ Hok [] []) as (u' & Hu' & Hsub & _).
  rewrite Hloop in Hu'. injection Hu' as ->. cbn [app] in *.
  assert (Hsub' : subseq u' (map VStr (dict_keys t))).
  { replace (dict_keys t)
      with (dict_keys (map (fun kv : string * value => (fst kv, process_value (snd kv))) t));
      [exact Hsub|].
    unfold dict_keys. rewrite map_map. reflexivity. }
  pose proof (subseq_strings u' _ Hsub') as Hstr.
  (* validate structure *)
  pose proof (read_only_ok _ _ _ _ validate_data_structure_read_only H3) as Ha3.
  (* sort *)
  assert (Ht3 : dict_get (analysis st3) "trends" = Some (VList u')) by now rewrite Ha3.
  rewrite (strategic_sorting_run st3 u' Ht3) in H4.
  assert (Hnone : Forall (fun x => has_impact_score x = false) u').
  { eapply Forall_impl; [|exact Hstr]. intros x Hx. now destruct x. }
  destruct (filter_all_false has_impact_score u' Hnone) as [Hv Hi].
  rewrite Hv, Hi in H4. cbn in H4. injection H4 as <-.
  (* validate quality *)
  pose proof (read_only_ok _ _ _ _ validate_analysis_quality_read_only H5) as Ha5.
  cbn [analysis] in Ha5. rewrite Ha3 in Ha5.
  rewrite (dict_set_same_value _ _ _ Ht2) in Ha5.
  (* metadata *)
  unfold add_metadata, bind, read_analysis, lift, set_item, calculate_quality_score,
    dict_get_default in H6. cbn [analysis] in H6. rewrite Ha5, Ht2 in H6.
  cbn in H6. injection H6 as <-. cbn [analysis].
  assert (Hkeys : dict_keys (analysis st2) = ["trends"; "competitors"; "swot"]).
  { rewrite Hk2, Hk1. reflexivity. }
  exists u'. split; [|split; [|split; [exact Hsub'|split; [|split]]]].
  - rewrite dict_keys_set_absent; [now rewrite Hkeys|].
    unfold dict_mem.
    assert (Hm : dict_get (analysis st2) "metadata" = None).
    { destruct (dict_get (analysis st2) "metadata") eqn:E; [|reflexivity].
      pose proof (dict_get_in_keys _ _ _ E) as Hin.
      rewrite Hkeys in Hin. simpl in Hin. intuition discriminate. }
    now rewrite Hm.
  - rewrite dict_get_set_other; [exact Ht2|discriminate].
  - cbn [analysis] in Hframe. rewrite Hframe; [reflexivity|]. simpl. intuition discriminate.
  - cbn [analysis] in Hframe. rewrite Hframe; [reflexivity|]. simpl. intuition discriminate.
  - apply dict_get_set_same.
Qed.

End Shape.

Section Outcome.
Context `{Runtime} {S : Type} `{LLM S}.

(** What a run that returns has returned. *)
Lemma analyze_trends_ok (data : value) (w : world S) (final : value) :
  fst (fst (analyze_trends data w)) = Ok final ->
  exists processed t w1 c w2 s w3 a l,
    preprocess_data data = Ok processed
    /\ analyze_with_fallback processed trends_prompt "trends" w = (Ok (VDict t), w1)
    /\ analyze_competitors processed w1 = (Ok (VDict c), w2)
    /\ swot_analysis processed w2 = (Ok (VDict s), w3)
    /\ final = VDict a
    /\ dict_keys a = ["trends"; "competitors"; "swot"; "metadata"]
    /\ dict_get a "trends" = Some (VList l)
    /\ subseq l (map VStr (dict_keys t))
    /\ dict_get a "competitors" = Some (VDict c)
    /\ dict_get a "swot" = Some (VDict s)
    /\ dict_get a "metadata"
       = Some (VDict [("processing_date", VStr utc_now_iso);
                      ("data_sources", VList [VStr "web_search"]);
                      ("model_version", VStr model_version);
                      ("quality_score", VFloat (quality_of_count (List.length l)))]).
Proof.
  unfold analyze_trends.
  destruct (preprocess_data data) as [processed|e0]; [|discriminate].
  destruct (analyze_with_fallback processed trends_prompt "trends" w)
    as [[t|e1] w1] eqn:H1; [|discriminate].
  destruct (analyze_competitors processed w1) as [[c|e2] w2] eqn:H2; [|discriminate].
  destruct (swot_analysis processed w2) as [[s|e3] w3] eqn:H3; [|discriminate].
  destruct (structured_analysis_ok _ _ _ _ _ _ H1) as (t' & ->).
  destruct (structured_analysis_ok _ _ _ _ _ _ H2) as (c' & ->).
  destruct (structured_analysis_ok _ _ _ _ _ _ H3) as (s' & ->).
  cbv zeta.
  destruct (postprocess_analysis _) as [[[]|e4] st] eqn:Hpost; [|discriminate].
  cbn [fst]. intros [= <-].
  destruct (postprocess_merged _ _ _ _ Hpost) as (l & Hk & Ht & Hsub & Hc & Hs & Hm).
  exists processed, t', w1, c', w2, s', w3, (analysis st), l.
  repeat (split; [first [reflexivity | assumption]|]). assumption.
Qed.

End Outcome.

(** X14: whatever the service and the runtime, a run of [analyze_trends] that
    returns yields a mapping with exactly the keys [trends], [competitors],
    [swot], [metadata], in this order; [competitors] and [swot] hold the
    merged responses of their calls as they came, and [metadata] holds the
    date, the one data source, the model version and a quality score. *)
Theorem analyze_trends_result_shape `{Runtime} {S : Type} `{LLM S}
    (data : value) (w : world S) (final : value) :
  fst (fst (analyze_trends data w)) = Ok final ->
  exists processed w1 w2 a c s q,
    final = VDict a
    /\ dict_keys a = ["trends"; "competitors"; "swot"; "metadata"]
    /\ preprocess_data data = Ok processed
    /\ fst (analyze_competitors processed w1) = Ok (VDict c)
    /\ dict_get a "competitors" = Some (VDict c)
    /\ fst (swot_analysis processed w2) = Ok (VDict s)
    /\ dict_get a "swot" = Some (VDict s)
    /\ dict_get a "metadata"
       = Some (VDict [("processing_date", VStr utc_now_iso);
                      ("data_sources", VList [VStr "web_search"]);
                      ("model_version", VStr model_version);
                      ("quality_score", VFloat q)])
    /\ (3 # 10 <= q <= 3 # 5)%Q.
Proof.
  intros Hrun.
  destruct (analyze_trends_ok data w final Hrun)
    as (processed & t & w1 & c & w2 & s & w3 & a & l
        & Hp & H1 & H2 & H3 & -> & Hk & Ht & Hsub & Hc & Hs & Hm).
  exists processed, w1, w2, a, c, s, (quality_of_count (List.length l)).
  rewrite H2, H3. repeat (split; [first [reflexivity | assumption]|]).
  rewrite quality_of_count_cases.
  destruct (List.length l) as [|[|[|n]]]; split; discriminate.
Qed.

Lemma analyze_trends_result_shape_witness :
  exists final,
    fst (fst (@analyze_trends Stub.plain unit Stub.fixed Stub.raw_data (Stub.start tt)))
    = Ok final
    /\ exists processed w1 w2 a c s q,
         final = VDict a
         /\ dict_keys a = ["trends"; "competitors"; "swot"; "metadata"]
         /\ @preprocess_data Stub.plain Stub.raw_data = Ok processed
         /\ fst (@analyze_competitors Stub.plain unit Stub.fixed processed w1) = Ok (VDict c)
         /\ dict_get a "competitors" = Some (VDict c)
         /\ fst (@swot_analysis Stub.plain unit Stub.fixed processed w2) = Ok (VDict s)
         /\ dict_get a "swot" = Some (VDict s)
         /\ dict_get a "metadata"
            = Some (VDict [("processing_date", VStr (@utc_now_iso Stub.plain));
                           ("data_sources", VList [VStr "web_search"]);
                           ("model_version", VStr model_version);
                           ("quality_score", VFloat q)])
         /\ (3 # 10 <= q <= 3 # 5)%Q.
Proof.
  eexists. split; [vm_compute; reflexivity|].
  apply (@analyze_trends_result_shape Stub.plain unit Stub.fixed Stub.raw_data (Stub.start tt)).
  vm_compute. reflexivity.
Defined.

(** X15: whatever the service answers, the [trends] of a run that returns is
    a list of strings: key names of the merged trend response, in the order
    of that mapping, never the trend records themselves; and the quality
    score of the metadata is computed from the number of these names. *)
Theorem analyze_trends_trends_are_key_names `{Runtime} {S : Type} `{LLM S}
    (data : value) (w : world S) (final : value) :
  fst (fst (analyze_trends data w)) = Ok final ->
  exists processed t a l meta,
    preprocess_data data = Ok processed
    /\ fst (analyze_with_fallback processed trends_prompt "trends" w) = Ok (VDict t)
    /\ final = VDict a
    /\ dict_get a "trends" = Some (VList l)
    /\ subseq l (map VStr (dict_keys t))
    /\ Forall (fun x => is_str x = true) l
    /\ dict_get a "metadata" = Some (VDict meta)
    /\ dict_get meta "quality_score" = Some (VFloat (quality_of_count (List.length l))).
Proof.
  intros Hrun.
  destruct (analyze_trends_ok data w final Hrun)
    as (processed & t & w1 & c & w2 & s & w3 & a & l
        & Hp & H1 & H2 & H3 & -> & Hk & Ht & Hsub & Hc & Hs & Hm).
  eexists processed, t, a, l, _.
  rewrite H1. repeat (split; [first [reflexivity | eassumption]|]).
  split; [exact (subseq_strings l _ Hsub)|]. split; [exact Hm|reflexivity].
Qed.

Lemma analyze_trends_trends_are_key_names_witness :
  exists final,
    fst (fst (@analyze_trends Stub.plain unit Stub.fixed Stub.raw_data (Stub.start tt)))
    = Ok final
    /\ exists processed t a l meta,
         @preprocess_data Stub.plain Stub.raw_data = Ok processed
         /\ fst (@analyze_with_fallback Stub.plain unit Stub.fixed processed trends_prompt
                   "trends" (Stub.start tt)) = Ok (VDict t)
         /\ final = VDict a
         /\ dict_get a "trends" = Some (VList l)
         /\ subseq l (map VStr (dict_keys t))
         /\ Forall (fun x => is_str x = true) l
         /\ dict_get a "metadata" = Some (VDict meta)
         /\ dict_get meta "quality_score"
            = Some (VFloat (quality_of_count (List.length l))).
Proof.
  eexists. split; [vm_compute; reflexivity|].
  apply (@analyze_trends_trends_are_key_names Stub.plain unit Stub.fixed
           Stub.raw_data (Stub.start tt)).
  vm_compute. reflexivity.
Defined.
(** ** Chunker, any bound *)

Lemma range_slices_concat {A} (m : nat) :
  0 < m ->
  forall fuel i (items : list A),
    List.length items - i <= fuel ->
    List.concat (range_slices fuel m i items) = skipn i items.
Proof.
  intros Hm. induction fuel as [|fuel IH]; intros i items Hfuel.
  - cbn [range_slices List.concat]. symmetry. apply skipn_all2. lia.
  - rewrite range_slices_step.
    destruct (Nat.ltb_spec i (List.length items)) as [Hlt|Hge].
    + cbn [List.concat]. rewrite IH by lia.
      rewrite (Nat.add_comm i m), <- skipn_skipn. apply firstn_skipn.
    + cbn [List.concat]. symmetry. apply skipn_all2. lia.
Qed.

Lemma range_slices_sizes {A} (m : nat) :
  0 < m ->
  forall fuel i (items : list A),
    Forall (fun b => 1 <= List.length b <= m) (range_slices fuel m i items).
Proof.
  intros Hm. induction fuel as [|fuel IH]; intros i items; [constructor|].
  rewrite range_slices_step.
  destruct (Nat.ltb_spec i (List.length items)) as [Hlt|Hge]; [|constructor].
  constructor; [|apply IH].
  rewrite length_firstn, length_skipn. lia.
Qed.

(** The slice at each index of the range. *)
Lemma range_slices_nth {A} (m : nat) :
  0 < m ->
  forall fuel i (items : list A) j,
    List.length items - i <= fuel ->
    nth_error (range_slices fuel m i items) j
    = if i + j * m <? List.length items
      then Some (firstn m (skipn (i + j * m) items))
      else None.
Proof.
  intros Hm. induction fuel as [|fuel IH]; intros i items j Hfuel.
  - cbn [range_slices]. destruct (Nat.ltb_spec (i + j * m) (List.length items)); [lia|].
    now destruct j.
  - rewrite range_slices_step.
    destruct (Nat.ltb_spec i (List.length items)) as [Hlt|Hge].
    + destruct j as [|j]; cbn [nth_error].
      * rewrite Nat.mul_0_l, Nat.add_0_r.
        destruct (Nat.ltb_spec i (List.length items)); [reflexivity|lia].
      * rewrite IH by lia.
        replace (i + m + j * m) with (i + Datatypes.S j * m) by lia. reflexivity.
    + destruct (Nat.ltb_spec (i + j * m) (List.length items)); [lia|]. now destruct j.
Qed.

Lemma chunk_data_preprocessed_any (ns : list string) (s : string) (max_items : Z) :
  chunk_data (preprocessed ns s) max_items
  = match search_loop max_items (firstn 10 (split_lines s)) with
    | Ok search_chunks =>
        Ok (fst (news_loop max_items (firstn 20 (map VStr ns))) ++ search_chunks)
    | Raise e => Raise e
    end.
Proof. reflexivity. Qed.

(** X16: for any positive bound [m], on preprocessed data the chunker
    returns; its news chunks are the consecutive full batches of [m] among
    the first twenty news items, a trailing partial batch being dropped; its
    search chunks are the slices [lines[j*m : j*m + m]] of the first ten
    lines, so each holds between one and [m] lines and together they hold
    every one of these lines once, in order. *)
Theorem chunk_data_any_bound (m : nat) (ns : list string) (s : string) :
  0 < m ->
  let lines := firstn 10 (split_lines s) in
  exists nb sb,
    chunk_data (preprocessed ns s) (Z.of_nat m)
    = Ok (map news_chunk nb ++ map search_chunk sb)
    /\ Forall (fun b => List.length b = m) nb
    /\ List.length nb = Nat.min 20 (List.length ns) / m
    /\ List.concat nb = firstn (m * List.length nb) ns
    /\ List.concat sb = lines
    /\ Forall (fun b => 1 <= List.length b <= m) sb
    /\ (forall j, nth_error sb j
                  = if j * m <? List.length lines
                    then Some (firstn m (skipn (j * m) lines))
                    else None).
Proof.
  intros Hm lines.
  destruct (news_loop_batches m Hm (firstn 20 ns) [] []) as
    (nb & rest & Hrun & Hfull & Hcat & Hrest); [simpl; lia|].
  change (map news_entry []) with (@nil value) in Hrun.
  change ([] ++ map news_chunk nb) with (map news_chunk nb) in Hrun.
  change ([] ++ firstn 20 ns) with (firstn 20 ns) in Hcat.
  exists nb, (range_slices (List.length lines) m 0 lines).
  assert (Hlen : m * List.length nb + List.length rest = Nat.min 20 (List.length ns)).
  { rewrite <- (concat_length_uniform m nb Hfull), <- length_app, Hcat.
    apply length_firstn. }
  split; [|split; [exact Hfull|split; [|split; [|split; [|split]]]]].
  - rewrite chunk_data_preprocessed_any. unfold search_loop.
    destruct (Z.eqb_spec (Z.of_nat m) 0) as [E|_]; [lia|].
    destruct (Z.ltb_spec (Z.of_nat m) 0) as [E|_]; [lia|].
    rewrite Nat2Z.id. fold lines.
    unfold news_loop. rewrite firstn_map, Hrun. reflexivity.
  - apply (Nat.div_unique _ m _ (List.length rest)); [exact Hrest|lia].
  - assert (Hpre : List.concat nb
                   = firstn (List.length (List.concat nb)) (List.concat nb ++ rest)).
    { rewrite firstn_app, Nat.sub_diag, firstn_all. simpl. now rewrite app_nil_r. }
    rewrite Hpre at 1. rewrite Hcat, firstn_firstn, (concat_length_uniform m nb Hfull).
    f_equal. lia.
  - rewrite (range_slices_concat m Hm) by lia. reflexivity.
  - apply (range_slices_sizes m Hm).
  - intros j. rewrite (range_slices_nth m Hm) by lia. reflexivity.
Qed.

Lemma chunk_data_any_bound_witness :
  let ns := ["a"; "b"; "c"; "d"; "e"; "f"; "g"] in
  let lines := firstn 10 (split_lines "x
y
z
t") in
  exists nb sb,
    chunk_data (preprocessed ns "x
y
z
t") 3
    = Ok (map news_chunk nb ++ map search_chunk sb)
    /\ Forall (fun b => List.length b = 3) nb
    /\ List.length nb = Nat.min 20 (List.length ns) / 3
    /\ List.concat nb = firstn (3 * List.length nb) ns
    /\ List.concat sb = lines
    /\ Forall (fun b => 1 <= List.length b <= 3) sb
    /\ (forall j, nth_error sb j
                  = if j * 3 <? List.length lines
                    then Some (firstn 3 (skipn (j * 3) lines))
                    else None).
Proof.
  apply (chunk_data_any_bound 3 ["a"; "b"; "c"; "d"; "e"; "f"; "g"] "x
y
z
t"). lia.
Defined.

(** With a negative bound every article closes its own chunk. *)
Lemma news_loop_negative (max_items : Z) (articles : list value) :
  (max_items <= 0)%Z ->
  forall chunks,
    fold_left (news_step max_items) articles (chunks, [])
    = (chunks ++ map (fun a => VDict [("news", VList [VDict [("news", a)]])]) articles, []).
Proof.
  intros Hneg. induction articles as [|a rest IH]; intros chunks; cbn [fold_left map].
  - now rewrite app_nil_r.
  - cbn [news_step app List.length].
    destruct (Z.geb_spec (Z.of_nat 1) max_items) as [_|E]; [|lia].
    rewrite IH, <- app_assoc. reflexivity.
Qed.

(** X17: the bound is not checked. With bound 0 the chunker raises
    ValueError (the step of the range over the search lines); with a negative
    bound it returns one chunk for each of the first twenty news items and no
    search chunk at all. *)
Theorem chunk_data_bad_bound (ns : list string) (s : string) (max_items : Z) :
  (max_items <= 0)%Z ->
  chunk_data (preprocessed ns s) max_items
  = if (max_items =? 0)%Z then Raise ValueError
    else Ok (map (fun a => news_chunk [a]) (firstn 20 ns)).
Proof.
  intros Hle. rewrite chunk_data_preprocessed_any. unfold search_loop.
  destruct (Z.eqb_spec max_items 0) as [E|E]; [reflexivity|].
  destruct (Z.ltb_spec max_items 0) as [_|E']; [|lia].
  unfold news_loop. rewrite news_loop_negative by exact Hle.
  cbn [fst app]. rewrite app_nil_r, firstn_map, map_map. reflexivity.
Qed.

Lemma chunk_data_bad_bound_witness :
  chunk_data (preprocessed ["a"; "b"] "x") (-1)
  = Ok [news_chunk ["a"]; news_chunk ["b"]].
Proof. apply (chunk_data_bad_bound ["a"; "b"] "x" (-1)). lia. Defined.

(** ** From the preprocessor to the chunker *)

Section Handover.
Context `{Runtime}.

Lemma extract_items_strings (articles : list value) :
  forall texts, extract_items articles = Ok texts -> exists ns, texts = map VStr ns.
Proof.
  induction articles as [|a rest IH]; intros texts Hrun; cbn [extract_items] in Hrun.
  - injection Hrun as <-. now exists [].
  - destruct (get_method a "description" VNone) as [d|]; [|discriminate].
    cbn [rbind] in Hrun. destruct (truthy d); [|now apply IH].
    destruct (subscript a "title") as [t|]; [|discriminate].
    destruct (subscript a "description") as [d'|]; [|discriminate].
    cbn [rbind] in Hrun.
    destruct (extract_items rest) as [tl|]; [|discriminate].
    injection Hrun as <-. destruct (IH tl eq_refl) as (ns & ->).
    now exists ((py_str t ++ ": " ++ py_str d')%string :: ns).
Qed.

(** Whatever the raw data, what [preprocess_data] returns has the
    preprocessed shape. *)
Lemma preprocess_data_shape (raw_data p : value) :
  preprocess_data raw_data = Ok p -> exists ns s, p = preprocessed ns s.
Proof.
  unfold preprocess_data. intros Hrun.
  destruct (get_method raw_data "market_news" (VDict [])) as [mn|]; [|discriminate].
  cbn [rbind] in Hrun.
  destruct (get_method mn "articles" (VList [])) as [arts|]; [|discriminate].
  cbn [rbind] in Hrun. unfold extract_text in Hrun.
  destruct (py_iter arts) as [items|]; [|discriminate]. cbn [rbind] in Hrun.
  destruct (extract_items items) as [texts|] eqn:Ht; [|discriminate]. cbn [rbind] in Hrun.
  destruct (get_method raw_data "search_results" (VDict [])) as [res|]; [|discriminate].
  cbn [rbind] in Hrun. unfold process_search_results in Hrun.
  destruct (get_method res "organic_results" (VList [])) as [org|]; [|discriminate].
  cbn [rbind] in Hrun.
  destruct (slice_to 20 org) as [first20|]; [|discriminate]. cbn [rbind] in Hrun.
  destruct (py_iter first20) as [rs|]; [|discriminate]. cbn [rbind] in Hrun.
  destruct (rmap search_line rs) as [lines|]; [|discriminate]. cbn [rbind] in Hrun.
  injection Hrun as <-. destruct (extract_items_strings _ _ Ht) as (ns & ->).
  now exists ns, (join nl lines).
Qed.

Lemma search_batches_count (lines : list string) :
  1 <= List.length (search_batches lines) <= 2.
Proof. unfold search_batches. destruct (List.length lines <=? 5); simpl; lia. Qed.

Lemma search_batches_bounded (lines : list string) :
  lines <> [] -> List.length lines <= 10 ->
  Forall (fun b => 1 <= List.length b <= 5) (search_batches lines).
Proof.
  intros Hne Hlen. unfold search_batches.
  assert (Hpos : 1 <= List.length lines) by (destruct lines; [contradiction|simpl; lia]).
  destruct (Nat.leb_spec (List.length lines) 5).
  - constructor; [lia|constructor].
  - constructor; [|constructor; [|constructor]];
      rewrite ?length_firstn, ?length_skipn; lia.
Qed.

(** The chunks of preprocessed data, bound 5. *)
Lemma chunk_data_chunks (ns : list string) (s : string) :
  exists chunks,
    chunk_data (preprocessed ns s) 5 = Ok chunks
    /\ 1 <= List.length chunks <= 6
    /\ Forall (fun chunk =>
                 exists key items,
                   chunk = VDict [(key, VList items)]
                   /\ (key = "news" \/ key = "search_results")
                   /\ 1 <= List.length items <= 5) chunks.
Proof.
  destruct (chunk_data_shape ns s) as (nb & Hrun & Hfull & Hcount & _).
  eexists. split; [exact Hrun|]. split.
  - rewrite length_app, !length_map.
    pose proof (search_batches_count (firstn 10 (split_lines s))).
    assert (List.length nb <= 4).
    { rewrite Hcount. apply Nat.Div0.div_le_upper_bound. lia. }
    lia.
  - apply Forall_app. split; apply Forall_map.
    + eapply Forall_impl; [|exact Hfull]. intros b Hb.
      exists "news", (map news_entry b). rewrite length_map, Hb.
      split; [reflexivity|]. split; [now left|lia].
    + assert (Hne : firstn 10 (split_lines s) <> []).
      { pose proof (split_lines_nonempty s).
        destruct (split_lines s); [contradiction|discriminate]. }
      eapply Forall_impl;
        [|exact (search_batches_bounded _ Hne (firstn_le_length 10 _))].
      intros b Hb. exists "search_results", (map VStr b). rewrite length_map.
      split; [reflexivity|]. split; [now right|exact Hb].
Qed.

Lemma split_lines_single (a : string) : single_line a = true -> split_lines a = [a].
Proof.
  induction a as [|c a IH]; cbn [single_line split_lines]; [reflexivity|].
  intros Hc. apply andb_true_iff in Hc. destruct Hc as [Hc Ha].
  apply negb_true_iff in Hc. rewrite Hc, (IH Ha). reflexivity.
Qed.

Lemma split_lines_line (a rest : string) :
  single_line a = true ->
  split_lines (a ++ nl ++ rest) = a :: split_lines rest.
Proof.
  induction a as [|c a IH]; cbn [single_line]; intros Hc.
  - reflexivity.
  - apply andb_true_iff in Hc. destruct Hc as [Hc Ha]. apply negb_true_iff in Hc.
    change ((String c a ++ nl ++ rest)%string) with (String c (a ++ nl ++ rest)%string).
    cbn [split_lines]. rewrite Hc, (IH Ha). reflexivity.
Qed.

(** Splitting what was joined gives the lines back. *)
Lemma split_lines_join (lines : list string) :
  lines <> [] -> forallb single_line lines = true ->
  split_lines (join nl lines) = lines.
Proof.
  unfold join. induction lines as [|a rest IH]; intros Hne Hall; [contradiction|].
  cbn [forallb] in Hall. apply andb_true_iff in Hall. destruct Hall as [Ha Hrest].
  destruct rest as [|b rest'].
  - cbn [String.concat]. now apply split_lines_single.
  - change (String.concat nl (a :: b :: rest'))
      with (a ++ nl ++ String.concat nl (b :: rest'))%string.
    rewrite (split_lines_line _ _ Ha), IH; [reflexivity|discriminate|exact Hrest].
Qed.

End Handover.

(** X18: whatever the raw data, when [preprocess_data] returns, the chunker
    with the bound of 5 returns on its result, with at least one and at most
    six chunks; each chunk is a mapping with the single key [news] or
    [search_results] holding a list of one to five entries. *)
Theorem chunk_data_after_preprocess `{Runtime} (raw_data p : value) :
  preprocess_data raw_data = Ok p ->
  exists chunks,
    chunk_data p 5 = Ok chunks
    /\ 1 <= List.length chunks <= 6
    /\ Forall (fun chunk =>
                 exists key items,
                   chunk = VDict [(key, VList items)]
                   /\ (key = "news" \/ key = "search_results")
                   /\ 1 <= List.length items <= 5) chunks.
Proof.
  intros Hrun. destruct (preprocess_data_shape raw_data p Hrun) as (ns & s & ->).
  apply chunk_data_chunks.
Qed.

Lemma chunk_data_after_preprocess_witness :
  exists chunks,
    chunk_data (preprocessed [] "") 5 = Ok chunks
    /\ 1 <= List.length chunks <= 6
    /\ Forall (fun chunk =>
                 exists key items,
                   chunk = VDict [(key, VList items)]
                   /\ (key = "news" \/ key = "search_results")
                   /\ 1 <= List.length items <= 5) chunks.
Proof.
  apply (@chunk_data_after_preprocess Stub.plain (VDict []) (preprocessed [] "")).
  reflexivity.
Defined.

(** X19: of the search results only the first ten reach the chunks. When the
    raw data has at least one organic result and the lines made of the first
    twenty (title, colon, snippet) hold no line break, the search chunks of
    the preprocessed data carry the first ten of these lines, five and five,
    and nothing of the others. *)
Theorem search_results_reach_chunks `{Runtime}
    (raw_data p : value) (results : list value) (lines : list string) :
  value_at [Key "search_results"; Key "organic_results"] raw_data = Some (VList results) ->
  preprocess_data raw_data = Ok p ->
  rmap search_line (firstn 20 results) = Ok lines ->
  lines <> [] ->
  forallb single_line lines = true ->
  exists nb,
    chunk_data p 5
    = Ok (map news_chunk nb ++ map search_chunk (search_batches (firstn 10 lines))).
Proof.
  intros Hat Hrun Hlines Hne Hsingle.
  destruct raw_data as [| | | | | |d]; try discriminate.
  cbn [value_at] in Hat.
  destruct (dict_get d "search_results") as [res|] eqn:Hres; [|discriminate].
  destruct res as [| | | | | |sr]; try discriminate.
  destruct (dict_get sr "organic_results") as [org|] eqn:Horg; [|discriminate].
  injection Hat as ->.
  destruct (preprocess_data_shape _ _ Hrun) as (ns & s & ->).
  assert (Hs : s = join nl lines).
  { unfold preprocess_data in Hrun. cbn [get_method] in Hrun. rewrite Hres in Hrun.
    destruct (match dict_get d "market_news" with Some x => x | None => VDict [] end)
      as [| | | | | |mn]; try discriminate.
    cbn [rbind get_method] in Hrun.
    destruct (extract_text _) as [news|]; [|discriminate].
    cbn [rbind] in Hrun. unfold process_search_results in Hrun.
    cbn [get_method] in Hrun. rewrite Horg in Hrun.
    cbn [rbind slice_to py_iter] in Hrun. rewrite Hlines in Hrun.
    cbn [rbind] in Hrun. unfold preprocessed in Hrun. congruence. }
  subst s.
  destruct (chunk_data_shape ns (join nl lines)) as (nb & Hchunks & _).
  exists nb. rewrite Hchunks, (split_lines_join lines Hne Hsingle). reflexivity.
Qed.

Lemma search_results_reach_chunks_witness :
  exists nb,
    chunk_data
      (preprocessed [] "page: about")
      5
    = Ok (map news_chunk nb ++ map search_chunk (search_batches (firstn 10 ["page: about"]))).
Proof.
  apply (@search_results_reach_chunks Stub.plain
           (VDict [("search_results",
                    VDict [("organic_results",
                            VList [VDict [("title", VStr "page");
                                          ("snippet", VStr "about")]])])])
           (preprocessed [] "page: about")
           [VDict [("title", VStr "page"); ("snippet", VStr "about")]]
           ["page: about"]);
    first [reflexivity | discriminate].
Defined.

(** ** The requests a run sends *)

Section Requests.
Context `{Runtime} {S : Type} `{LLM S}.

Lemma ask_chunks_logged (system : system_prompt) (user_prompt : string)
    (chunk : value) (rest : list value) (s : S * list request) :
  let req := request_for system user_prompt chunk in
  @ask_chunks _ _ logged system user_prompt (chunk :: rest) s
  = match chat_completion req (fst s) with
    | (Raise e, s1) => (Raise e, (s1, snd s ++ [req]))
    | (Ok content, s1) =>
        match json_loads content with
        | None => (Raise JSONDecodeError, (s1, snd s ++ [req]))
        | Some response =>
            match @ask_chunks _ _ logged system user_prompt rest (s1, snd s ++ [req]) with
            | (Raise e, s2) => (Raise e, s2)
            | (Ok responses, s2) => (Ok (response :: responses), s2)
            end
        end
    end.
Proof.
  unfold request_for. cbn [ask_chunks chat_completion logged].
  destruct (chat_completion _ (fst s)) as [[content|e] s1]; reflexivity.
Qed.

(** The loop sends the requests of a prefix of the chunks, of all of them
    when it returns. *)
Lemma ask_chunks_requests (system : system_prompt) (user_prompt : string) :
  forall (chunks : list value) (s : S * list request),
    exists k,
      k <= List.length chunks
      /\ snd (snd (@ask_chunks _ _ logged system user_prompt chunks s))
         = snd s ++ map (request_for system user_prompt) (firstn k chunks)
      /\ (is_ok (fst (@ask_chunks _ _ logged system user_prompt chunks s)) = true ->
          k = List.length chunks).
Proof.
  induction chunks as [|chunk rest IH]; intros s.
  - exists 0. cbn. rewrite app_nil_r. repeat split; lia.
  - rewrite ask_chunks_logged. cbv zeta.
    destruct (chat_completion _ (fst s)) as [[content|e] s1].
    2:{ exists 1. cbn [fst snd is_ok firstn map List.length].
        split; [lia|]. split; [reflexivity|discriminate]. }
    destruct (json_loads content) as [response|].
    2:{ exists 1. cbn [fst snd is_ok firstn map List.length].
        split; [lia|]. split; [reflexivity|discriminate]. }
    match goal with |- context [@ask_chunks _ _ logged system user_prompt rest ?s2] =>
      destruct (IH s2) as (k & Hk & Hlog & Hok);
      destruct (@ask_chunks _ _ logged system user_prompt rest s2) as [[responses|e] s3]
    end; cbn [fst snd is_ok] in *; exists (Datatypes.S k); rewrite Hlog, <- app_assoc;
      cbn [firstn map app List.length]; (split; [lia|]); (split; [reflexivity|]);
      [|discriminate].
    intros _. rewrite Hok by reflexivity. reflexivity.
Qed.

(** One attempt on preprocessed data: at most six requests. *)
Lemma body_requests (ns : list string) (s0 : string)
    (system : system_prompt) (user_prompt : string) (s : S * list request) :
  sent 6 system user_prompt
    (is_ok (fst (@structured_analysis_body _ _ logged (preprocessed ns s0)
                   system user_prompt s)))
    s (snd (@structured_analysis_body _ _ logged (preprocessed ns s0) system user_prompt s)).
Proof.
  unfold structured_analysis_body.
  destruct (chunk_data_chunks ns s0) as (chunks & -> & [Hmin Hmax] & _).
  destruct (ask_chunks_requests system user_prompt chunks s) as (k & Hk & Hlog & Hok).
  destruct (@ask_chunks _ _ logged system user_prompt chunks s) as [[responses|e] s1];
    cbn [fst snd] in *; exists (firstn k chunks);
    (split; [exact Hlog|]); rewrite length_firstn; (split; [lia|]).
  - intros _. rewrite (Hok eq_refl), firstn_all.
    destruct chunks; [simpl in Hmin; lia|discriminate].
  - discriminate.
Qed.

Lemma sent_trans (n1 n2 : nat) (system : system_prompt) (user_prompt : string)
    (ok1 ok2 : bool) (s1 s2 s3 : S * list request) :
  sent n1 system user_prompt ok1 s1 s2 -> sent n2 system user_prompt ok2 s2 s3 ->
  sent (n1 + n2) system user_prompt ok2 s1 s3.
Proof.
  intros (c1 & H1 & L1 & _) (c2 & H2 & L2 & N2). exists (c1 ++ c2).
  rewrite H2, H1, <- app_assoc, map_app, length_app. split; [reflexivity|].
  split; [lia|]. intros Hok Hnil. apply app_eq_nil in Hnil. now apply (N2 Hok).
Qed.

Lemma retry_loop_requests {A} (wait : Z -> Z)
    (body : S * list request -> result A * (S * list request))
    (n : nat) (system : system_prompt) (user_prompt : string) :
  (forall s, sent n system user_prompt (is_ok (fst (body s))) s (snd (body s))) ->
  forall remaining attempt_number (w : world (S * list request)),
    sent (n * Datatypes.S remaining) system user_prompt
      (is_ok (fst (retry_loop remaining attempt_number wait body w)))
      (llm_state w)
      (llm_state (snd (retry_loop remaining attempt_number wait body w))).
Proof.
  intros Hbody. induction remaining as [|r IH]; intros an w; cbn [retry_loop];
    pose proof (Hbody (llm_state w)) as Hstep;
    destruct (body (llm_state w)) as [[a|e] s1]; cbn [fst snd llm_state is_ok] in *.
  - destruct Hstep as (c & Hc & Hl & Hn). exists c. repeat split; auto; lia.
  - destruct Hstep as (c & Hc & Hl & Hn). exists c. repeat split; auto; try lia;
      discriminate.
  - destruct Hstep as (c & Hc & Hl & Hn). exists c. repeat split; auto; lia.
  - match goal with |- context [retry_loop r (an + 1)%Z wait body ?w1] =>
      pose proof (IH (an + 1)%Z w1) as Hrest
    end.
    cbn [llm_state] in Hrest.
    replace (n * Datatypes.S (Datatypes.S r)) with (n + n * Datatypes.S r) by lia.
    exact (sent_trans _ _ _ _ _ _ _ _ _ Hstep Hrest).
Qed.

(** One decorated call on preprocessed data: at most eighteen requests. *)
Lemma structured_analysis_requests (ns : list string) (s0 : string)
    (system : system_prompt) (user_prompt : string) (w : world (S * list request)) :
  sent 18 system user_prompt
    (is_ok (fst (@structured_analysis _ _ logged (preprocessed ns s0)
                   system user_prompt w)))
    (llm_state w)
    (llm_state (snd (@structured_analysis _ _ logged (preprocessed ns s0)
                       system user_prompt w))).
Proof.
  unfold structured_analysis, retry. cbn [Nat.sub].
  apply (retry_loop_requests _ _ 6). intros s. apply body_requests.
Qed.

(** The three calls of a run, in their order. *)
Lemma analyze_trends_requests_total (data : value) (w : world (S * list request)) :
  exists t c s : list value,
    snd (llm_state (snd (fst (@analyze_trends _ _ logged data w))))
    = snd (llm_state w)
      ++ map (request_for TrendsSchema trends_prompt) t
      ++ map (request_for CompetitorsSchema competitors_prompt) c
      ++ map (request_for SwotSchema swot_prompt) s
    /\ List.length t <= 18 /\ List.length c <= 18 /\ List.length s <= 18
    /\ (is_ok (fst (fst (@analyze_trends _ _ logged data w))) = true ->
        t <> [] /\ c <> [] /\ s <> []).
Proof.
  unfold analyze_trends.
  destruct (preprocess_data data) as [processed|e0] eqn:Hp.
  2:{ exists [], [], []. cbn. rewrite app_nil_r. repeat split; try lia; discriminate. }
  destruct (preprocess_data_shape _ _ Hp) as (ns & s0 & ->).
  unfold analyze_with_fallback, analyze_competitors, swot_analysis.
  change (get_system_prompt "trends") with TrendsSchema.
  pose proof (structured_analysis_requests ns s0 TrendsSchema trends_prompt w) as H1.
  destruct (@structured_analysis _ _ logged (preprocessed ns s0) TrendsSchema trends_prompt w)
    as [[t|e1] w1]; cbn [fst snd is_ok] in H1; destruct H1 as (c1 & E1 & L1 & N1).
  2:{ exists c1, [], []. cbn [fst snd is_ok map app List.length]. rewrite app_nil_r.
      repeat split; try lia; try assumption; discriminate. }
  pose proof (structured_analysis_requests ns s0 CompetitorsSchema competitors_prompt w1) as H2.
  destruct (@structured_analysis _ _ logged (preprocessed ns s0) CompetitorsSchema
              competitors_prompt w1)
    as [[c|e2] w2]; cbn [fst snd is_ok] in H2; destruct H2 as (c2 & E2 & L2 & N2).
  2:{ exists c1, c2, []. cbn [fst snd is_ok map app List.length].
      rewrite app_nil_r, E2, E1, <- app_assoc.
      repeat split; try lia; discriminate. }
  pose proof (structured_analysis_requests ns s0 SwotSchema swot_prompt w2) as H3.
  destruct (@structured_analysis _ _ logged (preprocessed ns s0) SwotSchema swot_prompt w2)
    as [[s|e3] w3]; cbn [fst snd is_ok] in H3; destruct H3 as (c3 & E3 & L3 & N3).
  2:{ exists c1, c2, c3. cbn [fst snd is_ok].
      rewrite E3, E2, E1, <- !app_assoc.
      repeat split; try lia; discriminate. }
  exists c1, c2, c3. cbv zeta.
  destruct (postprocess_analysis _) as [[u|e4] st]; cbn [fst snd is_ok];
    rewrite E3, E2, E1, <- !app_assoc; repeat split; try lia; auto; discriminate.
Qed.

End Requests.

(** X20: with a service that records what it is sent, a run of
    [analyze_trends] sends first the requests of the trend call, then those
    of the competitor call, then those of the SWOT call, each request holding
    that call's instruction and question and one chunk; no call sends more
    than eighteen requests, so a run sends at most 54, and a run that returns
    has sent at least one request for each call. *)
Theorem analyze_trends_requests `{Runtime} {S : Type} `{LLM S}
    (data : value) (w : world (S * list request)) :
  let out := @analyze_trends _ _ logged data w in
  exists t c s : list value,
    snd (llm_state (snd (fst out)))
    = snd (llm_state w)
      ++ map (request_for TrendsSchema trends_prompt) t
      ++ map (request_for CompetitorsSchema competitors_prompt) c
      ++ map (request_for SwotSchema swot_prompt) s
    /\ List.length t <= 18 /\ List.length c <= 18 /\ List.length s <= 18
    /\ (is_ok (fst (fst out)) = true -> t <> [] /\ c <> [] /\ s <> []).
Proof. apply analyze_trends_requests_total. Qed.

(** ** When the merge returns, and what the last value decides *)

Section MergerOutcome.
Context `{Runtime}.

Lemma merge_value_kind (old : option value) (v x : value) :
  merge_value old v = Ok x ->
  is_list x = is_list v /\ is_dict x = is_dict v
  /\ (is_list v = false -> is_dict v = false -> is_str x = true).
Proof.
  destruct v as [|b|n|q|s|l|d]; destruct old as [[|b'|n'|q'|s'|l'|d']|]; cbn;
    intros Hrun; try discriminate; injection Hrun as <-; repeat split;
    intros; first [reflexivity | discriminate].
Qed.

Lemma merge_value_ok (old : option value) (v : value) :
  is_ok (merge_value old v)
  = match old with
    | Some previous => combines previous v
    | None => true
    end.
Proof.
  destruct v as [|b|n|q|s|l|d]; destruct old as [[|b'|n'|q'|s'|l'|d']|]; reflexivity.
Qed.

Lemma combines_kind (p a v : value) :
  is_list p = is_list a -> is_dict p = is_dict a -> combines p v = combines a v.
Proof. intros Hl Hd. unfold combines. now rewrite Hl, Hd. Qed.

Lemma merge_values_some_ok (vs : list value) :
  forall p a,
    is_list p = is_list a -> is_dict p = is_dict a ->
    is_ok (merge_values (Some p) vs) = mergeable (a :: vs).
Proof.
  induction vs as [|v rest IH]; intros p a Hl Hd; [reflexivity|].
  cbn [merge_values mergeable].
  pose proof (merge_value_ok (Some p) v) as Hok. cbn in Hok.
  rewrite <- (combines_kind p a v Hl Hd).
  destruct (merge_value (Some p) v) as [x|e] eqn:Hv; cbn [rbind is_ok] in *.
  - rewrite <- Hok. cbn [andb].
    destruct (merge_value_kind _ _ _ Hv) as (Hxl & Hxd & _). now apply IH.
  - now rewrite <- Hok.
Qed.

Lemma merge_values_none_ok (vs : list value) :
  is_ok (merge_values None vs) = mergeable vs.
Proof.
  destruct vs as [|v rest]; [reflexivity|]. cbn [merge_values].
  pose proof (merge_value_ok None v) as Hok.
  destruct (merge_value None v) as [x|e] eqn:Hv; [|discriminate].
  cbn [rbind]. destruct (merge_value_kind _ _ _ Hv) as (Hxl & Hxd & _).
  now apply merge_values_some_ok.
Qed.

Lemma merge_value_raise (old : option value) (v : value) (e : exn) :
  merge_value old v = Raise e -> e = AttributeError.
Proof.
  destruct v as [|b|n|q|s|l|d]; destruct old as [[|b'|n'|q'|s'|l'|d']|]; cbn;
    intros Hrun; try discriminate; now injection Hrun.
Qed.

Lemma merge_items_raise (items : list (string * value)) :
  forall merged e, merge_items merged items = Raise e -> e = AttributeError.
Proof.
  induction items as [|[k v] rest IH]; intros merged e Hrun; cbn [merge_items] in Hrun;
    [discriminate|].
  unfold merge_item in Hrun.
  destruct (merge_value (dict_get merged k) v) as [x|e'] eqn:Hv; cbn [rbind] in Hrun.
  - now apply IH in Hrun.
  - injection Hrun as <-. now apply merge_value_raise in Hv.
Qed.

Lemma merge_from_raise (responses : list value) :
  forall merged e, merge_from merged responses = Raise e -> e = AttributeError.
Proof.
  induction responses as [|r rest IH]; intros merged e Hrun; cbn [merge_from] in Hrun;
    [discriminate|].
  destruct (merge_response merged r) as [m|e'] eqn:Hr; cbn [rbind] in Hrun.
  - now apply IH in Hrun.
  - injection Hrun as <-.
    destruct r; cbn [merge_response] in Hr; try (now injection Hr).
    now apply merge_items_raise in Hr.
Qed.

Lemma merge_from_dicts (responses : list value) :
  forall merged merged',
    merge_from merged responses = Ok merged' ->
    Forall (fun r => is_dict r = true) responses.
Proof.
  induction responses as [|r rest IH]; intros merged merged' Hrun; [constructor|].
  cbn [merge_from] in Hrun.
  destruct (merge_response merged r) as [m|e'] eqn:Hr; cbn [rbind] in Hrun; [|discriminate].
  constructor; [|now apply IH in Hrun].
  destruct r; cbn [merge_response] in Hr; try discriminate. reflexivity.
Qed.

Lemma merge_responses_ok (responses : list value) (v : value) :
  merge_responses responses = Ok v ->
  exists merged, v = VDict merged /\ merge_from [] responses = Ok merged.
Proof.
  unfold merge_responses.
  destruct (merge_from [] responses) as [merged|]; [|discriminate].
  intros [= <-]. now exists merged.
Qed.

(** The value under a key after the merge, from the last value met. *)
Lemma merge_values_last (pre : list value) (v : value) (o : option value) :
  merge_values None (pre ++ [v]) = Ok o ->
  exists before x,
    merge_values None pre = Ok before /\ merge_value before v = Ok x /\ o = Some x.
Proof.
  rewrite merge_values_app.
  destruct (merge_values None pre) as [before|]; [|discriminate].
  cbn [rbind merge_values].
  destruct (merge_value before v) as [x|] eqn:Hv; [|discriminate].
  cbn [rbind]. intros [= <-]. now exists before, x.
Qed.

End MergerOutcome.

(** X21: [merge_responses] returns exactly when every response is a mapping
    and, under every key, each value combines with the one met before it: a
    list follows only a list and a mapping only a mapping, while a string or
    a number may follow anything. When it does not return, the exception is
    AttributeError. *)
Theorem merge_responses_returns_iff `{Runtime} (responses : list value) :
  (is_ok (merge_responses responses) = true
   <-> Forall (fun r => is_dict r = true) responses
       /\ forall key, mergeable (values_at key responses) = true)
  /\ (forall e, merge_responses responses = Raise e -> e = AttributeError).
Proof.
  split; [split|].
  - intros Hok. destruct (merge_responses responses) as [v|] eqn:Hrun; [|discriminate].
    destruct (merge_responses_ok _ _ Hrun) as (merged & -> & Hfrom).
    split; [exact (merge_from_dicts _ _ _ Hfrom)|].
    intros key. rewrite <- merge_values_none_ok.
    change None with (dict_get [] key).
    now rewrite (merge_from_field key responses [] merged Hfrom).
  - intros [Hdicts Hkeys].
    destruct (merge_from_total responses Hdicts []) as (merged & Hrun).
    + intros key. cbn [dict_get]. rewrite merge_values_none_ok. apply Hkeys.
    + unfold merge_responses. now rewrite Hrun.
  - intros e. unfold merge_responses.
    destruct (merge_from [] responses) as [merged|e'] eqn:Hrun; [discriminate|].
    cbn [rbind]. intros [= <-]. exact (merge_from_raise _ _ _ Hrun).
Qed.

(** X22: in what [merge_responses] returns a key is present exactly when
    some response has it, and the kind of its value is decided by the last
    value met under it: a list gives a list, a mapping a mapping, anything
    else a string. So a string or number met after a list does not fail: it
    replaces the list by the text of the list, a line break and itself,
    stripped. *)
Theorem merge_responses_last_value `{Runtime} (responses : list value) (merged : dict) :
  merge_responses responses = Ok (VDict merged) ->
  forall key,
    (dict_get merged key = None <-> values_at key responses = [])
    /\ (forall pre v,
           values_at key responses = pre ++ [v] ->
           exists x,
             dict_get merged key = Some x
             /\ is_list x = is_list v /\ is_dict x = is_dict v
             /\ (is_list v = false -> is_dict v = false -> is_str x = true))
    /\ (forall pre l v,
           values_at key responses = pre ++ [VList l; v] ->
           is_list v = false -> is_dict v = false ->
           exists sofar,
             dict_get merged key
             = Some (VStr (strip (repr_value (VList sofar) ++ nl ++ py_str v)%string))).
Proof.
  intros Hrun key.
  destruct (merge_responses_ok _ _ Hrun) as (m & [= <-] & Hfrom).
  pose proof (merge_from_field key responses [] merged Hfrom) as Hfield.
  cbn [dict_get] in Hfield.
  assert (Hlast : forall pre v,
             values_at key responses = pre ++ [v] ->
             exists before x,
               merge_values None pre = Ok before /\ merge_value before v = Ok x
               /\ dict_get merged key = Some x).
  { intros pre v Hvals. rewrite Hvals in Hfield.
    destruct (merge_values_last _ _ _ Hfield) as (before & x & Hb & Hv & Hx).
    now exists before, x. }
  split; [split|split].
  - intros Hnone.
    destruct (values_at key responses) as [|v0 vs] eqn:Hvals; [reflexivity|].
    destruct (@exists_last _ (v0 :: vs)) as (pre & v & Hsplit); [discriminate|].
    destruct (Hlast pre v Hsplit) as (before & x & _ & _ & Hx). congruence.
  - intros Hnil. rewrite Hnil in Hfield. cbn in Hfield. congruence.
  - intros pre v Hvals.
    destruct (Hlast pre v Hvals) as (before & x & _ & Hv & Hx).
    exists x. split; [exact Hx|]. exact (merge_value_kind _ _ _ Hv).
  - intros pre l v Hvals Hl Hd.
    change (pre ++ [VList l; v]) with (pre ++ [VList l] ++ [v]) in Hvals.
    rewrite app_assoc in Hvals.
    destruct (Hlast _ v Hvals) as (before & x & Hb & Hv & Hx).
    destruct (merge_values_last _ _ _ Hb) as (b0 & xl & _ & Hxl & ->).
    destruct (merge_value_kind _ _ _ Hxl) as (Hkind & _). cbn in Hkind.
    destruct xl as [| | | | |sofar|]; try discriminate.
    exists sofar. rewrite Hx. f_equal.
    destruct v as [|b|n|q|s|l'|d']; cbn in Hv, Hl, Hd; try discriminate;
      now injection Hv as <-.
Qed.

Lemma merge_responses_last_value_witness :
  exists merged,
    @merge_responses Stub.plain [VDict [("a", VList [VInt 1])]; VDict [("a", VStr "x")]]
    = Ok (VDict merged)
    /\ forall key,
         dict_get merged key = None
         <-> values_at key [VDict [("a", VList [VInt 1])]; VDict [("a", VStr "x")]] = [].
Proof.
  eexists. split; [vm_compute; reflexivity|].
  intros key.
  apply (@merge_responses_last_value Stub.plain
           [VDict [("a", VList [VInt 1])]; VDict [("a", VStr "x")]] _ eq_refl key).
Defined.

(** ** What the structure validator says *)

Lemma existsb_keys (d : dict) (f : string) :
  existsb (String.eqb f) (dict_keys d) = dict_mem d f.
Proof.
  unfold dict_mem. induction d as [|[k v] d IH]; cbn [dict_keys map fst existsb dict_get];
    [reflexivity|].
  destruct (String.eqb f k); [reflexivity|exact IH].
Qed.

Lemma check_competitor_dict (d : dict) (st : pstate) :
  exists ws,
    check_competitor (VDict d) st
    = (Ok tt, {| analysis := analysis st; printed := printed st ++ ws |})
    /\ (ws = [] <-> complete_competitor (VDict d) = true)
    /\ List.length ws <= 2.
Proof.
  unfold check_competitor, complete_competitor, bind, lift, print, ret.
  cbn [keys_method get_method filter required_competitor_fields].
  rewrite !existsb_keys. fold (dict_get_default d "name" VNone).
  fold (dict_get_default d "market_share" (VInt 0)).
  destruct (dict_mem d "name"), (dict_mem d "market_share"),
    (is_number (dict_get_default d "market_share" (VInt 0)));
    cbn [negb andb analysis printed];
    rewrite <- ?app_assoc; cbn [app];
    first
      [ solve [ exists []; rewrite app_nil_r; destruct st as [a p]; cbn [analysis printed];
                split; [reflexivity|]; split; [split; intros; reflexivity|cbn; lia] ]
      | solve [ eexists; split; [reflexivity|];
                split; [split; intros; discriminate|cbn; lia] ] ].
Qed.

Lemma check_competitor_other (c : value) (st : pstate) :
  is_dict c = false -> check_competitor c st = (Raise AttributeError, st).
Proof. destruct c; try discriminate; reflexivity. Qed.

Lemma check_competitors_run (items : list value) :
  forall st,
    if forallb is_dict items then
      exists ws,
        for_each items check_competitor st
        = (Ok tt, {| analysis := analysis st; printed := printed st ++ ws |})
        /\ (ws = [] <-> forallb complete_competitor items = true)
        /\ List.length ws <= 2 * List.length items
    else fst (for_each items check_competitor st) = Raise AttributeError.
Proof.
  induction items as [|c rest IH]; intros st; cbn [forallb for_each].
  - exists []. rewrite app_nil_r. destruct st. repeat split. cbn. lia.
  - unfold bind. destruct c as [| | | | | |d]; try reflexivity.
    cbn [is_dict andb].
    destruct (check_competitor_dict d st) as (ws & -> & Hsilent & Hlen).
    specialize (IH {| analysis := analysis st; printed := printed st ++ ws |}).
    destruct (forallb is_dict rest); [|exact IH].
    destruct IH as (ws' & -> & Hsilent' & Hlen'). cbn [analysis printed].
    exists (ws ++ ws'). rewrite app_assoc. split; [reflexivity|]. split.
    + rewrite andb_true_iff, <- Hsilent, <- Hsilent'. split.
      * intros Hnil. now apply app_eq_nil in Hnil.
      * now intros [-> ->].
    + rewrite length_app. cbn [List.length]. lia.
Qed.

(** X23: when [competitors] is a mapping whose [top_competitors] can be
    iterated, the structure validator returns exactly when every competitor
    is a mapping, and raises AttributeError otherwise; when it returns it
    leaves the analysis as it was and prints at most two warnings for each
    competitor, none at all exactly when every competitor has a [name] and a
    numeric [market_share]. A missing [market_share] is reported as missing,
    not as invalid. *)
Theorem validate_data_structure_outcome
    (st : pstate) (competitors : dict) (items : list value) :
  dict_get (analysis st) "competitors" = Some (VDict competitors) ->
  py_iter (dict_get_default competitors "top_competitors" (VList [])) = Ok items ->
  (forallb is_dict items = false ->
   fst (validate_data_structure st) = Raise AttributeError)
  /\ (forallb is_dict items = true ->
      exists ws,
        validate_data_structure st
        = (Ok tt, {| analysis := analysis st; printed := printed st ++ ws |})
        /\ (ws = [] <-> forallb complete_competitor items = true)
        /\ List.length ws <= 2 * List.length items)
  /\ (forall d, dict_mem d "market_share" = false ->
                forall st0, snd (check_competitor (VDict d) st0)
                            = {| analysis := analysis st0;
                                 printed := printed st0
                                            ++ [MissingField (dict_get_default d "name" VNone)
                                                  (if dict_mem d "name"
                                                   then ["market_share"]
                                                   else ["name"; "market_share"])] |}).
Proof.
  intros Hget Hiter.
  assert (Hrun : validate_data_structure st = for_each items check_competitor st).
  { unfold validate_data_structure, bind, read_analysis, lift. rewrite Hget.
    cbn [get_method]. fold (dict_get_default competitors "top_competitors" (VList [])).
    now rewrite Hiter. }
  rewrite Hrun. pose proof (check_competitors_run items st) as Hitems.
  split; [|split].
  - intros Hbad. now rewrite Hbad in Hitems.
  - intros Hgood. now rewrite Hgood in Hitems.
  - intros d Hshare st0.
    unfold check_competitor, bind, lift, print, ret.
    cbn [keys_method get_method filter required_competitor_fields].
    rewrite !existsb_keys, Hshare. fold (dict_get_default d "name" VNone).
    assert (Hnone : dict_get d "market_share" = None).
    { unfold dict_mem in Hshare. now destruct (dict_get d "market_share"). }
    rewrite Hnone. destruct (dict_mem d "name"); reflexivity.
Qed.

Lemma validate_data_structure_outcome_witness :
  let st := {| analysis := [("competitors",
                             VDict [("top_competitors",
                                     VList [VDict [("name", VStr "A")]])])];
               printed := [] |} in
  fst (validate_data_structure st) = Ok tt
  /\ printed (snd (validate_data_structure st))
     = [MissingField (VStr "A") ["market_share"]].
Proof.
  destruct (validate_data_structure_outcome
              {| analysis := [("competitors",
                               VDict [("top_competitors",
                                       VList [VDict [("name", VStr "A")]])])];
                 printed := [] |}
              [("top_competitors", VList [VDict [("name", VStr "A")]])]
              [VDict [("name", VStr "A")]] eq_refl eq_refl)
    as (_ & Hgood & _).
  destruct (Hgood eq_refl) as (ws & Hrun & _).
  cbv zeta. rewrite Hrun. split; [reflexivity|].
  vm_compute in Hrun. injection Hrun as <-. reflexivity.
Defined.

(** ** Report prompt *)

Lemma forallb_false_In {A} (f : A -> bool) (l : list A) :
  forallb f l = false -> exists x, In x l /\ f x = false.
Proof.
  induction l as [|a l IH]; cbn [forallb]; [discriminate|].
  destruct (f a) eqn:Ea; cbn [andb].
  - intros Hl. destruct (IH Hl) as (x & Hx & Hfx). exists x. split; [now right|exact Hfx].
  - intros _. exists a. split; [now left|exact Ea].
Qed.

Lemma In_firstn {A} (n : nat) (l : list A) (x : A) : In x (firstn n l) -> In x l.
Proof.
  revert l. induction n as [|n IH]; intros [|a l]; cbn [firstn]; try contradiction.
  intros [->|Hin]; [now left|right; now apply IH].
Qed.

Lemma validate_data_structure_items (st : pstate) (competitors : dict) (items : list value) :
  dict_get (analysis st) "competitors" = Some (VDict competitors) ->
  py_iter (dict_get_default competitors "top_competitors" (VList [])) = Ok items ->
  validate_data_structure st = for_each items check_competitor st.
Proof.
  intros Hget Hiter.
  unfold validate_data_structure, bind, read_analysis, lift. rewrite Hget.
  cbn [get_method]. fold (dict_get_default competitors "top_competitors" (VList [])).
  now rewrite Hiter.
Qed.

Lemma subscript_ok (d : dict) (k : string) :
  is_ok (subscript (VDict d) k) = dict_mem d k.
Proof. unfold dict_mem. cbn [subscript]. now destruct (dict_get d k). Qed.

Section Report.
Context `{Runtime} `{Calendar}.

Lemma competitor_row_needs (comp : value) :
  is_ok (subscript comp "name") && is_ok (subscript comp "market_share") = false ->
  is_ok (competitor_row comp) = false.
Proof.
  unfold competitor_row.
  destruct (subscript comp "name") as [name|]; [|reflexivity].
  destruct (subscript comp "market_share") as [share|]; [discriminate|reflexivity].
Qed.

Lemma build_prompt_table (a competitors : dict) (top : value) :
  dict_get a "competitors" = Some (VDict competitors) ->
  dict_get competitors "top_competitors" = Some top ->
  _build_prompt (VDict a)
  = (do top5 <- slice_to 5 top;
     do table <- _format_competitors_table top5;
     do input_data <- _format_input_data (VDict a);
     Ok (prompt_head ++ table ++ prompt_middle ++ input_data ++ prompt_tail)%string)%result.
Proof.
  intros Hget Htop. unfold _build_prompt. cbn [subscript]. rewrite Hget.
  cbn [rbind subscript]. rewrite Htop. reflexivity.
Qed.

End Report.

(** X24: a warning of the structure validator does not stop the run, but the
    report does not survive what it warned about. When every competitor is a
    mapping and one of the first five lacks [name] or [market_share], the
    validator returns, leaves the analysis as it was and prints a warning,
    and on that very analysis [_build_prompt] raises, so that
    [create_report] raises too, before it has called its service. *)
Theorem build_prompt_needs_complete_competitors `{Runtime} `{Calendar}
    {S : Type} `{ReportService S}
    (st : pstate) (competitors : dict) (items : list value) (s : S) :
  dict_get (analysis st) "competitors" = Some (VDict competitors) ->
  dict_get competitors "top_competitors" = Some (VList items) ->
  forallb is_dict items = true ->
  forallb (fun c => is_ok (subscript c "name") && is_ok (subscript c "market_share"))
    (firstn 5 items) = false ->
  fst (validate_data_structure st) = Ok tt
  /\ analysis (snd (validate_data_structure st)) = analysis st
  /\ printed (snd (validate_data_structure st)) <> printed st
  /\ is_ok (_build_prompt (VDict (analysis st))) = false
  /\ exists e, create_report (VDict (analysis st)) s = (Raise e, s).
Proof.
  intros Hget Htop Hdicts Hbad.
  assert (Hprompt : is_ok (_build_prompt (VDict (analysis st))) = false).
  { destruct (forallb_false_In _ _ Hbad) as (x & Hin & Hx).
    rewrite (build_prompt_table _ _ _ Hget Htop). cbn [slice_to rbind].
    unfold _format_competitors_table. cbn [py_iter rbind].
    pose proof (rmap_not_ok competitor_row _ x Hin (competitor_row_needs x Hx)) as Hrows.
    destruct (rmap competitor_row (firstn 5 items)); [discriminate|reflexivity]. }
  destruct (forallb_false_In _ _ Hbad) as (x & Hin & Hx).
  assert (Hiter : py_iter (dict_get_default competitors "top_competitors" (VList []))
                  = Ok items).
  { unfold dict_get_default. now rewrite Htop. }
  rewrite (validate_data_structure_items st competitors items Hget Hiter).
  pose proof (check_competitors_run items st) as Hrun. rewrite Hdicts in Hrun.
  destruct Hrun as (ws & -> & Hsilent & _). cbn [fst snd analysis printed].
  split; [reflexivity|]. split; [reflexivity|]. split.
  - intros Heq. rewrite <- (app_nil_r (printed st)) in Heq at 2.
    apply app_inv_head in Heq. apply Hsilent in Heq.
    rewrite forallb_forall in Heq. specialize (Heq x (In_firstn _ _ _ Hin)).
    rewrite forallb_forall in Hdicts. specialize (Hdicts x (In_firstn _ _ _ Hin)).
    destruct x as [| | | | | |d]; try discriminate.
    rewrite !subscript_ok in Hx. unfold complete_competitor in Heq.
    rewrite Hx in Heq. discriminate.
  - split; [exact Hprompt|]. unfold create_report.
    destruct (_build_prompt (VDict (analysis st))) as [prompt|e]; [discriminate|].
    now exists e.
Qed.

Lemma build_prompt_needs_complete_competitors_witness :
  let st := {| analysis := [("competitors",
                             VDict [("top_competitors",
                                     VList [VDict [("market_share", VInt 10)]])])];
               printed := [] |} in
  fst (validate_data_structure st) = Ok tt
  /\ analysis (snd (validate_data_structure st)) = analysis st
  /\ printed (snd (validate_data_structure st)) <> printed st
  /\ is_ok (@_build_prompt Stub.plain ReportStub.calendar (VDict (analysis st))) = false
  /\ exists e, @create_report Stub.plain ReportStub.calendar unit ReportStub.echo
                 (VDict (analysis st)) tt = (Raise e, tt).
Proof.
  apply (@build_prompt_needs_complete_competitors Stub.plain ReportStub.calendar
           unit ReportStub.echo
           {| analysis := [("competitors",
                            VDict [("top_competitors",
                                    VList [VDict [("market_share", VInt 10)]])])];
              printed := [] |}
           [("top_competitors", VList [VDict [("market_share", VInt 10)]])]
           [VDict [("market_share", VInt 10)]] tt); reflexivity.
Defined.

(** The four headings of the SWOT text. *)
Example title_categories :
  map title swot_categories = ["Strengths"; "Weaknesses"; "Opportunities"; "Threats"].
Proof. reflexivity. Qed.



(** X26: on what [analyze_trends] returns, the part of the prompt drawn from
    the metadata always renders, provided the date library reads the
    timestamp of the run: the date, the one source [web_search] and the
    quality score. Building the prompt then succeeds exactly when the table
    of the first five competitors and the SWOT text do. *)
Theorem build_prompt_after_analysis `{Runtime} `{Calendar} {S : Type} `{LLM S}
    (data : value) (w : world S) (final : value) (date : string) :
  format_iso_date utc_now_iso = Some date ->
  fst (fst (analyze_trends data w)) = Ok final ->
  exists a competitors swot l,
    final = VDict a
    /\ dict_get a "competitors" = Some (VDict competitors)
    /\ dict_get a "swot" = Some (VDict swot)
    /\ dict_get a "trends" = Some (VList l)
    /\ _format_input_data final
       = (do swot_text <- _format_swot (VDict swot);
          Ok ("
### Market Context
- Analysis Date: " ++ date ++ "
- Data Sources: web_search
- Analysis Quality: " ++ repr_value (VFloat (quality_of_count (List.length l))) ++ "/1.0

### SWOT Analysis
" ++ swot_text ++ nl)%string)%result
    /\ is_ok (_build_prompt final)
       = is_ok (do top <- subscript (VDict competitors) "top_competitors";
                do top5 <- slice_to 5 top;
                _format_competitors_table top5)%result
         && is_ok (_format_swot (VDict swot)).
Proof.
  intros Hdate Hrun.
  destruct (analyze_trends_ok data w final Hrun)
    as (processed & t & w1 & c & w2 & s & w3 & a & l
        & Hp & Ht1 & Hc2 & Hs3 & -> & Hk & Ht & Hsub & Hc & Hs & Hm).
  exists a, c, s, l. repeat (split; [first [reflexivity | assumption]|]).
  assert (Hinput : _format_input_data (VDict a)
                   = (do swot_text <- _format_swot (VDict s);
                      Ok ("
### Market Context
- Analysis Date: " ++ date ++ "
- Data Sources: web_search
- Analysis Quality: " ++ repr_value (VFloat (quality_of_count (List.length l))) ++ "/1.0

### SWOT Analysis
" ++ swot_text ++ nl)%string)%result).
  { unfold _format_input_data. cbn [subscript]. rewrite Hm, Hs.
    cbn [rbind subscript dict_get String.eqb Ascii.eqb Bool.eqb format_date].
    rewrite Hdate.
    cbn [rbind join_method py_iter rmap as_str join String.concat py_str].
    destruct (_format_swot (VDict s)) as [swot_text|]; [|reflexivity].
    reflexivity. }
  split; [exact Hinput|].
  unfold _build_prompt. cbn [subscript]. rewrite Hc. cbn [rbind subscript].
  destruct (dict_get c "top_competitors") as [top|]; [|reflexivity].
  cbn [rbind]. destruct (slice_to 5 top) as [top5|]; [|reflexivity].
  cbn [rbind]. destruct (_format_competitors_table top5) as [table|]; [|reflexivity].
  cbn [rbind is_ok andb]. rewrite Hinput.
  destruct (_format_swot (VDict s)); reflexivity.
Qed.

Lemma build_prompt_after_analysis_witness :
  exists final,
    fst (fst (@analyze_trends Stub.plain unit Stub.fixed Stub.raw_data (Stub.start tt)))
    = Ok final
    /\ exists a competitors swot l,
         final = VDict a
         /\ dict_get a "competitors" = Some (VDict competitors)
         /\ dict_get a "swot" = Some (VDict swot)
         /\ dict_get a "trends" = Some (VList l)
         /\ @_format_input_data Stub.plain ReportStub.calendar final
            = (do swot_text <- @_format_swot Stub.plain (VDict swot);
               Ok ("
### Market Context
- Analysis Date: " ++ "01/01/2024" ++ "
- Data Sources: web_search
- Analysis Quality: "
                   ++ @repr_value Stub.plain (VFloat (quality_of_count (List.length l)))
                   ++ "/1.0

### SWOT Analysis
" ++ swot_text ++ nl)%string)%result
         /\ is_ok (@_build_prompt Stub.plain ReportStub.calendar final)
            = is_ok (do top <- subscript (VDict competitors) "top_competitors";
                     do top5 <- slice_to 5 top;
                     @_format_competitors_table Stub.plain top5)%result
              && is_ok (@_format_swot Stub.plain (VDict swot)).
Proof.
  eexists. split; [vm_compute; reflexivity|].
  apply (@build_prompt_after_analysis Stub.plain ReportStub.calendar unit Stub.fixed
           Stub.raw_data (Stub.start tt) _ "01/01/2024").
  - reflexivity.
  - vm_compute. reflexivity.
Defined.

(** ** How a run can fail *)



















Section Failures.
Context `{Runtime}.




Local Notation dedupe_body :=
  (fun key : string =>
     (a <- read_analysis ;;
      match dict_get a key with
      | Some v =>
          items <- lift (py_iter v) ;;
          unique_list <- lift (dedupe_loop items [] []) ;;
          set_item key (VList unique_list)
      | None => ret tt
      end)%M).


End Failures.

Section FailureModes.
Context `{Runtime} {S : Type} `{LLM S}.



End FailureModes.


